(** * Loyalty-points pipeline ([points-to-bq/main_gcf.py]): model and properties

    A shallow embedding of the Cloud Function that turns one point-of-sale
    order into one order row and its item rows, together with the properties
    the specification states about it.

    Conventions of the embedding:
    - a Python function that can raise returns [result A];
    - Python [float] is binary64, modelled by [spec_float] with the Standard
      Library's reference operations at precision 53 and maximal exponent 1024;
    - a parsed JSON document is a [pyobj]; JSON objects are finite maps with
      string keys;
    - a Python [str] is a [string] (code points below 256);
    - the module-level globals, the time-zone table and the callable that the
      expression [datetime.time] denotes are collected in [Env];
    - the outside world (bucket listing, clock, warehouse, acknowledgements)
      is the record [World], threaded explicitly.

    The embedding is of the bodies of the functions.  (The signatures of the
    module name [Optional], [List] and [Any], which the module does not
    import.) *)

From stdpp Require Import gmap strings list fin_maps.
From Stdlib Require Import ZArith Ascii String.
From Stdlib Require Import Floats.SpecFloat Floats.PrimFloat Floats.FloatOps.

#[local] Set Warnings "-register-all,-inexact-float".
#[local] Open Scope Z_scope.

(** ** Exceptions and results *)

(** The exception classes the module can meet.  All of them derive from
    [Exception]; [JSONDecodeError] and [UnicodeDecodeError] derive from
    [ValueError].  [OtherError] stands for any other [Exception] raised by a
    client library (network failures, API errors). *)
Inductive exn :=
| KeyError
| IndexError
| ValueError
| TypeError
| AttributeError
| OverflowError
| JSONDecodeError
| UnicodeDecodeError
| NotFound
| OtherError (tag : string).

Inductive result (A : Type) :=
| Ok (a : A)
| Raise (e : exn).
Arguments Ok {A} a.
Arguments Raise {A} e.

Definition rbind {A B} (r : result A) (k : A -> result B) : result B :=
  match r with
  | Ok a => k a
  | Raise e => Raise e
  end.

Notation "'let?' x ':=' r 'in' k" := (rbind r (fun x => k))
  (at level 10, x name, r at level 100, k at level 200).
Notation "'let?' ' p ':=' r 'in' k" := (rbind r (fun x => match x with p => k end))
  (at level 10, p pattern, r at level 100, k at level 200).

(** [isinstance(e, ValueError)]. *)
Definition is_ValueError (e : exn) : bool :=
  match e with
  | ValueError | JSONDecodeError | UnicodeDecodeError => true
  | _ => false
  end.

(** ** Binary64 floats *)

Abbreviation float := spec_float.

Definition fadd : float -> float -> float := SFadd prec emax.
Definition fmul : float -> float -> float := SFmul prec emax.
Definition flt : float -> float -> bool := SFltb.
Definition fle : float -> float -> bool := SFleb.
Definition feq : float -> float -> bool := SFeqb.

Definition fzero : float := S754_zero false.
Definition fone : float := S754_finite false 4503599627370496 (-52).

(** [float(n)] for a Python [int]: the nearest binary64, ties to even;
    [OverflowError] when the nearest value is an infinity. *)
Definition float_of_int (z : Z) : result float :=
  match binary_normalize prec emax z 0 false with
  | S754_infinity _ => Raise OverflowError
  | f => Ok f
  end.

(** The value [n * 10^e10] (for [n > 0]) rounded to the nearest binary64, ties
    to even; an overflow gives the infinity and an underflow gives zero, as
    [float(str)] does. *)
Definition round_decimal (sign : bool) (n : positive) (e10 : Z) : float :=
  if 0 <=? e10 then binary_round prec emax sign (n * Z.to_pos (10 ^ e10))%positive 0
  else
    let '(q, e, l) := SFdiv_core_binary prec emax (Zpos n) 0 (10 ^ (- e10)) 0 in
    binary_round_aux prec emax sign q e l.

(** ** Characters and strings *)

Definition code (c : ascii) : Z := Z.of_N (N_of_ascii c).

Definition is_digit (c : ascii) : bool := (48 <=? code c) && (code c <=? 57).

Definition digit_value (c : ascii) : Z := code c - 48.

(** The characters [float] skips around a number: the ASCII blanks, and the
    two blanks between code points 128 and 255. *)
Definition is_space (c : ascii) : bool :=
  let n := code c in
  ((9 <=? n) && (n <=? 13)) || (n =? 32) || (n =? 133) || (n =? 160).

Definition chars (s : string) : list ascii := list_ascii_of_string s.
Definition str (l : list ascii) : string := string_of_list_ascii l.

(** The decimal number a list of digits writes, most significant first. *)
Definition digits_value (ds : list ascii) : Z :=
  fold_left (fun acc c => 10 * acc + digit_value c) ds 0.

(** The longest prefix of digits, and the rest. *)
Fixpoint span_digits (l : list ascii) : list ascii * list ascii :=
  match l with
  | c :: r =>
      if is_digit c then
        let '(ds, rest) := span_digits r in (c :: ds, rest)
      else ([], l)
  | [] => ([], [])
  end.

Fixpoint drop_spaces (l : list ascii) : list ascii :=
  match l with
  | c :: r => if is_space c then drop_spaces r else l
  | [] => []
  end.

Definition strip (l : list ascii) : list ascii :=
  rev (drop_spaces (rev (drop_spaces l))).

Definition lower (c : ascii) : ascii :=
  let n := code c in
  if (65 <=? n) && (n <=? 90) then ascii_of_N (Z.to_N (n + 32)) else c.

(** [l] starts with [p], compared without case; the rest of [l] when it does. *)
Fixpoint strip_prefix_nocase (p l : list ascii) : option (list ascii) :=
  match p, l with
  | [], _ => Some l
  | a :: p', c :: l' =>
      if Ascii.eqb a (lower c) then strip_prefix_nocase p' l' else None
  | _ :: _, [] => None
  end.

(** ** [float(str)] *)

(** Underscores may only stand between two digits; they are dropped. *)
Fixpoint drop_underscores (prev : ascii) (l : list ascii) : option (list ascii) :=
  match l with
  | [] => if Ascii.eqb prev "_" then None else Some []
  | c :: r =>
      if Ascii.eqb c "_" then
        if is_digit prev then drop_underscores c r else None
      else if Ascii.eqb prev "_" && negb (is_digit c) then None
      else option_map (cons c) (drop_underscores c r)
  end.

Definition parse_sign (l : list ascii) : bool * list ascii :=
  match l with
  | c :: r =>
      if Ascii.eqb c "-" then (true, r)
      else if Ascii.eqb c "+" then (false, r)
      else (false, l)
  | [] => (false, [])
  end.

(** An exponent part is read only when it is complete ([e], an optional sign
    and at least one digit); otherwise nothing is consumed. *)
Definition parse_exponent (l : list ascii) : Z * list ascii :=
  match l with
  | c :: r =>
      if Ascii.eqb (lower c) "e" then
        let '(neg, r') := parse_sign r in
        let '(ds, rest) := span_digits r' in
        match ds with
        | [] => (0, l)
        | _ => (if neg then - digits_value ds else digits_value ds, rest)
        end
      else (0, l)
  | [] => (0, [])
  end.

Definition decimal_value (sign : bool) (n e10 : Z) : float :=
  match n with
  | Zpos p => round_decimal sign p e10
  | _ => S754_zero sign
  end.

Definition parse_decimal (sign : bool) (l : list ascii) : option float :=
  let '(d1, r1) := span_digits l in
  let '(d2, r2) :=
    match r1 with
    | c :: r => if Ascii.eqb c "." then span_digits r else ([], r1)
    | [] => ([], r1)
    end in
  match d1 ++ d2 with
  | [] => None
  | ds =>
      let '(e, r3) := parse_exponent r2 in
      match r3 with
      | [] => Some (decimal_value sign (digits_value ds) (e - Z.of_nat (List.length d2)))
      | _ => None
      end
  end.

Definition parse_inf_or_nan (sign : bool) (l : list ascii) : option (float * list ascii) :=
  match strip_prefix_nocase (chars "inf") l with
  | Some r =>
      match strip_prefix_nocase (chars "inity") r with
      | Some r' => Some (S754_infinity sign, r')
      | None => Some (S754_infinity sign, r)
      end
  | None =>
      match strip_prefix_nocase (chars "nan") l with
      | Some r => Some (S754_nan, r)
      | None => None
      end
  end.

(** [float(s)] for a [str]; [None] stands for [ValueError]. *)
Definition float_of_str (s : string) : option float :=
  match drop_underscores "000" (strip (chars s)) with
  | None => None
  | Some l =>
      let '(sign, r) := parse_sign l in
      match parse_inf_or_nan sign r with
      | Some (f, []) => Some f
      | Some (_, _ :: _) => None
      | None => parse_decimal sign r
      end
  end.

(** ** Python objects *)

(** What [json.loads] returns. *)
Inductive pyobj :=
| PyNone
| PyBool (b : bool)
| PyInt (z : Z)
| PyFloat (f : float)
| PyStr (s : string)
| PyList (l : list pyobj)
| PyDict (d : gmap string pyobj).

(** [bool(o)]. *)
Definition truthy (o : pyobj) : bool :=
  match o with
  | PyNone => false
  | PyBool b => b
  | PyInt z => negb (z =? 0)
  | PyFloat f => negb (feq f fzero)
  | PyStr s => negb (String.eqb s "")
  | PyList l => match l with [] => false | _ => true end
  | PyDict d => negb (bool_decide (d = ∅))
  end.

(** [o[k]] for a [str] key [k]. *)
Definition getitem (o : pyobj) (k : string) : result pyobj :=
  match o with
  | PyDict d => match d !! k with Some v => Ok v | None => Raise KeyError end
  | _ => Raise TypeError
  end.

(** [o[0]]. *)
Definition getitem0 (o : pyobj) : result pyobj :=
  match o with
  | PyList (x :: _) => Ok x
  | PyList [] => Raise IndexError
  | PyStr (String c _) => Ok (PyStr (String c ""))
  | PyStr EmptyString => Raise IndexError
  | PyDict _ => Raise KeyError
  | _ => Raise TypeError
  end.

(** [o.get(k, default)]. *)
Definition get (o : pyobj) (k : string) (dflt : pyobj) : result pyobj :=
  match o with
  | PyDict d => Ok (default dflt (d !! k))
  | _ => Raise AttributeError
  end.

(** [o[k] = v] for a [str] key [k]; the updated object. *)
Definition setitem (o : pyobj) (k : string) (v : pyobj) : result pyobj :=
  match o with
  | PyDict d => Ok (PyDict (<[k := v]> d))
  | _ => Raise TypeError
  end.

(** The elements [for x in o] visits. *)
Definition iterate (o : pyobj) : result (list pyobj) :=
  match o with
  | PyList l => Ok l
  | PyStr s => Ok (map (fun c => PyStr (String c "")) (chars s))
  | PyDict d => Ok (map (fun kv => PyStr kv.1) (map_to_list d))
  | _ => Raise TypeError
  end.

(** [float(o)]. *)
Definition py_float (o : pyobj) : result float :=
  match o with
  | PyFloat f => Ok f
  | PyInt z => float_of_int z
  | PyBool b => Ok (if b then fone else fzero)
  | PyStr s => match float_of_str s with Some f => Ok f | None => Raise ValueError end
  | _ => Raise TypeError
  end.

(** [min(l)] for a non-empty list of floats: the first element that no other
    element is [<] than. *)
Definition py_min (x : float) (l : list float) : float :=
  fold_left (fun m y => if flt y m then y else m) l x.

(** A Python number: an [int] or a [float]. *)
Inductive number :=
| NInt (z : Z)
| NFloat (f : float).

(** [sum(l)] for a list of floats.  The sum starts at the [int] 0, so the sum
    of no floats is the [int] 0, and the first float [x] is added as
    [float(0) + x].  The floats are added from left to right.  (From Python
    3.12 on, [sum] carries a compensation term along, which can change the
    last bits of a sum of three or more floats.) *)
Definition sum_nonempty (x : float) (r : list float) : float :=
  fold_left fadd r (fadd fzero x).

Definition py_sum (l : list float) : number :=
  match l with
  | [] => NInt 0
  | x :: r => NFloat (sum_nonempty x r)
  end.

(** [a == x] between a number and a float; an [int] is compared by value,
    without rounding. *)
Definition number_eq_float (a : number) (x : float) : bool :=
  match a with
  | NInt z =>
      match x with
      | S754_zero _ => z =? 0
      | S754_finite s m e =>
          if 0 <=? e then z =? cond_Zopp s (Zpos m * 2 ^ e)
          else cond_Zopp s (Zpos m) =? z * 2 ^ (- e)
      | _ => false
      end
  | NFloat f => feq f x
  end.

(** ** Dates and times *)

(** An aware [datetime]: the instant, in microseconds since 1970-01-01T00:00
    UTC, and the offset of its time zone at that instant, in seconds.  (A
    datetime without a zone is not modelled: [astimezone] would read it in the
    host's local zone.) *)
Record datetime := { utc_us : Z; utcoffset : Z }.

(** A time of day. *)
Record time := { hour : Z; minute : Z; second : Z; microsecond : Z }.

Definition day_us : Z := 86400000000.

Definition local_us (d : datetime) : Z := utc_us d + 1000000 * utcoffset d.

(** [d.time()]. *)
Definition datetime_time_of (d : datetime) : time :=
  let t := local_us d mod day_us in
  {| hour := t / 3600000000;
     minute := (t / 60000000) mod 60;
     second := (t / 1000000) mod 60;
     microsecond := t mod 1000000 |}.

(** [d.weekday()]: Monday is 0; 1970-01-01 was a Thursday. *)
Definition weekday (d : datetime) : Z := (local_us d / day_us + 3) mod 7.

(** Times of day compare as the tuples (hour, minute, second, microsecond). *)
Definition time_key (t : time) : Z :=
  ((hour t * 60 + minute t) * 60 + second t) * 1000000 + microsecond t.

Definition time_valid (t : time) : bool :=
  (0 <=? hour t) && (hour t <? 24) && (0 <=? minute t) && (minute t <? 60)
  && (0 <=? second t) && (second t <? 60)
  && (0 <=? microsecond t) && (microsecond t <? 1000000).

Definition time_le (a b : time) : bool := time_key a <=? time_key b.
Definition time_lt (a b : time) : bool := time_key a <? time_key b.

(** The class [time] of the module [datetime], called on three [int]s. *)
Definition time_class (h m s : Z) : result time :=
  let t := {| hour := h; minute := m; second := s; microsecond := 0 |} in
  if time_valid t then Ok t else Raise ValueError.

(** The method [time] of the class [datetime.datetime], called on three
    [int]s: the first one stands where the receiver is expected, and an [int]
    is not a [datetime]. *)
Definition datetime_method_time (h m s : Z) : result time := Raise TypeError.

(** Civil date to days since 1970-01-01 (proleptic Gregorian calendar). *)
Definition days_from_civil (y m d : Z) : Z :=
  let y' := if m <=? 2 then y - 1 else y in
  let era := y' / 400 in
  let yoe := y' - era * 400 in
  let mp := (m + 9) mod 12 in
  let doy := (153 * mp + 2) / 5 + d - 1 in
  let doe := yoe * 365 + yoe / 4 - yoe / 100 + doy in
  era * 146097 + doe - 719468.

(** The aware datetime [y-m-d T hh:mm:ss] at offset [off] seconds. *)
Definition datetime_of (y m d hh mm ss off : Z) : datetime :=
  {| utc_us := ((days_from_civil y m d * 86400 + hh * 3600 + mm * 60 + ss) - off) * 1000000;
     utcoffset := off |}.

Definition is_leap (y : Z) : bool :=
  ((y mod 4 =? 0) && negb (y mod 100 =? 0)) || (y mod 400 =? 0).

Definition days_in_month (y m : Z) : Z :=
  if m =? 2 then (if is_leap y then 29 else 28)
  else if (m =? 4) || (m =? 6) || (m =? 9) || (m =? 11) then 30
  else 31.

(** ** The module's environment *)

(** The globals read from the process environment when the module is loaded
    (lines 15-24), and what the module takes from its libraries:
    - [sao_paulo_utcoffset t]: the offset, in seconds, that the zone
      [America/Sao_Paulo] of the host's time-zone table has at the instant [t]
      (seconds since the epoch);
    - [datetime_time]: the callable the expression [datetime.time] denotes.
      Line 6 binds the name [datetime] to the class [datetime.datetime], so in
      the module as it stands this is [datetime_method_time]; with the name
      bound to the module [datetime] it would be [time_class];
    - [fromisoformat]: [datetime.fromisoformat]. *)
Record Env := {
  PROJECT_ID : option string;
  BUCKET_NAME : option string;
  DATASET_ID : option string;
  TABLE_ID_SALES : option string;
  TABLE_ID_SALES_ITEMS : option string;
  SOURCE_IDENTIFIER : option string;
  VERSION_CONTROL : option string;
  FIDELIDADE_MULTIPLIER : float;
  MORNING_MULTIPLIER : float;
  HAPPYHOUR_MULTIPLIER : float;
  sao_paulo_utcoffset : Z -> Z;
  datetime_time : Z -> Z -> Z -> result time;
  fromisoformat : string -> result datetime
}.

(** The module as it stands: [datetime.time] is the method. *)
Definition as_written (E : Env) : Prop :=
  datetime_time E = datetime_method_time.

(** ** The multiplier engine *)

Section Engine.
Variable E : Env.

(** Lines 83-95. *)
Definition convert_to_sao_paulo_time (utc_timestamp : datetime) : datetime :=
  {| utc_us := utc_us utc_timestamp;
     utcoffset := sao_paulo_utcoffset E (utc_us utc_timestamp / 1000000) |}.

(** The pattern [{{(\d+\.\d+)}}] matched at the head of [l]: the group, and
    what follows the match.  Below code point 256 the digits [\d] matches are
    the ten ASCII digits.  Each [\d+] takes every digit there is: the
    character after it must be one that is no digit, so giving digits back
    never helps the match. *)
Definition match_marker (l : list ascii) : option (list ascii * list ascii) :=
  match l with
  | c1 :: c2 :: r =>
      if Ascii.eqb c1 "{" && Ascii.eqb c2 "{" then
        let '(d1, r1) := span_digits r in
        match d1, r1 with
        | _ :: _, c3 :: r2 =>
            if Ascii.eqb c3 "." then
              let '(d2, r3) := span_digits r2 in
              match d2, r3 with
              | _ :: _, c4 :: c5 :: rest =>
                  if Ascii.eqb c4 "}" && Ascii.eqb c5 "}"
                  then Some (d1 ++ c3 :: d2, rest)
                  else None
              | _, _ => None
              end
            else None
        | _, _ => None
        end
      else None
  | _ => None
  end.

(** [re.findall] for that pattern: the groups of the matches found from left
    to right, the search resuming where the previous match ended.  [skip]
    counts the characters of the current match still to pass. *)
Fixpoint findall_from (skip : nat) (l : list ascii) : list (list ascii) :=
  match l with
  | [] => []
  | _ :: r =>
      match skip with
      | S k => findall_from k r
      | O =>
          match match_marker l with
          | Some (g, _) => g :: findall_from (List.length g + 3) r
          | None => findall_from 0 r
          end
      end
  end.

Definition findall (s : string) : list string :=
  map str (findall_from 0 (chars s)).

(** [[float(match) for match in matches]]. *)
Fixpoint floats_of (matches : list string) : result (list float) :=
  match matches with
  | [] => Ok []
  | m :: r =>
      let? f := py_float (PyStr m) in
      let? fs := floats_of r in
      Ok (f :: fs)
  end.

(** Lines 98-118. *)
Definition extract_multiplier (obs : pyobj) : result float :=
  match obs with
  | PyStr s =>
      let matches := findall s in
      match matches with
      | m :: ms =>
          let? lowest := py_float (PyStr m) in
          let? multipliers := floats_of ms in
          Ok (py_min lowest multipliers)
      | [] => Ok fzero
      end
  | _ => Raise TypeError
  end.

(** [a <= t < b] with [a] and [b] built by [datetime.time]; [b] is built only
    when [a <= t]. *)
Definition in_window (a : Z) (t : time) (b : Z) : result bool :=
  let? lo := datetime_time E a 0 0 in
  if time_le lo t then
    let? hi := datetime_time E b 0 0 in
    Ok (time_lt t hi)
  else Ok false.

(** Lines 121-155. *)
Definition get_special_multiplier (processing_timestamp : datetime) : result float :=
  let sao_paulo_timestamp := convert_to_sao_paulo_time processing_timestamp in
  let purchase_time := datetime_time_of sao_paulo_timestamp in
  let purchase_weekday := weekday sao_paulo_timestamp in
  let special_multipliers := [] in
  let? morning := in_window 5 purchase_time 10 in
  let special_multipliers :=
    if morning then special_multipliers ++ [MORNING_MULTIPLIER E]
    else special_multipliers in
  let? happy :=
    if purchase_weekday =? 4 then in_window 18 purchase_time 22 else Ok false in
  let special_multipliers :=
    if happy then special_multipliers ++ [HAPPYHOUR_MULTIPLIER E]
    else special_multipliers in
  match special_multipliers with
  | x :: r => Ok (sum_nonempty x r)
  | [] => Ok fzero
  end.

End Engine.

(** ** [strptime] and [strftime] for the two formats the module uses *)

Definition digit_in (lo hi : Z) (c : ascii) : bool :=
  (48 + lo <=? code c) && (code c <=? 48 + hi).

(** The alternatives of a pattern, in the order the regular-expression engine
    tries them: each is the value read and the text left. *)
Definition two_digits (lo1 hi1 lo2 hi2 : Z) (l : list ascii) : list (Z * list ascii) :=
  match l with
  | c1 :: c2 :: r =>
      if digit_in lo1 hi1 c1 && digit_in lo2 hi2 c2
      then [(10 * digit_value c1 + digit_value c2, r)] else []
  | _ => []
  end.

Definition one_digit (lo hi : Z) (l : list ascii) : list (Z * list ascii) :=
  match l with
  | c :: r => if digit_in lo hi c then [(digit_value c, r)] else []
  | [] => []
  end.

Definition blank (l : list ascii) : list (list ascii) :=
  match l with
  | c :: r => if Ascii.eqb c " " then [r] else []
  | [] => []
  end.

(** [%d]: [3[0-1]|[1-2]\d|0[1-9]|[1-9]| [1-9]]. *)
Definition directive_d (l : list ascii) : list (Z * list ascii) :=
  two_digits 3 3 0 1 l ++ two_digits 1 2 0 9 l ++ two_digits 0 0 1 9 l
  ++ one_digit 1 9 l ++ (r ← blank l; one_digit 1 9 r).

(** [%m]: [1[0-2]|0[1-9]|[1-9]]. *)
Definition directive_m (l : list ascii) : list (Z * list ascii) :=
  two_digits 1 1 0 2 l ++ two_digits 0 0 1 9 l ++ one_digit 1 9 l.

(** [%Y]: [\d\d\d\d]. *)
Definition directive_Y (l : list ascii) : list (Z * list ascii) :=
  match l with
  | c1 :: c2 :: c3 :: c4 :: r =>
      if is_digit c1 && is_digit c2 && is_digit c3 && is_digit c4
      then [(digits_value [c1; c2; c3; c4], r)] else []
  | _ => []
  end.

Definition slash (l : list ascii) : list (list ascii) :=
  match l with
  | c :: r => if Ascii.eqb c "/" then [r] else []
  | [] => []
  end.

(** The matches of [%d/%m/%Y] at the head of [l], first match first: day,
    month, year and the text left. *)
Definition match_dmY (l : list ascii) : list (Z * Z * Z * list ascii) :=
  '(d, r1) ← directive_d l;
  r2 ← slash r1;
  '(m, r3) ← directive_m r2;
  r4 ← slash r3;
  '(y, r5) ← directive_Y r4;
  [(d, m, y, r5)].

(** [datetime.strptime(s, '%d/%m/%Y')]: the date read (year, month, day);
    [None] stands for [ValueError]. *)
Definition strptime_dmY (s : string) : option (Z * Z * Z) :=
  match match_dmY (chars s) with
  | (d, m, y, []) :: _ =>
      if (1 <=? y) && (d <=? days_in_month y m) then Some (y, m, d) else None
  | _ => None
  end.

(** The decimal digits of [z], [width] of them. *)
Fixpoint zero_padded (width : nat) (z : Z) : list ascii :=
  match width with
  | O => []
  | S w => zero_padded w (z / 10) ++ [ascii_of_N (Z.to_N (48 + z mod 10))]
  end.

(** [%Y] of a year from 1 to 9999, as the C library of the host writes it:
    the decimal digits of the year, with no zero before them (glibc). *)
Definition year_text (y : Z) : list ascii :=
  if y <? 10 then zero_padded 1 y
  else if y <? 100 then zero_padded 2 y
  else if y <? 1000 then zero_padded 3 y
  else zero_padded 4 y.

(** [strftime('%Y-%m-%d')] of a date. *)
Definition strftime_Ymd (date : Z * Z * Z) : string :=
  let '(y, m, d) := date in
  str (year_text y ++ chars "-" ++ zero_padded 2 m ++ chars "-" ++ zero_padded 2 d).

(** [datetime.strptime(o, '%d/%m/%Y').strftime('%Y-%m-%d')]. *)
Definition reformat_date (o : pyobj) : result string :=
  match o with
  | PyStr s =>
      match strptime_dmY s with
      | Some date => Ok (strftime_Ymd date)
      | None => Raise ValueError
      end
  | _ => Raise TypeError
  end.

(** ** Extraction of the documents' headers *)

(** Lines 225-244.  The pair returned is (nome_vendedor, id_vendedor). *)
Definition extract_pesquisa_data (pesquisa_data : pyobj) : result (pyobj * pyobj) :=
  let body :=
    let? retorno := getitem pesquisa_data "retorno" in
    let? pedidos := getitem retorno "pedidos" in
    let? first := getitem0 pedidos in
    let? pedido := getitem first "pedido" in
    let? nome_vendedor := getitem pedido "nome_vendedor" in
    let? id_vendedor := getitem pedido "id_vendedor" in
    Ok (nome_vendedor, id_vendedor) in
  match body with
  | Raise KeyError | Raise IndexError => Ok (PyNone, PyNone)
  | r => r
  end.

(** The tuple [extract_pdv_data] returns. *)
Record pdv_fields := {
  f_pedido_id : pyobj;
  f_pedido_numero : pyobj;
  f_pedido_dia : pyobj;
  f_total_produtos : pyobj;
  f_total_venda : pyobj;
  f_observacoes : pyobj;
  f_forma_pagamento : pyobj;
  f_cliente_nome : pyobj;
  f_cliente_cpf : pyobj
}.

Definition nine_None : pdv_fields :=
  {| f_pedido_id := PyNone; f_pedido_numero := PyNone; f_pedido_dia := PyNone;
     f_total_produtos := PyNone; f_total_venda := PyNone; f_observacoes := PyNone;
     f_forma_pagamento := PyNone; f_cliente_nome := PyNone; f_cliente_cpf := PyNone |}.

(** The body of the [try] of [extract_pdv_data] (lines 259-270). *)
Definition extract_pdv_body (pdv_data : pyobj) : result pdv_fields :=
  let? retorno := getitem pdv_data "retorno" in
  let? pedido_pdv := getitem retorno "pedido" in
  let? pedido_id := getitem pedido_pdv "id" in
  let? pedido_numero := getitem pedido_pdv "numero" in
  let? data := getitem pedido_pdv "data" in
  let? pedido_dia := reformat_date data in
  let? totalProdutos := getitem pedido_pdv "totalProdutos" in
  let? total_produtos := py_float totalProdutos in
  let? totalVenda := getitem pedido_pdv "totalVenda" in
  let? total_venda := py_float totalVenda in
  let? observacoes := getitem pedido_pdv "observacoes" in
  let? forma_pagamento := getitem pedido_pdv "formaPagamento" in
  let? contato := getitem pedido_pdv "contato" in
  let? cliente_nome := getitem contato "nome" in
  let? contato' := getitem pedido_pdv "contato" in
  let? cliente_cpf := getitem contato' "cpfCnpj" in
  Ok {| f_pedido_id := pedido_id; f_pedido_numero := pedido_numero;
        f_pedido_dia := PyStr pedido_dia;
        f_total_produtos := PyFloat total_produtos;
        f_total_venda := PyFloat total_venda;
        f_observacoes := observacoes; f_forma_pagamento := forma_pagamento;
        f_cliente_nome := cliente_nome; f_cliente_cpf := cliente_cpf |}.

(** Lines 247-273: [except (KeyError, ValueError)] returns nine [None]s. *)
Definition extract_pdv_data (pdv_data : pyobj) : result pdv_fields :=
  match extract_pdv_body pdv_data with
  | Ok t => Ok t
  | Raise e =>
      match e with
      | KeyError => Ok nine_None
      | _ => if is_ValueError e then Ok nine_None else Raise e
      end
  end.

(** ** Rows *)

(** The dictionary built at lines 313-339. *)
Module SalesItemsRow.
Record t := {
  uuid : string;
  timestamp : datetime;
  pedido_dia : pyobj;
  pedido_id : pyobj;
  pedido_numero : pyobj;
  cliente_nome : pyobj;
  cliente_cpf : pyobj;
  vendedor_nome : pyobj;
  vendedor_id : pyobj;
  produto_idProduto : pyobj;
  produto_descricao : pyobj;
  produto_category_first : string;
  produto_category_second : string;
  produto_quantidade : float;
  produto_valor : float;
  produto_valor_total : float;
  produto_multiplier : float;
  fidelidade_multiplier : float;
  special_multiplier : float;
  final_multiplier : float;
  produto_pontos : float;
  project_id : option string;
  source_identifier : option string;
  version_control : option string;
  processed_timestamp : string
}.
End SalesItemsRow.

(** The dictionary built at lines 402-419. *)
Module SalesRow.
Record t := {
  uuid : string;
  timestamp : datetime;
  pedido_dia : pyobj;
  pedido_id : pyobj;
  pedido_numero : pyobj;
  cliente_nome : pyobj;
  cliente_cpf : pyobj;
  vendedor_nome : pyobj;
  vendedor_id : pyobj;
  pedido_valor : number;
  fidelidade_multiplier : float;
  pedido_pontos : number;
  project_id : option string;
  source_identifier : option string;
  version_control : option string;
  processed_timestamp : string
}.
End SalesRow.

Inductive Row :=
| OrderRow (r : SalesRow.t)
| ItemRow (r : SalesItemsRow.t).

(** ** The world outside the function *)

(** An object of the bucket: its metadata, and what
    [json.loads(blob.download_as_string())] gives for it. *)
Record Blob := {
  blob_name : string;
  blob_metadata : option (gmap string string);
  blob_json : result pyobj
}.

(** The warehouse, as the client library shows it to the module: datasets,
    and tables with the partitioning column, the clustering columns and the
    primary key declared for them and the rows they hold.  [script] says how
    each request of the client library ends, by the number of the request:
    normally, with an exception, or (for an insertion) with row errors
    reported. *)
Record Table := {
  partition_field : string;
  clustering_fields : list string;
  primary_key : list string;
  table_rows : list Row
}.

Inductive outcome :=
| Normal
| Fails (e : exn)
| Rejects.

Record Warehouse := {
  datasets : gset string;
  tables : gmap string Table;
  script : nat -> outcome;
  calls : nat
}.

Record Message := {
  message_id : string;
  (** [message.data.decode('utf-8')]; [None] when the payload is not UTF-8. *)
  data_utf8 : option string;
  attributes : gmap string string
}.

Record World := {
  (** The outcome of [get_bucket] and of listing the bucket. *)
  bucket : result (list Blob);
  (** The readings of [datetime.now(tz=...).isoformat()], by their number. *)
  clock : nat -> string;
  ticks : nat;
  bigquery : Warehouse;
  (** The messages acknowledged so far, oldest first. *)
  acked : list string
}.

(** ** Computations over the world *)

Definition M (A : Type) : Type := World -> result A * World.

Definition ret {A} (a : A) : M A := fun w => (Ok a, w).
Definition raise {A} (e : exn) : M A := fun w => (Raise e, w).
Definition lift {A} (r : result A) : M A := fun w => (r, w).

Definition bind {A B} (m : M A) (k : A -> M B) : M B :=
  fun w =>
    match m w with
    | (Ok a, w') => k a w'
    | (Raise e, w') => (Raise e, w')
    end.

Notation "'let!' x ':=' m 'in' k" := (bind m (fun x => k))
  (at level 10, x name, m at level 100, k at level 200).
Notation "'let!' ' p ':=' m 'in' k" := (bind m (fun x => match x with p => k end))
  (at level 10, p pattern, m at level 100, k at level 200).

(** [try: m except Exception: pass]. *)
Definition try_except {A} (m : M A) (handler : exn -> M A) : M A :=
  fun w =>
    match m w with
    | (Ok a, w') => (Ok a, w')
    | (Raise e, w') => handler e w'
    end.

(** [datetime.now(tz=ZoneInfo("America/Sao_Paulo")).isoformat()]. *)
Definition now_isoformat : M string :=
  fun w =>
    (Ok (clock w (ticks w)),
     {| bucket := bucket w; clock := clock w; ticks := S (ticks w);
        bigquery := bigquery w; acked := acked w |}).

(** [message.ack()]. *)
Definition ack (message : Message) : M unit :=
  fun w =>
    (Ok tt,
     {| bucket := bucket w; clock := clock w; ticks := ticks w;
        bigquery := bigquery w; acked := acked w ++ [message_id message] |}).

(** A computation over the warehouse, run in the world. *)
Definition W (A : Type) : Type := Warehouse -> result A * Warehouse.

Definition in_warehouse {A} (c : W A) : M A :=
  fun w =>
    let '(r, wh) := c (bigquery w) in
    (r, {| bucket := bucket w; clock := clock w; ticks := ticks w;
           bigquery := wh; acked := acked w |}).

(** ** Strings *)

Fixpoint starts_with (p l : list ascii) : bool :=
  match p, l with
  | [], _ => true
  | a :: p', c :: l' => Ascii.eqb a c && starts_with p' l'
  | _ :: _, [] => false
  end.

(** [s.endswith(suffix)]. *)
Definition endswith (s suffix : string) : bool :=
  starts_with (rev (chars suffix)) (rev (chars s)).

(** [s.split(sep)] for a non-empty [sep]: [cur] holds the current piece,
    reversed; [skip] counts the characters of the separator still to pass. *)
Fixpoint split_from (sep : list ascii) (skip : nat) (cur l : list ascii)
  : list (list ascii) :=
  match l with
  | [] => [rev cur]
  | c :: r =>
      match skip with
      | S k => split_from sep k cur r
      | O =>
          if starts_with sep l
          then rev cur :: split_from sep (List.length sep - 1) [] r
          else split_from sep 0 (c :: cur) r
      end
  end.

Definition split (s sep : string) : list string :=
  map str (split_from (chars sep) 0 [] (chars s)).

(** [s.replace('Z', '+00:00')]. *)
Definition replace_Z (s : string) : string :=
  str (c ← chars s; if Ascii.eqb c "Z" then chars "+00:00" else [c]).

(** [f"{x}"] for a global that is a string or [None]. *)
Definition fmt (x : option string) : string := default "None" x.

(** ** The row assembler *)

Section Assembler.
Variable E : Env.

(** [produto_data.get(produto_id)]: the keys of [produto_data] are strings;
    a list or a dictionary cannot be hashed. *)
Definition produto_get (produto_data : gmap string pyobj) (produto_id : pyobj)
  : result pyobj :=
  match produto_id with
  | PyStr k => Ok (default PyNone (produto_data !! k))
  | PyList _ | PyDict _ => Raise TypeError
  | _ => Ok PyNone
  end.

(** [o.split(' >> ')]. *)
Definition split_categoria (o : pyobj) : result (list string) :=
  match o with
  | PyStr s => Ok (split s " >> ")
  | _ => Raise AttributeError
  end.

(** Lines 276-344.  [item] carries the keys [pedido_id] and [pedido_numero]
    that [process_pedido_items] stored in it. *)
Definition process_pedido_item (item : pyobj) (produto_data : gmap string pyobj)
    (processing_timestamp : datetime) (pedido_dia : pyobj) (uuid : string)
    (nome_vendedor id_vendedor cliente_nome cliente_cpf : pyobj)
  : M (float * float * option SalesItemsRow.t) :=
  let! produto_id := lift (getitem item "idProduto") in
  let! produto := lift (produto_get produto_data produto_id) in
  if truthy produto then
    let! produto_descricao := lift (get item "descricao" (PyStr "")) in
    let! quantidade := lift (get item "quantidade" (PyInt 0)) in
    let! produto_quantidade := lift (py_float quantidade) in
    let! valor := lift (get item "valor" (PyInt 0)) in
    let! produto_valor := lift (py_float valor) in
    let! desconto := lift (get item "desconto" (PyInt 0)) in
    let! produto_desconto := lift (py_float desconto) in
    let! inner := lift (getitem produto "produto") in
    let! preco_custo := lift (get inner "preco_custo" (PyInt 0)) in
    let! produto_preco_custo := lift (py_float preco_custo) in
    let! inner' := lift (getitem produto "produto") in
    let! produto_obs := lift (get inner' "obs" (PyStr "")) in
    let! inner'' := lift (getitem produto "produto") in
    let! produto_categoria := lift (get inner'' "categoria" (PyStr "")) in
    let! produto_multiplier := lift (extract_multiplier produto_obs) in
    let! special_multiplier := lift (get_special_multiplier E processing_timestamp) in
    let final_multiplier :=
      fadd (fadd (FIDELIDADE_MULTIPLIER E) special_multiplier) produto_multiplier in
    let produto_valor_total := fmul produto_quantidade produto_valor in
    let produto_pontos := fmul produto_valor_total final_multiplier in
    let! categoria_split := lift (split_categoria produto_categoria) in
    let produto_category_first := nth 0 categoria_split "" in
    let produto_category_second := nth 1 categoria_split "" in
    let! item_pedido_id := lift (getitem item "pedido_id") in
    let! item_pedido_numero := lift (getitem item "pedido_numero") in
    let! now := now_isoformat in
    let sales_items_row :=
      {| SalesItemsRow.uuid := uuid;
         SalesItemsRow.timestamp := convert_to_sao_paulo_time E processing_timestamp;
         SalesItemsRow.pedido_dia := pedido_dia;
         SalesItemsRow.pedido_id := item_pedido_id;
         SalesItemsRow.pedido_numero := item_pedido_numero;
         SalesItemsRow.cliente_nome := cliente_nome;
         SalesItemsRow.cliente_cpf := cliente_cpf;
         SalesItemsRow.vendedor_nome := nome_vendedor;
         SalesItemsRow.vendedor_id := id_vendedor;
         SalesItemsRow.produto_idProduto := produto_id;
         SalesItemsRow.produto_descricao := produto_descricao;
         SalesItemsRow.produto_category_first := produto_category_first;
         SalesItemsRow.produto_category_second := produto_category_second;
         SalesItemsRow.produto_quantidade := produto_quantidade;
         SalesItemsRow.produto_valor := produto_valor;
         SalesItemsRow.produto_valor_total := produto_valor_total;
         SalesItemsRow.produto_multiplier := produto_multiplier;
         SalesItemsRow.fidelidade_multiplier := FIDELIDADE_MULTIPLIER E;
         SalesItemsRow.special_multiplier := special_multiplier;
         SalesItemsRow.final_multiplier := final_multiplier;
         SalesItemsRow.produto_pontos := produto_pontos;
         SalesItemsRow.project_id := PROJECT_ID E;
         SalesItemsRow.source_identifier := SOURCE_IDENTIFIER E;
         SalesItemsRow.version_control := VERSION_CONTROL E;
         SalesItemsRow.processed_timestamp := now |} in
    ret (produto_valor_total, produto_pontos, Some sales_items_row)
  else ret (fzero, fzero, None).

(** The loop of lines 367-374 over the items not yet visited;
    [sales_items_rows] holds the rows appended so far.  The two keys are
    stored in the item before it is processed; the order document is not read
    through the items again, so the stores are kept in the item alone. *)
Fixpoint process_items_loop (itens : list pyobj) (pedido_pdv : pyobj)
    (produto_data : gmap string pyobj) (processing_timestamp : datetime)
    (pedido_dia : pyobj) (uuid : string)
    (nome_vendedor id_vendedor cliente_nome cliente_cpf : pyobj)
    (sales_items_rows : list SalesItemsRow.t) : M (list SalesItemsRow.t) :=
  match itens with
  | [] => ret sales_items_rows
  | item :: rest =>
      let! pedido_id := lift (getitem pedido_pdv "id") in
      let! item := lift (setitem item "pedido_id" pedido_id) in
      let! pedido_numero := lift (getitem pedido_pdv "numero") in
      let! item := lift (setitem item "pedido_numero" pedido_numero) in
      let! '(produto_valor_total, produto_pontos, sales_items_row) :=
        process_pedido_item item produto_data processing_timestamp pedido_dia uuid
          nome_vendedor id_vendedor cliente_nome cliente_cpf in
      let sales_items_rows :=
        match sales_items_row with
        | Some row => sales_items_rows ++ [row]
        | None => sales_items_rows
        end in
      process_items_loop rest pedido_pdv produto_data processing_timestamp
        pedido_dia uuid nome_vendedor id_vendedor cliente_nome cliente_cpf
        sales_items_rows
  end.

(** Lines 347-379. *)
Definition process_pedido_items (pedido_pdv : pyobj)
    (produto_data : gmap string pyobj) (processing_timestamp : datetime)
    (pedido_dia : pyobj) (uuid : string)
    (nome_vendedor id_vendedor cliente_nome cliente_cpf : pyobj)
  : M (number * number * list SalesItemsRow.t) :=
  let! itens := lift (getitem pedido_pdv "itens") in
  let! itens := lift (iterate itens) in
  let! sales_items_rows :=
    process_items_loop itens pedido_pdv produto_data processing_timestamp
      pedido_dia uuid nome_vendedor id_vendedor cliente_nome cliente_cpf [] in
  let pedido_valor := py_sum (map SalesItemsRow.produto_valor_total sales_items_rows) in
  let pedido_pontos := py_sum (map SalesItemsRow.produto_pontos sales_items_rows) in
  ret (pedido_valor, pedido_pontos, sales_items_rows).

(** Lines 382-421. *)
Definition prepare_sales_row (uuid : string) (processing_timestamp : datetime)
    (pedido_dia pedido_pdv nome_vendedor id_vendedor cliente_nome cliente_cpf : pyobj)
    (pedido_valor pedido_pontos : number) : M SalesRow.t :=
  let! pedido_id := lift (getitem pedido_pdv "id") in
  let! pedido_numero := lift (getitem pedido_pdv "numero") in
  let! now := now_isoformat in
  ret {| SalesRow.uuid := uuid;
         SalesRow.timestamp := convert_to_sao_paulo_time E processing_timestamp;
         SalesRow.pedido_dia := pedido_dia;
         SalesRow.pedido_id := pedido_id;
         SalesRow.pedido_numero := pedido_numero;
         SalesRow.cliente_nome := cliente_nome;
         SalesRow.cliente_cpf := cliente_cpf;
         SalesRow.vendedor_nome := nome_vendedor;
         SalesRow.vendedor_id := id_vendedor;
         SalesRow.pedido_valor := pedido_valor;
         SalesRow.fidelidade_multiplier := FIDELIDADE_MULTIPLIER E;
         SalesRow.pedido_pontos := pedido_pontos;
         SalesRow.project_id := PROJECT_ID E;
         SalesRow.source_identifier := SOURCE_IDENTIFIER E;
         SalesRow.version_control := VERSION_CONTROL E;
         SalesRow.processed_timestamp := now |}.

End Assembler.

(** ** The warehouse client *)

Definition with_calls (wh : Warehouse) (n : nat) : Warehouse :=
  {| datasets := datasets wh; tables := tables wh; script := script wh; calls := n |}.

Definition with_datasets (wh : Warehouse) (ds : gset string) : Warehouse :=
  {| datasets := ds; tables := tables wh; script := script wh; calls := calls wh |}.

Definition with_tables (wh : Warehouse) (ts : gmap string Table) : Warehouse :=
  {| datasets := datasets wh; tables := ts; script := script wh; calls := calls wh |}.

(** One call of the client library: it is counted, and it raises when the
    script says so; otherwise [f] runs, told whether the script is [Rejects]. *)
Definition call {A} (f : bool -> W A) : W A :=
  fun wh =>
    let wh' := with_calls wh (S (calls wh)) in
    match script wh (calls wh) with
    | Fails e => (Raise e, wh')
    | Rejects => f true wh'
    | Normal => f false wh'
    end.

(** Building an object of the client library ([bigquery.Dataset],
    [bigquery.Table], [bigquery.TimePartitioning], ...). *)
Definition construct : W unit := call (fun _ wh => (Ok tt, wh)).

Definition get_dataset (dataset_id : string) : W unit :=
  call (fun _ wh =>
    if bool_decide (dataset_id ∈ datasets wh) then (Ok tt, wh) else (Raise NotFound, wh)).

Definition create_dataset (dataset_id : string) : W unit :=
  call (fun _ wh =>
    if bool_decide (dataset_id ∈ datasets wh) then (Raise (OtherError "Conflict"), wh)
    else (Ok tt, with_datasets wh ({[dataset_id]} ∪ datasets wh))).

Definition get_table (table_id : string) : W Table :=
  call (fun _ wh =>
    match tables wh !! table_id with
    | Some t => (Ok t, wh)
    | None => (Raise NotFound, wh)
    end).

Definition create_table (table_id : string) (t : Table) : W unit :=
  call (fun _ wh =>
    match tables wh !! table_id with
    | Some _ => (Raise (OtherError "Conflict"), wh)
    | None => (Ok tt, with_tables wh (<[table_id := t]> (tables wh)))
    end).

(** [update_table(table, fields)].  The client builds the request from the
    properties of its [Table] that [fields] names, before it sends anything,
    and raises [ValueError] for a name that is no such property.
    [primary_key] is none: the assignments of lines 499 and 504 set a plain
    attribute of the Python object.  The tables here carry no schema, so an
    update that passes the check changes nothing in them. *)
Definition update_table (table_id : string) (fields : list string) : W unit :=
  if existsb (String.eqb "primary_key") fields then fun wh => (Raise ValueError, wh)
  else
    call (fun _ wh =>
      match tables wh !! table_id with
      | Some _ => (Ok tt, wh)
      | None => (Raise NotFound, wh)
      end).

(** [insert_rows_json(table_id, rows)].  Every row the module builds holds a
    [datetime] under [timestamp] (lines 315 and 404), which the client cannot
    write as JSON: with a row to send, encoding the request raises
    [TypeError] before anything is sent.  With no row, the request is sent;
    the result is the list of row errors, here only whether there is
    any. *)
Definition insert_rows_json (table_id : string) (rows : list Row) : W bool :=
  match rows with
  | _ :: _ => fun wh => (Raise TypeError, wh)
  | [] =>
      call (fun rejects wh =>
        match tables wh !! table_id with
        | Some _ => (Ok rejects, wh)
        | None => (Raise NotFound, wh)
        end)
  end.

Definition wbind {A B} (m : W A) (k : A -> W B) : W B :=
  fun wh =>
    match m wh with
    | (Ok a, wh') => k a wh'
    | (Raise e, wh') => (Raise e, wh')
    end.

Notation "'let+' x ':=' m 'in' k" := (wbind m (fun x => k))
  (at level 10, x name, m at level 100, k at level 200).

Definition wret {A} (a : A) : W A := fun wh => (Ok a, wh).
Definition wraise {A} (e : exn) : W A := fun wh => (Raise e, wh).

(** [try: m except NotFound: handler]. *)
Definition except_NotFound {A} (m : W A) (handler : W A) : W A :=
  fun wh =>
    match m wh with
    | (Raise NotFound, wh') => handler wh'
    | r => r
    end.

(** Lines 75-76.  Lines 499 and 504 store them in an attribute of the table
    object that the client never reads. *)
Definition sales_primary_key : list string := ["uuid"; "pedido_id"].
Definition sales_items_primary_key : list string :=
  ["uuid"; "pedido_id"; "produto_idProduto"].

Section Writer.
Variable E : Env.

(** Lines 424-439. *)
Definition create_dataset_if_not_exists (dataset_id : string) : W unit :=
  except_NotFound (get_dataset dataset_id)
    (let+ _ := construct in
     create_dataset dataset_id).

(** [table_id.endswith(name)] for a global [name]. *)
Definition endswith_global (table_id : string) (name : option string) : W bool :=
  match name with
  | Some n => wret (endswith table_id n)
  | None => wraise TypeError
  end.

(** Lines 442-476.  In the branch of the item table, line 468 evaluates
    [bigquery.ForeignKeyReference]; the package [google.cloud.bigquery] has
    no such name, so the branch raises [AttributeError] once the clustering
    and the schema are set on the table object, and the table is not
    created. *)
Definition create_table_if_not_exists (table_id : string) : W unit :=
  except_NotFound (let+ _ := get_table table_id in wret tt)
    (let+ _ := construct in
     let+ _ := construct in
     let+ is_sales := endswith_global table_id (TABLE_ID_SALES E) in
     let+ clustering :=
       if is_sales then wret ["cliente_cpf"; "vendedor_id"]
       else
         let+ is_items := endswith_global table_id (TABLE_ID_SALES_ITEMS E) in
         if is_items then wraise AttributeError
         else wret [] in
     create_table table_id
       {| partition_field := "pedido_dia"; clustering_fields := clustering;
          primary_key := []; table_rows := [] |}).

(** The body of the [try] of [load_data_to_bigquery] (lines 490-517). *)
Definition load_body (sales_row : SalesRow.t)
    (sales_items_rows : list SalesItemsRow.t) : W unit :=
  let dataset_id := (fmt (PROJECT_ID E) +:+ "." +:+ fmt (DATASET_ID E))%string in
  let sales_table_id := (dataset_id +:+ "." +:+ fmt (TABLE_ID_SALES E))%string in
  let sales_items_table_id :=
    (dataset_id +:+ "." +:+ fmt (TABLE_ID_SALES_ITEMS E))%string in
  let+ _ := create_dataset_if_not_exists dataset_id in
  let+ _ := create_table_if_not_exists sales_table_id in
  let+ _ := create_table_if_not_exists sales_items_table_id in
  let+ _ := get_table sales_table_id in
  let+ _ := update_table sales_table_id ["schema"; "primary_key"] in
  let+ _ := get_table sales_items_table_id in
  let+ _ := update_table sales_items_table_id ["schema"; "primary_key"] in
  let+ _ := insert_rows_json sales_table_id [OrderRow sales_row] in
  let+ _ := insert_rows_json sales_items_table_id (map ItemRow sales_items_rows) in
  wret tt.

(** Lines 479-519: [except Exception] logs and returns. *)
Definition load_data_to_bigquery (sales_row : SalesRow.t)
    (sales_items_rows : list SalesItemsRow.t) (uuid : string) : M unit :=
  in_warehouse (fun wh =>
    match load_body sales_row sales_items_rows wh with
    | (_, wh') => (Ok tt, wh')
    end).

End Writer.

(** ** The correlator and the driver *)

Section Driver.
Variable E : Env.

(** Lines 158-175.  When the download or the parse raises, the [except]
    clause of line 173 is evaluated, and it names
    [storage.exceptions.NotFound]: the package [google.cloud.storage] has no
    such name, so the clause itself raises [AttributeError], whatever was
    raised, and [None] is never returned. *)
Definition download_json_file (blob : Blob) : result pyobj :=
  match blob_json blob with
  | Ok json_data => Ok json_data
  | Raise _ => Raise AttributeError
  end.

(** The dictionary [data] of [download_json_files]. *)
Record downloads := {
  pesquisa : pyobj;
  pdv : pyobj;
  produto : gmap string pyobj;
  processing_timestamp : option datetime
}.

(** One turn of the loop of lines 198-216. *)
Definition download_step (uuid : string) (data : downloads) (blob : Blob)
  : result downloads :=
  match blob_metadata blob with
  | Some metadata =>
      if negb (bool_decide (metadata = ∅)) && bool_decide (metadata !! "UUID" = Some uuid)
      then
        match metadata !! "Data-Type" with
        | None => Raise KeyError
        | Some data_type =>
            if String.eqb data_type "pedidos.pesquisa" then
              let? j := download_json_file blob in
              Ok {| pesquisa := j; pdv := pdv data; produto := produto data;
                    processing_timestamp := processing_timestamp data |}
            else if String.eqb data_type "pdv.pedido" then
              let? j := download_json_file blob in
              let data := {| pesquisa := pesquisa data; pdv := j; produto := produto data;
                             processing_timestamp := processing_timestamp data |} in
              match metadata !! "Processing-Timestamp" with
              | Some processing_timestamp_str =>
                  if negb (String.eqb processing_timestamp_str "") then
                    let? ts := fromisoformat E (replace_Z processing_timestamp_str) in
                    Ok {| pesquisa := pesquisa data; pdv := pdv data;
                          produto := produto data; processing_timestamp := Some ts |}
                  else Ok data
              | None => Ok data
              end
            else if String.eqb data_type "produto" then
              match metadata !! "Produto-ID" with
              | None => Raise KeyError
              | Some produto_id =>
                  let? j := download_json_file blob in
                  Ok {| pesquisa := pesquisa data; pdv := pdv data;
                        produto := <[produto_id := j]> (produto data);
                        processing_timestamp := processing_timestamp data |}
              end
            else Ok data
        end
      else Ok data
  | None => Ok data
  end.

Fixpoint download_loop (uuid : string) (data : downloads) (blobs : list Blob)
  : result downloads :=
  match blobs with
  | [] => Ok data
  | blob :: rest =>
      let? data' := download_step uuid data blob in
      download_loop uuid data' rest
  end.

(** Lines 178-222. *)
Definition download_json_files (uuid : string) : M downloads :=
  fun w =>
    (let? blobs := bucket w in
     download_loop uuid
       {| pesquisa := PyNone; pdv := PyNone; produto := ∅;
          processing_timestamp := None |} blobs,
     w).

(** The body of the [try] of [process_message] (lines 532-545). *)
Definition process_body (uuid : string) : M unit :=
  let! data := download_json_files uuid in
  let pesquisa_data := pesquisa data in
  let pdv_data := pdv data in
  let produto_data := produto data in
  match processing_timestamp data with
  | Some processing_timestamp =>
      if truthy pesquisa_data && truthy pdv_data then
        let! '(nome_vendedor, id_vendedor) := lift (extract_pesquisa_data pesquisa_data) in
        let! f := lift (extract_pdv_data pdv_data) in
        if truthy nome_vendedor && truthy id_vendedor && truthy (f_pedido_id f)
           && truthy (f_pedido_numero f) && truthy (f_pedido_dia f)
        then
          let! retorno := lift (getitem pdv_data "retorno") in
          let! pedido_pdv := lift (getitem retorno "pedido") in
          let! '(pedido_valor, pedido_pontos, sales_items_rows) :=
            process_pedido_items E pedido_pdv produto_data processing_timestamp
              (f_pedido_dia f) uuid nome_vendedor id_vendedor
              (f_cliente_nome f) (f_cliente_cpf f) in
          let! retorno' := lift (getitem pdv_data "retorno") in
          let! pedido_pdv' := lift (getitem retorno' "pedido") in
          let! sales_row :=
            prepare_sales_row E uuid processing_timestamp (f_pedido_dia f) pedido_pdv'
              nome_vendedor id_vendedor (f_cliente_nome f) (f_cliente_cpf f)
              pedido_valor pedido_pontos in
          load_data_to_bigquery E sales_row sales_items_rows uuid
        else ret tt
      else ret tt
  | None => ret tt
  end.

(** Lines 522-548.  The payload is decoded before the [try]; whatever the
    [try] raises is logged, and the message is acknowledged. *)
Definition process_message (message : Message) : M unit :=
  match data_utf8 message with
  | None => raise UnicodeDecodeError
  | Some uuid =>
      let! _ := try_except (process_body uuid) (fun _ => ret tt) in
      ack message
  end.

(** A call [f(x, more...)] of a function declared with one parameter:
    [TypeError] unless there is no further argument. *)
Definition call_unary {A X B} (f : A -> M B) (x : A) (more : list X) : M B :=
  match more with
  | [] => f x
  | _ :: _ => raise TypeError
  end.

(** Lines 551-570. *)
Definition pubsub_callback (message : Message) : M unit :=
  try_except
    (match attributes message !! "Processing-Timestamp" with
     | Some processing_timestamp_str =>
         if negb (String.eqb processing_timestamp_str "") then
           let! processing_timestamp :=
             lift (fromisoformat E (replace_Z processing_timestamp_str)) in
           call_unary process_message message [processing_timestamp]
         else ack message
     | None => ack message
     end)
    (fun _ => ack message).

End Driver.

(** ** Vocabulary of the statements *)

Definition time_of_day (h m s : Z) : time :=
  {| hour := h; minute := m; second := s; microsecond := 0 |}.

(** The local time of [ts] is in the morning window. *)
Definition in_morning (E : Env) (ts : datetime) : bool :=
  let t := datetime_time_of (convert_to_sao_paulo_time E ts) in
  time_le (time_of_day 5 0 0) t && time_lt t (time_of_day 10 0 0).

(** The local time of [ts] is in the happy-hour window of a Friday. *)
Definition in_happy_hour (E : Env) (ts : datetime) : bool :=
  let d := convert_to_sao_paulo_time E ts in
  let t := datetime_time_of d in
  (weekday d =? 4) && time_le (time_of_day 18 0 0) t && time_lt t (time_of_day 22 0 0).

(** A line item that [process_pedido_item] drops: a dictionary whose
    [idProduto] finds nothing in the product metadata (no entry, or an entry
    that is [None] or empty). *)
Definition dropped_item (produto_data : gmap string pyobj) (item : pyobj) : Prop :=
  exists d produto_id produto,
    item = PyDict d /\ d !! "idProduto" = Some produto_id
    /\ produto_get produto_data produto_id = Ok produto /\ truthy produto = false.

(** A line item whose [idProduto] finds product metadata. *)
Definition matched_item (produto_data : gmap string pyobj) (item : pyobj) : Prop :=
  exists d produto_id produto,
    item = PyDict d /\ d !! "idProduto" = Some produto_id
    /\ produto_get produto_data produto_id = Ok produto /\ truthy produto = true.

(** The world after one reading of the clock. *)
Definition tick (w : World) : World :=
  {| bucket := bucket w; clock := clock w; ticks := S (ticks w);
     bigquery := bigquery w; acked := acked w |}.

(** How the fields of an item row hang together (lines 305-309). *)
Definition row_computed (E : Env) (processing_timestamp : datetime)
    (row : SalesItemsRow.t) : Prop :=
  get_special_multiplier E processing_timestamp = Ok (SalesItemsRow.special_multiplier row)
  /\ (exists obs, extract_multiplier obs = Ok (SalesItemsRow.produto_multiplier row))
  /\ SalesItemsRow.fidelidade_multiplier row = FIDELIDADE_MULTIPLIER E
  /\ SalesItemsRow.final_multiplier row =
     fadd (fadd (FIDELIDADE_MULTIPLIER E) (SalesItemsRow.special_multiplier row))
          (SalesItemsRow.produto_multiplier row)
  /\ SalesItemsRow.produto_valor_total row =
     fmul (SalesItemsRow.produto_quantidade row) (SalesItemsRow.produto_valor row)
  /\ SalesItemsRow.produto_pontos row =
     fmul (SalesItemsRow.produto_valor_total row) (SalesItemsRow.final_multiplier row).

(** [m] leaves the component [f] of the world as it found it. *)
Definition keeps {A X} (f : World -> X) (m : M A) : Prop :=
  forall w, f (m w).2 = f w.

(** The world once [message] is acknowledged. *)
Definition acknowledged (message : Message) (w : World) : World :=
  {| bucket := bucket w; clock := clock w; ticks := ticks w;
     bigquery := bigquery w; acked := acked w ++ [message_id message] |}.

(** [t] holds the nine fields of the header of [pdv_data], each read from
    its place in the document. *)
Definition header_of (pdv_data : pyobj) (t : pdv_fields) : Prop :=
  exists retorno pedido_pdv contato data dia totalProdutos tp totalVenda tv,
    getitem pdv_data "retorno" = Ok retorno
    /\ getitem retorno "pedido" = Ok pedido_pdv
    /\ getitem pedido_pdv "id" = Ok (f_pedido_id t)
    /\ getitem pedido_pdv "numero" = Ok (f_pedido_numero t)
    /\ getitem pedido_pdv "data" = Ok data
    /\ reformat_date data = Ok dia /\ f_pedido_dia t = PyStr dia
    /\ getitem pedido_pdv "totalProdutos" = Ok totalProdutos
    /\ py_float totalProdutos = Ok tp /\ f_total_produtos t = PyFloat tp
    /\ getitem pedido_pdv "totalVenda" = Ok totalVenda
    /\ py_float totalVenda = Ok tv /\ f_total_venda t = PyFloat tv
    /\ getitem pedido_pdv "observacoes" = Ok (f_observacoes t)
    /\ getitem pedido_pdv "formaPagamento" = Ok (f_forma_pagamento t)
    /\ getitem pedido_pdv "contato" = Ok contato
    /\ getitem contato "nome" = Ok (f_cliente_nome t)
    /\ getitem contato "cpfCnpj" = Ok (f_cliente_cpf t).

(** The rows a table holds; none when the table does not exist. *)
Definition rows_of (wh : Warehouse) (table_id : string) : list Row :=
  match tables wh !! table_id with
  | Some t => table_rows t
  | None => []
  end.

(** No request of the client fails for a reason outside the module (network,
    permissions, quota): the script lets every request through. *)
Definition fault_free (wh : Warehouse) : Prop := forall n, script wh n = Normal.

(** The table identifiers [load_data_to_bigquery] builds (lines 490-492). *)
Definition sales_table_id (E : Env) : string :=
  ((fmt (PROJECT_ID E) +:+ "." +:+ fmt (DATASET_ID E)) +:+ "."
   +:+ fmt (TABLE_ID_SALES E))%string.

Definition sales_items_table_id (E : Env) : string :=
  ((fmt (PROJECT_ID E) +:+ "." +:+ fmt (DATASET_ID E)) +:+ "."
   +:+ fmt (TABLE_ID_SALES_ITEMS E))%string.

(** A float that is [>= 0]: a zero, a positive finite number or the
    positive infinity. *)
Definition nonneg (f : float) : Prop :=
  match f with
  | S754_zero _ | S754_infinity false | S754_finite false _ _ => True
  | _ => False
  end.

(** A float [>= 0] by its class, exponent and mantissa: the comparisons
    [<] and [<=] read these three in turn. *)
Definition key (f : float) : Z * Z * Z :=
  match f with
  | S754_finite _ m e => (1, e, Zpos m)
  | S754_infinity _ => (2, 0, 0)
  | _ => (0, 0, 0)
  end.

Definition key_le (a b : Z * Z * Z) : Prop :=
  a.1.1 < b.1.1
  \/ (a.1.1 = b.1.1 /\ (a.1.2 < b.1.2 \/ (a.1.2 = b.1.2 /\ a.2 <= b.2))).

Definition all_digits (l : list ascii) : Prop := Forall (fun c => is_digit c = true) l.

(** The text of a decimal: digits, a point, digits. *)
Definition decimal_text (g : list ascii) : Prop :=
  exists i f, g = i ++ "."%char :: f /\ i <> [] /\ f <> [] /\ all_digits i /\ all_digits f.

(** The marker [{{g}}] stands somewhere in [s], [g] being a decimal. *)
Definition marker_in (s g : string) : Prop :=
  decimal_text (chars g)
  /\ exists pre post, chars s = pre ++ chars "{{" ++ chars g ++ chars "}}" ++ post.

(** No match of the pattern starts at the first [n] places of [l]. *)
Definition no_match_before (n : nat) (l : list ascii) : Prop :=
  forall k, (k < n)%nat -> match_marker (drop k l) = None.

(** [l] does not start with a digit. *)
Definition not_digit_head (l : list ascii) : Prop :=
  match l with
  | c :: _ => is_digit c = false
  | [] => True
  end.

(** What the parser asks of the first character of the text. *)
Definition plain (c : ascii) : Prop :=
  is_space c = false /\ Ascii.eqb c "_" = false /\ Ascii.eqb c "-" = false
  /\ Ascii.eqb c "+" = false /\ Ascii.eqb "i" (lower c) = false
  /\ Ascii.eqb "n" (lower c) = false /\ Ascii.eqb c "." = false.

(** The float that [float] reads in the text [g] of a decimal. *)
Definition decimal_float (g : list ascii) : float :=
  let '(i, r) := span_digits g in
  let f := tail r in
  decimal_value false (digits_value (i ++ f)) (0 - Z.of_nat (List.length f)).

(** ** The scenario of the specification (section 8) *)

(** [float(s)] for the text of a configured rate. *)
Definition dec (s : string) : float := default S754_nan (float_of_str s).

Definition obj (l : list (string * pyobj)) : pyobj := PyDict (list_to_map l).

(** 2024-03-01T07:30:00Z. *)
Definition scenario_timestamp : datetime := datetime_of 2024 3 1 7 30 0 0.

(** Loyalty rate 0.02 and morning rate 0.03; the zone [America/Sao_Paulo] is
    three hours behind UTC (it has been since 2019); [time_ctor] is what
    [datetime.time] denotes. *)
Definition scenario_env (time_ctor : Z -> Z -> Z -> result time) (happyhour : string) : Env :=
  {| PROJECT_ID := Some "proj"; BUCKET_NAME := Some "bucket"; DATASET_ID := Some "loyalty";
     TABLE_ID_SALES := Some "sales"; TABLE_ID_SALES_ITEMS := Some "sales_items";
     SOURCE_IDENTIFIER := Some "pdv"; VERSION_CONTROL := Some "v1";
     FIDELIDADE_MULTIPLIER := dec "0.02";
     MORNING_MULTIPLIER := dec "0.03";
     HAPPYHOUR_MULTIPLIER := dec happyhour;
     sao_paulo_utcoffset := fun _ => -10800;
     datetime_time := time_ctor;
     fromisoformat := fun s =>
       if String.eqb s "2024-03-01T07:30:00+00:00" then Ok scenario_timestamp
       else Raise ValueError |}.

(** The module as it stands, and the module with [datetime.time] the class. *)
Definition env_as_written : Env := scenario_env datetime_method_time "0.0".
Definition env_time_class : Env := scenario_env time_class "0.0".

(** Two line items; only the product 111 has a product document. *)
Definition item_coffee : pyobj :=
  obj [("idProduto", PyStr "111"); ("descricao", PyStr "Cafe");
       ("quantidade", PyStr "2.00"); ("valor", PyStr "10.50")].

Definition item_bread : pyobj :=
  obj [("idProduto", PyStr "222"); ("descricao", PyStr "Pao");
       ("quantidade", PyStr "1.00"); ("valor", PyStr "5.00")].

Definition order_header : list (string * pyobj) :=
  [("id", PyStr "900"); ("numero", PyStr "42"); ("data", PyStr "01/03/2024");
   ("totalProdutos", PyStr "26.00"); ("totalVenda", PyStr "26.00");
   ("observacoes", PyStr ""); ("formaPagamento", PyStr "pix");
   ("contato", obj [("nome", PyStr "Ana"); ("cpfCnpj", PyStr "123")])].

Definition order_of (itens : list pyobj) : gmap string pyobj :=
  list_to_map (order_header ++ [("itens", PyList itens)]).

Definition order_document (itens : list pyobj) : pyobj :=
  obj [("retorno", obj [("pedido", PyDict (order_of itens))])].

Definition survey_document : pyobj :=
  obj [("retorno",
        obj [("pedidos",
              PyList [obj [("pedido",
                            obj [("nome_vendedor", PyStr "Bia");
                                 ("id_vendedor", PyStr "7")])]])])].

Definition product_document : pyobj :=
  obj [("produto",
        obj [("obs", PyStr "promo {{0.10}} ou {{0.05}}");
             ("categoria", PyStr "Bebidas >> Cafe"); ("preco_custo", PyStr "3.20")])].

Definition scenario_products : gmap string pyobj := {["111" := product_document]}.

Definition blob (name : string) (metadata : list (string * string)) (json : pyobj) : Blob :=
  {| blob_name := name; blob_metadata := Some (list_to_map metadata); blob_json := Ok json |}.

Definition survey_blob : Blob :=
  blob "pesquisa.json" [("UUID", "abc123"); ("Data-Type", "pedidos.pesquisa")] survey_document.

Definition order_blob (itens : list pyobj) : Blob :=
  blob "pdv.json"
    [("UUID", "abc123"); ("Data-Type", "pdv.pedido");
     ("Processing-Timestamp", "2024-03-01T07:30:00Z")] (order_document itens).

Definition product_blob : Blob :=
  blob "produto-111.json"
    [("UUID", "abc123"); ("Data-Type", "produto"); ("Produto-ID", "111")] product_document.

(** An empty warehouse in which no request fails. *)
Definition empty_warehouse : Warehouse :=
  {| datasets := ∅; tables := ∅; script := fun _ => Normal; calls := 0 |}.

Definition world_of (blobs : list Blob) : World :=
  {| bucket := Ok blobs; clock := fun _ => "2024-03-01T04:30:01-03:00"; ticks := 0;
     bigquery := empty_warehouse; acked := [] |}.

Definition scenario_world : World :=
  world_of [survey_blob; order_blob [item_coffee; item_bread]; product_blob].

Definition scenario_message : Message :=
  {| message_id := "m1"; data_utf8 := Some "abc123"; attributes := ∅ |}.

(** What the assembler makes of the scenario, with [datetime.time] the class. *)
Definition scenario_items : M (number * number * list SalesItemsRow.t) :=
  process_pedido_items env_time_class (PyDict (order_of [item_coffee; item_bread]))
    scenario_products scenario_timestamp (PyStr "2024-03-01") "abc123"
    (PyStr "Bia") (PyStr "7") (PyStr "Ana") (PyStr "123").

Definition scenario_rows : list SalesItemsRow.t :=
  match scenario_items scenario_world with
  | (Ok (_, _, rows), _) => rows
  | _ => []
  end.

Definition scenario_valor : number :=
  py_sum (map SalesItemsRow.produto_valor_total scenario_rows).

Definition scenario_pontos : number :=
  py_sum (map SalesItemsRow.produto_pontos scenario_rows).

Definition scenario_sales_row : M SalesRow.t :=
  prepare_sales_row env_time_class "abc123" scenario_timestamp (PyStr "2024-03-01")
    (PyDict (order_of [item_coffee; item_bread]))
    (PyStr "Bia") (PyStr "7") (PyStr "Ana") (PyStr "123") scenario_valor scenario_pontos.

Definition scenario_world1 : World := (scenario_items scenario_world).2.

(** 2024-03-01T09:00:00Z: Friday 06:00 in Sao Paulo. *)
Definition friday_six : datetime := datetime_of 2024 3 1 9 0 0 0.

(** The scenario with a happy-hour rate of 0.10. *)
Definition env_happy_as_written : Env := scenario_env datetime_method_time "0.10".

(** The scenario without the survey document, and without any product
    document. *)
Definition world_without_survey : World :=
  world_of [order_blob [item_coffee; item_bread]; product_blob].

Definition world_without_products : World :=
  world_of [survey_blob; order_blob [item_coffee; item_bread]].

(** What [download_json_files] returns in [w]; nothing when it raises. *)
Definition downloads_of (E : Env) (uuid : string) (w : World) : downloads :=
  match (download_json_files E uuid w).1 with
  | Ok data => data
  | Raise _ =>
      {| pesquisa := PyNone; pdv := PyNone; produto := ∅; processing_timestamp := None |}
  end.

(** An order document whose header lacks the payment method. *)
Definition order_without_payment : pyobj :=
  obj [("retorno",
        obj [("pedido",
              obj [("id", PyStr "900"); ("numero", PyStr "42"); ("data", PyStr "01/03/2024");
                   ("totalProdutos", PyStr "26.00"); ("totalVenda", PyStr "26.00");
                   ("observacoes", PyStr "");
                   ("contato", obj [("nome", PyStr "Ana"); ("cpfCnpj", PyStr "123")]);
                   ("itens", PyList [item_coffee])])])].

Definition world_without_payment : World :=
  world_of
    [survey_blob;
     blob "pdv.json"
       [("UUID", "abc123"); ("Data-Type", "pdv.pedido");
        ("Processing-Timestamp", "2024-03-01T07:30:00Z")] order_without_payment;
     product_blob].

(** An order row, as [prepare_sales_row] builds them. *)
Definition example_order_row : SalesRow.t :=
  {| SalesRow.uuid := "abc123";
     SalesRow.timestamp := convert_to_sao_paulo_time env_as_written scenario_timestamp;
     SalesRow.pedido_dia := PyStr "2024-03-01";
     SalesRow.pedido_id := PyStr "900";
     SalesRow.pedido_numero := PyStr "42";
     SalesRow.cliente_nome := PyStr "Ana";
     SalesRow.cliente_cpf := PyStr "123";
     SalesRow.vendedor_nome := PyStr "Bia";
     SalesRow.vendedor_id := PyStr "7";
     SalesRow.pedido_valor := scenario_valor;
     SalesRow.fidelidade_multiplier := dec "0.02";
     SalesRow.pedido_pontos := scenario_pontos;
     SalesRow.project_id := Some "proj";
     SalesRow.source_identifier := Some "pdv";
     SalesRow.version_control := Some "v1";
     SalesRow.processed_timestamp := "2024-03-01T04:30:01-03:00" |}.

(** The order row of an order none of whose items has product metadata. *)
Definition empty_order_row : SalesRow.t :=
  {| SalesRow.uuid := "abc123";
     SalesRow.timestamp := convert_to_sao_paulo_time env_as_written scenario_timestamp;
     SalesRow.pedido_dia := PyStr "2024-03-01";
     SalesRow.pedido_id := PyStr "900";
     SalesRow.pedido_numero := PyStr "42";
     SalesRow.cliente_nome := PyStr "Ana";
     SalesRow.cliente_cpf := PyStr "123";
     SalesRow.vendedor_nome := PyStr "Bia";
     SalesRow.vendedor_id := PyStr "7";
     SalesRow.pedido_valor := NInt 0;
     SalesRow.fidelidade_multiplier := dec "0.02";
     SalesRow.pedido_pontos := NInt 0;
     SalesRow.project_id := Some "proj";
     SalesRow.source_identifier := Some "pdv";
     SalesRow.version_control := Some "v1";
     SalesRow.processed_timestamp := "2024-03-01T04:30:01-03:00" |}.

(** The world after the writer ran once, and twice, on that row. *)
Definition written_once : World :=
  (load_data_to_bigquery env_as_written empty_order_row [] "abc123" scenario_world).2.

Definition written_twice : World :=
  (load_data_to_bigquery env_as_written empty_order_row [] "abc123" written_once).2.

(** The world after the message of the scenario without product documents
    was processed once, and twice. *)
Definition delivered : World :=
  (process_message env_as_written scenario_message world_without_products).2.

Definition redelivered : World :=
  (process_message env_as_written scenario_message delivered).2.

(** ** Vocabulary of the further properties *)

(** When [m] raises, the warehouse is as [m] found it. *)
Definition raises_before_writing {A} (m : M A) : Prop :=
  forall w e, (m w).1 = Raise e -> bigquery (m w).2 = bigquery w.

(** [nome] and [id] are the seller's name and id of the first order of the
    survey document, each read from its place. *)
Definition seller_of (pesquisa_data nome id : pyobj) : Prop :=
  exists retorno pedidos first pedido,
    getitem pesquisa_data "retorno" = Ok retorno
    /\ getitem retorno "pedidos" = Ok pedidos
    /\ getitem0 pedidos = Ok first
    /\ getitem first "pedido" = Ok pedido
    /\ getitem pedido "nome_vendedor" = Ok nome
    /\ getitem pedido "id_vendedor" = Ok id.

(** The five values [process_message] requires before it builds any row. *)
Definition required_fields (nome_vendedor id_vendedor : pyobj) (f : pdv_fields) : bool :=
  truthy nome_vendedor && truthy id_vendedor && truthy (f_pedido_id f)
  && truthy (f_pedido_numero f) && truthy (f_pedido_dia f).

(** The scenario with a survey whose seller id is the number 0. *)
Definition survey_seller_zero : pyobj :=
  obj [("retorno",
        obj [("pedidos",
              PyList [obj [("pedido",
                            obj [("nome_vendedor", PyStr "Bia");
                                 ("id_vendedor", PyInt 0)])]])])].

Definition world_seller_zero : World :=
  world_of
    [blob "pesquisa.json" [("UUID", "abc123"); ("Data-Type", "pedidos.pesquisa")]
       survey_seller_zero;
     order_blob [item_coffee; item_bread]; product_blob].

(** The item row [row] belongs to the order row [o]: the columns that both
    tables have hold the same values. *)
Definition row_of_order (o : SalesRow.t) (row : SalesItemsRow.t) : Prop :=
  SalesItemsRow.uuid row = SalesRow.uuid o
  /\ SalesItemsRow.pedido_id row = SalesRow.pedido_id o
  /\ SalesItemsRow.pedido_numero row = SalesRow.pedido_numero o
  /\ SalesItemsRow.pedido_dia row = SalesRow.pedido_dia o
  /\ SalesItemsRow.timestamp row = SalesRow.timestamp o
  /\ SalesItemsRow.cliente_nome row = SalesRow.cliente_nome o
  /\ SalesItemsRow.cliente_cpf row = SalesRow.cliente_cpf o
  /\ SalesItemsRow.vendedor_nome row = SalesRow.vendedor_nome o
  /\ SalesItemsRow.vendedor_id row = SalesRow.vendedor_id o
  /\ SalesItemsRow.fidelidade_multiplier row = SalesRow.fidelidade_multiplier o
  /\ SalesItemsRow.project_id row = SalesRow.project_id o
  /\ SalesItemsRow.source_identifier row = SalesRow.source_identifier o
  /\ SalesItemsRow.version_control row = SalesRow.version_control o.

(** The product id of a line item that has product metadata. *)
Definition retained (produto_data : gmap string pyobj) (item : pyobj) : option pyobj :=
  match getitem item "idProduto" with
  | Ok produto_id =>
      match produto_get produto_data produto_id with
      | Ok produto => if truthy produto then Some produto_id else None
      | Raise _ => None
      end
  | Raise _ => None
  end.

(** [w] after [n] readings of the clock. *)
Definition ticked (n : nat) (w : World) : World := Nat.iter n tick w.

(** The order row of the scenario, with [datetime.time] the class. *)
Definition scenario_order_row : SalesRow.t :=
  match (scenario_sales_row scenario_world1).1 with
  | Ok row => row
  | Raise _ => example_order_row
  end.

(** An order with the same product on two lines. *)
Definition twice_coffee : M (number * number * list SalesItemsRow.t) :=
  process_pedido_items env_time_class (PyDict (order_of [item_coffee; item_bread; item_coffee]))
    scenario_products scenario_timestamp (PyStr "2024-03-01") "abc123"
    (PyStr "Bia") (PyStr "7") (PyStr "Ana") (PyStr "123").

Definition twice_coffee_rows : list SalesItemsRow.t :=
  match twice_coffee scenario_world with
  | (Ok (_, _, rows), _) => rows
  | _ => []
  end.

(** Where the columns of an item row come from: [d] is the line item and
    [inner] the product's metadata (lines 297-312 and 317-344). *)
Definition item_row_read_from (d inner : gmap string pyobj) (row : SalesItemsRow.t)
  : Prop :=
  d !! "idProduto" = Some (SalesItemsRow.produto_idProduto row)
  /\ SalesItemsRow.produto_descricao row = default (PyStr "") (d !! "descricao")
  /\ py_float (default (PyInt 0) (d !! "quantidade"))
     = Ok (SalesItemsRow.produto_quantidade row)
  /\ py_float (default (PyInt 0) (d !! "valor")) = Ok (SalesItemsRow.produto_valor row)
  /\ (exists x, py_float (default (PyInt 0) (d !! "desconto")) = Ok x)
  /\ (exists x, py_float (default (PyInt 0) (inner !! "preco_custo")) = Ok x)
  /\ extract_multiplier (default (PyStr "") (inner !! "obs"))
     = Ok (SalesItemsRow.produto_multiplier row)
  /\ exists categoria,
       default (PyStr "") (inner !! "categoria") = PyStr categoria
       /\ SalesItemsRow.produto_category_first row = nth 0 (split categoria " >> ") ""
       /\ SalesItemsRow.produto_category_second row = nth 1 (split categoria " >> ") "".

(** The first line item of the scenario once the loop has stored the order's
    id and number in it, and the row it yields. *)
Definition coffee_stored : pyobj :=
  obj [("idProduto", PyStr "111"); ("descricao", PyStr "Cafe");
       ("quantidade", PyStr "2.00"); ("valor", PyStr "10.50");
       ("pedido_id", PyStr "900"); ("pedido_numero", PyStr "42")].

Definition coffee_row : SalesItemsRow.t :=
  let final := fadd (fadd (dec "0.02") fzero) (dec "0.05") in
  let total := fmul (dec "2.00") (dec "10.50") in
  {| SalesItemsRow.uuid := "abc123";
     SalesItemsRow.timestamp := convert_to_sao_paulo_time env_time_class scenario_timestamp;
     SalesItemsRow.pedido_dia := PyStr "2024-03-01";
     SalesItemsRow.pedido_id := PyStr "900";
     SalesItemsRow.pedido_numero := PyStr "42";
     SalesItemsRow.cliente_nome := PyStr "Ana";
     SalesItemsRow.cliente_cpf := PyStr "123";
     SalesItemsRow.vendedor_nome := PyStr "Bia";
     SalesItemsRow.vendedor_id := PyStr "7";
     SalesItemsRow.produto_idProduto := PyStr "111";
     SalesItemsRow.produto_descricao := PyStr "Cafe";
     SalesItemsRow.produto_category_first := "Bebidas";
     SalesItemsRow.produto_category_second := "Cafe";
     SalesItemsRow.produto_quantidade := dec "2.00";
     SalesItemsRow.produto_valor := dec "10.50";
     SalesItemsRow.produto_valor_total := total;
     SalesItemsRow.produto_multiplier := dec "0.05";
     SalesItemsRow.fidelidade_multiplier := dec "0.02";
     SalesItemsRow.special_multiplier := fzero;
     SalesItemsRow.final_multiplier := final;
     SalesItemsRow.produto_pontos := fmul total final;
     SalesItemsRow.project_id := Some "proj";
     SalesItemsRow.source_identifier := Some "pdv";
     SalesItemsRow.version_control := Some "v1";
     SalesItemsRow.processed_timestamp := "2024-03-01T04:30:01-03:00" |}.

(** A line item of the product 111 whose discount is no number. *)
Definition item_discount_text : pyobj :=
  obj [("idProduto", PyStr "111"); ("descricao", PyStr "Cafe");
       ("quantidade", PyStr "1.00"); ("valor", PyStr "10.50");
       ("desconto", PyStr "10%")].

(** [blob] carries the correlation key [uuid]: the test of line 200. *)
Definition tagged (uuid : string) (blob : Blob) : bool :=
  match blob_metadata blob with
  | Some metadata =>
      negb (bool_decide (metadata = ∅)) && bool_decide (metadata !! "UUID" = Some uuid)
  | None => false
  end.

(** [blob] carries the key [uuid] and the data type of the survey, of the
    order or of a product (with its id), and its download or parse raises. *)
Definition unreadable (uuid : string) (blob : Blob) : bool :=
  match blob_metadata blob, blob_json blob with
  | Some metadata, Raise _ =>
      bool_decide (metadata !! "UUID" = Some uuid)
      && match metadata !! "Data-Type" with
         | Some data_type =>
             String.eqb data_type "pedidos.pesquisa" || String.eqb data_type "pdv.pedido"
             || (String.eqb data_type "produto"
                 && bool_decide (is_Some (metadata !! "Produto-ID")))
         | None => false
         end
  | _, _ => false
  end.

(** [blob] carries the key [uuid] but no data type, or the data type
    [produto] but no product id. *)
Definition mistagged (uuid : string) (blob : Blob) : bool :=
  match blob_metadata blob with
  | Some metadata =>
      bool_decide (metadata !! "UUID" = Some uuid)
      && match metadata !! "Data-Type" with
         | None => true
         | Some data_type =>
             String.eqb data_type "produto" && bool_decide (metadata !! "Produto-ID" = None)
         end
  | None => false
  end.

Definition with_bucket (w : World) (blobs : list Blob) : World :=
  {| bucket := Ok blobs; clock := clock w; ticks := ticks w;
     bigquery := bigquery w; acked := acked w |}.

(** Objects of the bucket that belong to another order, carry no metadata,
    or carry the key without a data type. *)
Definition foreign_blob : Blob :=
  blob "pdv-other.json"
    [("UUID", "zzz999"); ("Data-Type", "pdv.pedido");
     ("Processing-Timestamp", "not a timestamp")] (PyStr "other").

Definition bare_blob : Blob :=
  {| blob_name := "readme.txt"; blob_metadata := None; blob_json := Raise JSONDecodeError |}.

Definition untyped_blob : Blob :=
  blob "notes.json" [("UUID", "abc123")] (PyStr "notes").

(** A second copy of the survey document that does not parse. *)
Definition broken_survey_blob : Blob :=
  {| blob_name := "pesquisa-2.json";
     blob_metadata :=
       Some (list_to_map [("UUID", "abc123"); ("Data-Type", "pedidos.pesquisa")]);
     blob_json := Raise JSONDecodeError |}.

(** The text [dd/mm/yyyy] of a date. *)
Definition dmY_text (d m y : Z) : string :=
  str (zero_padded 2 d ++ "/"%char :: zero_padded 2 m ++ "/"%char :: zero_padded 4 y).

(** A date of the calendar [datetime] covers. *)
Definition valid_date (y m d : Z) : Prop :=
  1 <= y <= 9999 /\ 1 <= m <= 12 /\ 1 <= d <= days_in_month y m.

(** The dataset identifier [load_data_to_bigquery] builds (line 490). *)
Definition dataset_id_of (E : Env) : string :=
  (fmt (PROJECT_ID E) +:+ "." +:+ fmt (DATASET_ID E))%string.

(** The table the module creates when it finds none, for an identifier that
    ends with the name of the order table (lines 456-463 and 475). *)
Definition new_table : Table :=
  {| partition_field := "pedido_dia";
     clustering_fields := ["cliente_cpf"; "vendedor_id"];
     primary_key := []; table_rows := [] |}.

(** [c] leaves in every table the rows it found there. *)
Definition keeps_rows {A} (c : W A) : Prop :=
  forall wh id, rows_of (c wh).2 id = rows_of wh id.

(** The scenario with the item table named [items_sales]: its identifier
    ends with the name of the order table. *)
Definition env_items_sales : Env :=
  {| PROJECT_ID := Some "proj"; BUCKET_NAME := Some "bucket"; DATASET_ID := Some "loyalty";
     TABLE_ID_SALES := Some "sales"; TABLE_ID_SALES_ITEMS := Some "items_sales";
     SOURCE_IDENTIFIER := Some "pdv"; VERSION_CONTROL := Some "v1";
     FIDELIDADE_MULTIPLIER := dec "0.02";
     MORNING_MULTIPLIER := dec "0.03";
     HAPPYHOUR_MULTIPLIER := dec "0.0";
     sao_paulo_utcoffset := fun _ => -10800;
     datetime_time := datetime_method_time;
     fromisoformat := fun _ => Raise ValueError |}.

(** A world whose warehouse already holds the dataset and the two tables of
    the scenario, the order table with a row in it, and in which the fourth
    request of the client fails. *)
Definition provisioned_world : World :=
  {| bucket := Ok []; clock := fun _ => "2024-03-01T04:30:01-03:00"; ticks := 0;
     bigquery :=
       {| datasets := {["proj.loyalty"]};
          tables :=
            {["proj.loyalty.sales" :=
                {| partition_field := "pedido_dia";
                   clustering_fields := ["cliente_cpf"; "vendedor_id"];
                   primary_key := []; table_rows := [OrderRow empty_order_row] |};
              "proj.loyalty.sales_items" :=
                {| partition_field := "pedido_dia"; clustering_fields := [];
                   primary_key := []; table_rows := [] |}]};
          script := fun n => if (n =? 3)%nat then Fails (OtherError "ServiceUnavailable")
                             else Normal;
          calls := 0 |};
     acked := [] |}.


(** The character [c] does not occur in [s]. *)
Definition free_of (c : ascii) (s : string) : bool :=
  forallb (fun x => negb (Ascii.eqb x c)) (chars s).

(** [sep.join(pieces)] on lists of characters. *)
Fixpoint join (sep : list ascii) (pieces : list (list ascii)) : list ascii :=
  match pieces with
  | [] => []
  | [p] => p
  | p :: ps => p ++ sep ++ join sep ps
  end.

(** A line item whose product id is the number 111. *)
Definition item_numeric_id : pyobj :=
  obj [("idProduto", PyInt 111); ("descricao", PyStr "Cafe");
       ("quantidade", PyStr "2.00"); ("valor", PyStr "10.50")].

(** The scenario with the name of the order table not set. *)
Definition env_without_sales_table : Env :=
  {| PROJECT_ID := Some "proj"; BUCKET_NAME := Some "bucket"; DATASET_ID := Some "loyalty";
     TABLE_ID_SALES := None; TABLE_ID_SALES_ITEMS := Some "sales_items";
     SOURCE_IDENTIFIER := Some "pdv"; VERSION_CONTROL := Some "v1";
     FIDELIDADE_MULTIPLIER := dec "0.02";
     MORNING_MULTIPLIER := dec "0.03";
     HAPPYHOUR_MULTIPLIER := dec "0.0";
     sao_paulo_utcoffset := fun _ => -10800;
     datetime_time := time_class;
     fromisoformat := fun _ => Raise ValueError |}.

(** * Properties *)

(** ** The situational rate *)

Lemma in_window_as_written E a t b :
  as_written E -> in_window E a t b = Raise TypeError.
Proof. intros HE. unfold in_window. now rewrite HE. Qed.

Lemma get_special_multiplier_as_written E ts :
  as_written E -> get_special_multiplier E ts = Raise TypeError.
Proof.
  intros HE. unfold get_special_multiplier.
  now rewrite (in_window_as_written E 5 _ 10 HE).
Qed.

(** ** The row assembler *)

Lemma bind_lift {A B} (r : result A) (k : A -> M B) (w : World) :
  bind (lift r) k w = match r with Ok a => k a w | Raise e => (Raise e, w) end.
Proof. unfold bind, lift. now destruct r. Qed.

Lemma bind_ok {A B} (m : M A) (k : A -> M B) (w w' : World) (b : B) :
  bind m k w = (Ok b, w') ->
  exists a w1, m w = (Ok a, w1) /\ k a w1 = (Ok b, w').
Proof.
  unfold bind. destruct (m w) as [[a | e] w1]; [eauto | discriminate].
Qed.

(** Peels the leading [lift]ed step of a computation that returned. *)
Ltac peel H :=
  match type of H with
  | bind (lift (Ok _)) _ _ = (Ok _, _) => rewrite bind_lift in H; cbv iota beta in H
  | bind (lift ?r) _ _ = (Ok _, _) =>
      rewrite bind_lift in H;
      let x := fresh "x" in let Hx := fresh "Hx" in
      destruct r as [x | ?] eqn:Hx; [| discriminate H]
  end.

Lemma process_pedido_item_dropped E item pd ts dia uuid nv iv cn cc produto_id produto w :
  getitem item "idProduto" = Ok produto_id ->
  produto_get pd produto_id = Ok produto ->
  truthy produto = false ->
  process_pedido_item E item pd ts dia uuid nv iv cn cc w = (Ok (fzero, fzero, None), w).
Proof.
  intros H1 H2 H3. unfold process_pedido_item.
  rewrite bind_lift, H1, bind_lift, H2, H3. reflexivity.
Qed.

Lemma process_pedido_item_inv E item pd ts dia uuid nv iv cn cc w vt pp orow w' :
  process_pedido_item E item pd ts dia uuid nv iv cn cc w = (Ok (vt, pp, orow), w') ->
  exists produto_id produto,
    getitem item "idProduto" = Ok produto_id
    /\ produto_get pd produto_id = Ok produto
    /\ if truthy produto then
         exists row, orow = Some row /\ row_computed E ts row
           /\ vt = SalesItemsRow.produto_valor_total row
           /\ pp = SalesItemsRow.produto_pontos row
           /\ SalesItemsRow.produto_idProduto row = produto_id
           /\ w' = tick w
       else orow = None /\ vt = fzero /\ pp = fzero /\ w' = w.
Proof.
  unfold process_pedido_item. intros H.
  peel H. peel H. exists x, x0.
  split; [reflexivity |]. split; [assumption |].
  destruct (truthy x0).
  - do 19 peel H.
    unfold bind, now_isoformat, ret in H. injection H as <- <- <- <-.
    eexists. split; [reflexivity |].
    split; [| repeat split; reflexivity].
    unfold row_computed; cbn. repeat split; try reflexivity; eauto.
  - unfold ret in H. injection H as <- <- <- <-. repeat split; reflexivity.
Qed.

Lemma process_items_loop_inv E itens pedido_pdv pd ts dia uuid nv iv cn cc :
  forall acc w rows w',
    process_items_loop E itens pedido_pdv pd ts dia uuid nv iv cn cc acc w = (Ok rows, w') ->
    exists new, rows = acc ++ new /\ Forall (row_computed E ts) new.
Proof.
  induction itens as [| item rest IH]; intros acc w rows w' H.
  - cbn in H. unfold ret in H. injection H as <- <-.
    exists []. split; [now rewrite app_nil_r | constructor].
  - cbn [process_items_loop] in H. do 4 peel H.
    apply bind_ok in H as ([[vt pp] orow] & w1 & Hitem & H).
    apply process_pedido_item_inv in Hitem as (pid & p & _ & _ & Hcase).
    apply IH in H as (new & -> & Hnew).
    destruct (truthy p).
    + destruct Hcase as (row & -> & Hrow & _).
      exists (row :: new). split; [now rewrite <- app_assoc | now constructor].
    + destruct Hcase as (-> & _). now exists new.
Qed.

(** The loop reads the order document only through its [id] and [numero]. *)
Lemma process_items_loop_ext E itens p p' pd ts dia uuid nv iv cn cc :
  getitem p "id" = getitem p' "id" ->
  getitem p "numero" = getitem p' "numero" ->
  forall acc w,
    process_items_loop E itens p pd ts dia uuid nv iv cn cc acc w
    = process_items_loop E itens p' pd ts dia uuid nv iv cn cc acc w.
Proof.
  intros Hid Hnum. induction itens as [| item rest IH]; intros acc w0; [reflexivity |].
  cbn [process_items_loop]. rewrite Hid, Hnum.
  rewrite !bind_lift. destruct (getitem p' "id"); [| reflexivity].
  rewrite !bind_lift. destruct (setitem item _ _); [| reflexivity].
  rewrite !bind_lift. destruct (getitem p' "numero"); [| reflexivity].
  rewrite !bind_lift. destruct (setitem _ _ _); [| reflexivity].
  match goal with |- bind ?m ?k w0 = bind ?m ?k' w0 =>
    change (match m w0 with (Ok a, w1) => k a w1 | (Raise e, w1) => (Raise e, w1) end
            = match m w0 with (Ok a, w1) => k' a w1 | (Raise e, w1) => (Raise e, w1) end);
    destruct (m w0) as [[[[vt pp] orow] | e] w1]; [apply IH | reflexivity]
  end.
Qed.

Lemma process_pedido_items_inv E pedido_pdv pd ts dia uuid nv iv cn cc w v p rows w' :
  process_pedido_items E pedido_pdv pd ts dia uuid nv iv cn cc w = (Ok (v, p, rows), w') ->
  v = py_sum (map SalesItemsRow.produto_valor_total rows)
  /\ p = py_sum (map SalesItemsRow.produto_pontos rows)
  /\ Forall (row_computed E ts) rows
  /\ exists itens l,
       getitem pedido_pdv "itens" = Ok itens /\ iterate itens = Ok l
       /\ process_items_loop E l pedido_pdv pd ts dia uuid nv iv cn cc [] w = (Ok rows, w').
Proof.
  unfold process_pedido_items. intros H. do 2 peel H.
  apply bind_ok in H as (rows' & w1 & Hloop & H).
  unfold ret in H. injection H as <- <- <- <-.
  split; [reflexivity |]. split; [reflexivity |].
  split; [| eauto].
  apply process_items_loop_inv in Hloop as (new & -> & Hnew). exact Hnew.
Qed.

Lemma prepare_sales_row_inv E uuid ts dia pedido_pdv nv iv cn cc v p w row w' :
  prepare_sales_row E uuid ts dia pedido_pdv nv iv cn cc v p w = (Ok row, w') ->
  SalesRow.pedido_valor row = v /\ SalesRow.pedido_pontos row = p /\ w' = tick w.
Proof.
  unfold prepare_sales_row. intros H. do 2 peel H.
  unfold bind, now_isoformat, ret in H. injection H as <- <-. now repeat split.
Qed.

(** C1: the order row's value and points are the sums, over the item rows
    kept, of [produto_valor_total] and of [produto_pontos]; with no row kept
    both equal 0.0; and the totals the order document states have no part in
    them: storing anything under [totalProdutos] or [totalVenda] changes
    neither the rows nor the sums. *)
Theorem order_totals_are_sums_of_item_rows
    (E : Env) (pedido_pdv : pyobj) (produto_data : gmap string pyobj)
    (processing_timestamp : datetime) (pedido_dia : pyobj) (uuid : string)
    (nome_vendedor id_vendedor cliente_nome cliente_cpf : pyobj)
    (w w1 w2 : World) (pedido_valor pedido_pontos : number)
    (sales_items_rows : list SalesItemsRow.t) (sales_row : SalesRow.t) :
  process_pedido_items E pedido_pdv produto_data processing_timestamp pedido_dia uuid
    nome_vendedor id_vendedor cliente_nome cliente_cpf w
  = (Ok (pedido_valor, pedido_pontos, sales_items_rows), w1) ->
  prepare_sales_row E uuid processing_timestamp pedido_dia pedido_pdv
    nome_vendedor id_vendedor cliente_nome cliente_cpf pedido_valor pedido_pontos w1
  = (Ok sales_row, w2) ->
  SalesRow.pedido_valor sales_row
  = py_sum (map SalesItemsRow.produto_valor_total sales_items_rows)
  /\ SalesRow.pedido_pontos sales_row
     = py_sum (map SalesItemsRow.produto_pontos sales_items_rows)
  /\ (sales_items_rows = [] ->
      number_eq_float (SalesRow.pedido_valor sales_row) fzero = true
      /\ number_eq_float (SalesRow.pedido_pontos sales_row) fzero = true)
  /\ (forall d k total,
        pedido_pdv = PyDict d -> k = "totalProdutos" \/ k = "totalVenda" ->
        process_pedido_items E (PyDict (<[k := total]> d)) produto_data
          processing_timestamp pedido_dia uuid
          nome_vendedor id_vendedor cliente_nome cliente_cpf w
        = (Ok (pedido_valor, pedido_pontos, sales_items_rows), w1)).
Proof.
  intros Hitems Hrow.
  pose proof (process_pedido_items_inv _ _ _ _ _ _ _ _ _ _ _ _ _ _ _ Hitems)
    as (Hv & Hp & _ & _).
  apply prepare_sales_row_inv in Hrow as (-> & -> & _).
  split; [exact Hv |]. split; [exact Hp |]. split.
  - intros ->. subst. split; reflexivity.
  - intros d k total -> Hk. rewrite <- Hitems.
    assert (Hne : k <> "itens" /\ k <> "id" /\ k <> "numero")
      by (destruct Hk as [-> | ->]; repeat split; discriminate).
    destruct Hne as (Hn1 & Hn2 & Hn3).
    unfold process_pedido_items. cbn [getitem].
    rewrite (lookup_insert_ne d k "itens") by exact Hn1.
    rewrite !bind_lift. destruct (d !! "itens") as [itens |]; [| reflexivity].
    rewrite !bind_lift. destruct (iterate itens) as [l |]; [| reflexivity].
    unfold bind.
    rewrite (process_items_loop_ext E l (PyDict (<[k := total]> d)) (PyDict d)); [reflexivity | |].
    + cbn. now rewrite lookup_insert_ne.
    + cbn. now rewrite lookup_insert_ne.
Qed.

(** ** What each stage leaves untouched *)

Section Keeps.
Context {X : Type} (f : World -> X).

Lemma keeps_ret {A} (a : A) : keeps f (ret a).
Proof. now intros w. Qed.

Lemma keeps_raise {A} (e : exn) : keeps f (@raise A e).
Proof. now intros w. Qed.

Lemma keeps_lift {A} (r : result A) : keeps f (lift r).
Proof. now intros w. Qed.

Lemma keeps_bind {A B} (m : M A) (k : A -> M B) :
  keeps f m -> (forall a, keeps f (k a)) -> keeps f (bind m k).
Proof.
  intros Hm Hk w. unfold bind. specialize (Hm w).
  destruct (m w) as [[a | e] w1]; cbn in *; [| exact Hm].
  now rewrite Hk.
Qed.

Lemma keeps_try_except {A} (m : M A) (h : exn -> M A) :
  keeps f m -> (forall e, keeps f (h e)) -> keeps f (try_except m h).
Proof.
  intros Hm Hh w. unfold try_except. specialize (Hm w).
  destruct (m w) as [[a | e] w1]; cbn in *; [exact Hm |].
  now rewrite Hh.
Qed.

End Keeps.

Lemma keeps_now_acked : keeps acked now_isoformat.
Proof. now intros w. Qed.

Lemma keeps_now_bigquery : keeps bigquery now_isoformat.
Proof. now intros w. Qed.

Lemma keeps_in_warehouse_acked {A} (c : W A) : keeps acked (in_warehouse c).
Proof. intros w. unfold in_warehouse. now destruct (c (bigquery w)). Qed.

Create HintDb keeps.
#[local] Hint Resolve keeps_ret keeps_raise keeps_lift keeps_now_acked keeps_now_bigquery
  keeps_in_warehouse_acked : keeps.

(** Splits a computation into its steps, each left to the hints. *)
Ltac keeps_steps :=
  repeat first
    [ progress intros
    | progress cbv beta zeta
    | solve [auto with keeps]
    | apply keeps_bind
    | apply keeps_try_except
    | match goal with
      | |- keeps _ (match ?x with _ => _ end) => destruct x
      | |- keeps _ (if ?b then _ else _) => destruct b
      end ].

Lemma keeps_process_pedido_item {X} (f : World -> X) E item pd ts dia uuid nv iv cn cc :
  keeps f now_isoformat ->
  keeps f (process_pedido_item E item pd ts dia uuid nv iv cn cc).
Proof. intros Hnow. unfold process_pedido_item. keeps_steps. Qed.

Lemma keeps_process_items_loop {X} (f : World -> X) E itens p pd ts dia uuid nv iv cn cc :
  keeps f now_isoformat ->
  forall acc, keeps f (process_items_loop E itens p pd ts dia uuid nv iv cn cc acc).
Proof.
  intros Hnow. induction itens as [| item rest IH]; intros acc; cbn [process_items_loop].
  - apply keeps_ret.
  - pose proof (keeps_process_pedido_item f E) as Hitem. keeps_steps.
Qed.

Lemma keeps_process_pedido_items {X} (f : World -> X) E p pd ts dia uuid nv iv cn cc :
  keeps f now_isoformat ->
  keeps f (process_pedido_items E p pd ts dia uuid nv iv cn cc).
Proof.
  intros Hnow. unfold process_pedido_items.
  pose proof (keeps_process_items_loop f E) as Hloop. keeps_steps.
Qed.

Lemma keeps_prepare_sales_row {X} (f : World -> X) E uuid ts dia p nv iv cn cc v pp :
  keeps f now_isoformat ->
  keeps f (prepare_sales_row E uuid ts dia p nv iv cn cc v pp).
Proof. intros Hnow. unfold prepare_sales_row. keeps_steps. Qed.

Lemma keeps_download_json_files {X} (f : World -> X) E uuid :
  keeps f (download_json_files E uuid).
Proof. now intros w. Qed.

Lemma keeps_load_acked E row rows uuid : keeps acked (load_data_to_bigquery E row rows uuid).
Proof. unfold load_data_to_bigquery. apply keeps_in_warehouse_acked. Qed.

Lemma keeps_process_body_acked E uuid : keeps acked (process_body E uuid).
Proof.
  unfold process_body.
  pose proof (keeps_download_json_files acked E) as H1.
  pose proof (keeps_process_pedido_items acked E) as H2.
  pose proof (keeps_prepare_sales_row acked E) as H3.
  pose proof (keeps_load_acked E) as H4.
  keeps_steps.
Qed.

(** ** The driver *)

Lemma process_message_decoded E message uuid w :
  data_utf8 message = Some uuid ->
  process_message E message w
  = (Ok tt, acknowledged message (try_except (process_body E uuid) (fun _ => ret tt) w).2).
Proof.
  intros Hd. unfold process_message. rewrite Hd. unfold bind.
  destruct (try_except _ _ w) as [[[] | e] w1] eqn:Htry; [reflexivity |].
  unfold try_except in Htry.
  destruct (process_body E uuid w) as [[[] | e'] w2]; discriminate.
Qed.

Lemma process_message_acks E message uuid w :
  data_utf8 message = Some uuid ->
  exists w', process_message E message w = (Ok tt, w')
             /\ acked w' = acked w ++ [message_id message].
Proof.
  intros Hd. rewrite (process_message_decoded E message uuid w Hd).
  eexists. split; [reflexivity |]. cbn.
  rewrite (keeps_try_except acked); [reflexivity | apply keeps_process_body_acked |].
  intros e. apply keeps_ret.
Qed.

Lemma pubsub_callback_run E message w :
  pubsub_callback E message w = (Ok tt, acknowledged message w).
Proof.
  unfold pubsub_callback, try_except.
  destruct (attributes message !! "Processing-Timestamp") as [s |]; [| reflexivity].
  destruct (negb (String.eqb s "")); [| reflexivity].
  rewrite bind_lift. destruct (fromisoformat E (replace_Z s)); reflexivity.
Qed.

(** C7: the callback acknowledges every message exactly once and returns,
    whatever happens before; [process_message] itself acknowledges exactly
    once every message whose payload decodes, whether its [try] returns or
    raises, and raises without acknowledging only when the payload does not
    decode (which the callback then catches). *)
Theorem every_message_acknowledged_once (E : Env) (message : Message) (w : World) :
  (pubsub_callback E message w).1 = Ok tt
  /\ acked (pubsub_callback E message w).2 = acked w ++ [message_id message]
  /\ (process_message E message w).1
     = match data_utf8 message with Some _ => Ok tt | None => Raise UnicodeDecodeError end
  /\ acked (process_message E message w).2
     = acked w ++ match data_utf8 message with Some _ => [message_id message] | None => [] end.
Proof.
  rewrite pubsub_callback_run. split; [reflexivity |]. split; [reflexivity |].
  destruct (data_utf8 message) as [uuid |] eqn:Hd.
  - destruct (process_message_acks E message uuid w Hd) as (w' & -> & Hack).
    now split.
  - unfold process_message. rewrite Hd. cbn. now rewrite app_nil_r.
Qed.

Lemma process_body_incomplete E uuid w data :
  download_json_files E uuid w = (Ok data, w) ->
  truthy (pesquisa data) = false \/ truthy (pdv data) = false
  \/ processing_timestamp data = None ->
  process_body E uuid w = (Ok tt, w).
Proof.
  intros Hdl Hmiss. unfold process_body, bind. rewrite Hdl.
  destruct (processing_timestamp data); [| reflexivity].
  destruct Hmiss as [-> | [-> | ?]]; [reflexivity | | discriminate].
  now rewrite andb_false_r.
Qed.

Lemma download_json_files_world E uuid w : (download_json_files E uuid w).2 = w.
Proof. reflexivity. Qed.

(** ** Items without product metadata *)

Lemma dropped_item_after_stores pd item d k1 v1 k2 v2 :
  dropped_item pd item -> item = PyDict d ->
  k1 <> "idProduto" -> k2 <> "idProduto" ->
  dropped_item pd (PyDict (<[k2 := v2]> (<[k1 := v1]> d))).
Proof.
  intros (d' & pid & p & -> & Hid & Hget & Hp) [= <-] Hk1 Hk2.
  exists (<[k2 := v2]> (<[k1 := v1]> d')), pid, p. repeat split; try assumption.
  now rewrite !lookup_insert_ne.
Qed.

Lemma process_pedido_item_of_dropped E pd item ts dia uuid nv iv cn cc w :
  dropped_item pd item ->
  process_pedido_item E item pd ts dia uuid nv iv cn cc w = (Ok (fzero, fzero, None), w).
Proof.
  intros (d & pid & p & -> & Hid & Hget & Hp).
  apply (process_pedido_item_dropped E _ pd ts dia uuid nv iv cn cc pid p); try assumption.
  cbn. now rewrite Hid.
Qed.

Lemma process_items_loop_dropped E pd item pedido_pdv ts dia uuid nv iv cn cc i n :
  dropped_item pd item ->
  getitem pedido_pdv "id" = Ok i ->
  getitem pedido_pdv "numero" = Ok n ->
  forall before after acc w,
    process_items_loop E (before ++ item :: after) pedido_pdv pd ts dia uuid nv iv cn cc acc w
    = process_items_loop E (before ++ after) pedido_pdv pd ts dia uuid nv iv cn cc acc w.
Proof.
  intros Hdrop Hid Hnum before after.
  induction before as [| x before IH]; intros acc w; cbn [app process_items_loop].
  - rewrite Hid, Hnum. destruct Hdrop as (d & pid & p & -> & Hdrop).
    rewrite !bind_lift. cbn [setitem]. rewrite !bind_lift. cbn [setitem].
    unfold bind at 1.
    rewrite process_pedido_item_of_dropped; [reflexivity |].
    apply (dropped_item_after_stores pd (PyDict d) d); [| reflexivity | discriminate | discriminate].
    now exists d, pid, p.
  - rewrite Hid, Hnum. rewrite !bind_lift.
    destruct (setitem x "pedido_id" i) as [x1 |]; [| reflexivity].
    rewrite !bind_lift.
    destruct (setitem x1 "pedido_numero" n) as [x2 |]; [| reflexivity].
    match goal with |- bind ?m ?k w = bind ?m ?k' w =>
      change (match m w with (Ok a, w1) => k a w1 | (Raise e, w1) => (Raise e, w1) end
              = match m w with (Ok a, w1) => k' a w1 | (Raise e, w1) => (Raise e, w1) end);
      destruct (m w) as [[[[vt pp] orow] | e] w1]; [apply IH | reflexivity]
    end.
Qed.

(** ** Extraction of the order header *)

Ltac rpeel H :=
  match type of H with
  | rbind (Ok _) _ = _ => cbn [rbind] in H
  | rbind ?r _ = Ok _ =>
      let x := fresh "x" in let Hx := fresh "Hx" in
      destruct r as [x | ?] eqn:Hx; [cbn [rbind] in H | discriminate H]
  end.

Lemma extract_pdv_body_ok pdv_data t :
  extract_pdv_body pdv_data = Ok t -> header_of pdv_data t.
Proof.
  unfold extract_pdv_body. intros H. repeat rpeel H. injection H as <-.
  unfold header_of. cbn.
  exists x, x0, x11, x3, x4, x5, x6, x7, x8. repeat split; assumption.
Qed.

Lemma getitem_raises o k e : getitem o k = Raise e -> e = KeyError \/ e = TypeError.
Proof.
  destruct o as [| b | z | f | s | l | d]; cbn; try (intros [= <-]; now right).
  destruct (d !! k); [discriminate | intros [= <-]; now left].
Qed.

Lemma py_float_raises o e :
  py_float o = Raise e -> e = ValueError \/ e = TypeError \/ e = OverflowError.
Proof.
  destruct o as [| b | z | f | s | l | d]; cbn; try (intros [= <-]; tauto); try discriminate.
  - unfold float_of_int. destruct (binary_normalize _ _ _ _ _); try discriminate.
    intros [= <-]. tauto.
  - destruct (float_of_str s); [discriminate | intros [= <-]; tauto].
Qed.

Lemma reformat_date_raises o e :
  reformat_date o = Raise e -> e = ValueError \/ e = TypeError.
Proof.
  destruct o as [| b | z | f | s | l | d]; cbn; try (intros [= <-]; tauto).
  destruct (strptime_dmY s); [discriminate | intros [= <-]; tauto].
Qed.

Lemma extract_pdv_body_raises pdv_data e :
  extract_pdv_body pdv_data = Raise e ->
  e = KeyError \/ e = ValueError \/ e = TypeError \/ e = OverflowError.
Proof.
  unfold extract_pdv_body. intros H.
  repeat match type of H with
  | rbind (Ok _) _ = _ => cbn [rbind] in H
  | rbind ?r _ = Raise _ =>
      let Hx := fresh "Hx" in
      destruct r eqn:Hx;
        [ cbn [rbind] in H
        | cbn [rbind] in H; injection H as ->;
          first [ apply getitem_raises in Hx; tauto
                | apply py_float_raises in Hx; tauto
                | apply reformat_date_raises in Hx; tauto ] ]
  end.
  discriminate.
Qed.

Lemma extract_pdv_data_outcomes pdv_data :
  match extract_pdv_data pdv_data with
  | Ok t => t = nine_None \/ header_of pdv_data t
  | Raise e => e = TypeError \/ e = OverflowError
  end.
Proof.
  unfold extract_pdv_data.
  destruct (extract_pdv_body pdv_data) as [t | e] eqn:Hb.
  - right. now apply extract_pdv_body_ok.
  - apply extract_pdv_body_raises in Hb as [-> | [-> | [-> | ->]]]; cbn; tauto.
Qed.

Lemma process_body_without_header E uuid w data :
  download_json_files E uuid w = (Ok data, w) ->
  match extract_pdv_data (pdv data) with
  | Ok t => t = nine_None
  | Raise _ => True
  end ->
  (process_body E uuid w).2 = w.
Proof.
  intros Hdl Hh. unfold process_body, bind. rewrite Hdl.
  destruct (processing_timestamp data); [| reflexivity].
  destruct (truthy (pesquisa data) && truthy (pdv data)); [| reflexivity].
  unfold lift.
  destruct (extract_pesquisa_data (pesquisa data)) as [[nome id] |]; [| reflexivity].
  destruct (extract_pdv_data (pdv data)) as [t |]; [| reflexivity].
  subst t. cbn. now rewrite !andb_false_r.
Qed.

(** C10: [extract_pdv_data] returns the nine fields of the header,
    each read from its place, or nine [None]s, or raises [TypeError] (a value
    on the way is not of the type the code indexes or parses) or
    [OverflowError] (a total is an integer too large for a float); it raises
    nothing else.  Whenever it does not return the nine fields, the message
    is acknowledged with nothing written. *)
Theorem header_extraction_outcomes
    (E : Env) (message : Message) (uuid : string) (w : World) (data : downloads) :
  data_utf8 message = Some uuid ->
  download_json_files E uuid w = (Ok data, w) ->
  match extract_pdv_data (pdv data) with
  | Ok t =>
      (t = nine_None \/ header_of (pdv data) t)
      /\ (t = nine_None -> process_message E message w = (Ok tt, acknowledged message w))
  | Raise e =>
      (e = TypeError \/ e = OverflowError)
      /\ process_message E message w = (Ok tt, acknowledged message w)
  end.
Proof.
  intros Hd Hdl.
  pose proof (extract_pdv_data_outcomes (pdv data)) as Hout.
  pose proof (process_body_without_header E uuid w data Hdl) as Hno.
  rewrite (process_message_decoded E message uuid w Hd).
  assert (Hw : (process_body E uuid w).2 = w ->
               (try_except (process_body E uuid) (fun _ => ret tt) w).2 = w).
  { unfold try_except. destruct (process_body E uuid w) as [[[] | e] w1]; now cbn. }
  destruct (extract_pdv_data (pdv data)) as [t | e].
  - split; [exact Hout |]. intros Ht. now rewrite Hw by now apply Hno.
  - split; [exact Hout |]. now rewrite Hw by now apply Hno.
Qed.

(** ** The warehouse writer *)

Lemma call_fault_free {A} (f : bool -> W A) wh :
  fault_free wh -> call f wh = f false (with_calls wh (S (calls wh))).
Proof. intros H. unfold call. now rewrite H. Qed.

Lemma wbind_ok {A B} (m : W A) (k : A -> W B) wh a wh' :
  m wh = (Ok a, wh') -> wbind m k wh = k a wh'.
Proof. intros H. unfold wbind. now rewrite H. Qed.

(** ** Signs of binary64 results *)

Lemma iter_pos_invariant {A} (P : A -> Prop) (f : A -> A) :
  (forall x, P x -> P (f x)) -> forall p x, P x -> P (iter_pos f p x).
Proof.
  intros Hf. induction p as [p IH | p IH |]; intros x Hx; cbn; auto.
Qed.

Lemma shr_1_nonneg mrs : 0 <= shr_m mrs -> 0 <= shr_m (shr_1 mrs).
Proof.
  destruct mrs as [m r s]. cbn. intros Hm.
  destruct m as [| [p | p |] | p]; cbn; lia.
Qed.

Lemma shr_nonneg mrs e n : 0 <= shr_m mrs -> 0 <= shr_m (shr mrs e n).1.
Proof.
  intros Hm. unfold shr. destruct n as [| p | p]; cbn; try exact Hm.
  apply (iter_pos_invariant (fun x => 0 <= shr_m x)); [apply shr_1_nonneg | exact Hm].
Qed.

Lemma shr_fexp_nonneg m e l : 0 <= m -> 0 <= shr_m (shr_fexp prec emax m e l).1.
Proof.
  intros Hm. unfold shr_fexp. apply shr_nonneg.
  destruct l as [| []]; exact Hm.
Qed.

Lemma round_nearest_even_nonneg m l : 0 <= m -> 0 <= round_nearest_even m l.
Proof.
  intros Hm. unfold round_nearest_even.
  destruct l as [| []]; try destruct (Z.even m); lia.
Qed.

Lemma binary_round_aux_nonneg m e l :
  0 <= m -> nonneg (binary_round_aux prec emax false m e l).
Proof.
  intros Hm. unfold binary_round_aux.
  pose proof (shr_fexp_nonneg m e l Hm) as H1.
  destruct (shr_fexp prec emax m e l) as [mrs' e']. cbn [fst] in H1.
  pose proof (shr_fexp_nonneg
                (round_nearest_even (shr_m mrs') (loc_of_shr_record mrs')) e' loc_Exact
                (round_nearest_even_nonneg _ _ H1)) as H2.
  destruct (shr_fexp prec emax _ e' loc_Exact) as [mrs'' e'']. cbn [fst] in H2.
  destruct (shr_m mrs'') as [| p | p]; [exact I | | lia].
  destruct (e'' <=? emax - prec)%Z; exact I.
Qed.

Lemma binary_round_nonneg m e : nonneg (binary_round prec emax false m e).
Proof.
  unfold binary_round. destruct (shl_align _ _ _) as [mz ez].
  now apply binary_round_aux_nonneg.
Qed.

(** ** The order of the floats that are [>= 0] *)

Lemma fle_key a b : nonneg a -> nonneg b -> (fle a b = true <-> key_le (key a) (key b)).
Proof.
  unfold key_le.
  destruct a as [sa | [] | | [] ma ea]; destruct b as [sb | [] | | [] mb eb];
    cbn; try tauto; intros _ _; try (split; [intros _; lia | reflexivity]);
    try (split; [discriminate | lia]).
  unfold fle, SFleb, SFcompare.
  destruct (Z.compare_spec ea eb) as [-> | Hlt | Hgt].
  - rewrite Pos.compare_cont_spec. cbn [Pos.switch_Eq].
    destruct (Pos.compare_spec ma mb) as [-> | Hm | Hm];
      (split; [intros; try discriminate; lia | intros; try reflexivity; lia]).
  - split; [intros; lia | reflexivity].
  - split; [discriminate | lia].
Qed.

Lemma flt_key a b : nonneg a -> nonneg b -> (flt a b = true <-> ~ key_le (key b) (key a)).
Proof.
  unfold key_le.
  destruct a as [sa | [] | | [] ma ea]; destruct b as [sb | [] | | [] mb eb];
    cbn; try tauto; intros _ _; try (split; [intros _; lia | reflexivity]);
    try (split; [discriminate | lia]).
  unfold flt, SFltb, SFcompare.
  destruct (Z.compare_spec ea eb) as [-> | Hlt | Hgt].
  - rewrite Pos.compare_cont_spec. cbn [Pos.switch_Eq].
    destruct (Pos.compare_spec ma mb) as [-> | Hm | Hm];
      (split; [intros; try discriminate; lia | intros; try reflexivity; lia]).
  - split; [intros; lia | reflexivity].
  - split; [discriminate | lia].
Qed.

Lemma fle_trans a b c :
  nonneg a -> nonneg b -> nonneg c -> fle a b = true -> fle b c = true -> fle a c = true.
Proof.
  intros Ha Hb Hc. rewrite !fle_key by assumption. unfold key_le. lia.
Qed.

Lemma fle_of_not_flt a b : nonneg a -> nonneg b -> flt a b = false -> fle b a = true.
Proof.
  intros Ha Hb H. apply fle_key; [assumption | assumption |].
  destruct (flt a b) eqn:Hlt; [discriminate |].
  pose proof (flt_key a b Ha Hb) as Hk. rewrite Hlt in Hk.
  unfold key_le in *. lia.
Qed.

Lemma fle_of_flt a b : nonneg a -> nonneg b -> flt a b = true -> fle a b = true.
Proof.
  intros Ha Hb H. apply fle_key; [assumption | assumption |].
  apply (flt_key a b Ha Hb) in H. unfold key_le in *. lia.
Qed.

Lemma fle_refl a : nonneg a -> fle a a = true.
Proof. intros Ha. apply fle_key; [assumption | assumption |]. unfold key_le. lia. Qed.

(** [min] returns an element of the list that is [<=] every element. *)
Lemma py_min_least l :
  forall x, nonneg x -> Forall nonneg l ->
    In (py_min x l) (x :: l)
    /\ forall y, In y (x :: l) -> fle (py_min x l) y = true.
Proof.
  induction l as [| y l IH]; intros x Hx Hl.
  - cbn. split; [now left |]. intros y [<- | []]. now apply fle_refl.
  - inversion Hl as [| ? ? Hy Hl']; subst.
    change (py_min x (y :: l)) with (py_min (if flt y x then y else x) l).
    assert (Hx' : nonneg (if flt y x then y else x)) by now destruct (flt y x).
    destruct (IH _ Hx' Hl') as [Hin Hle].
    assert (Hm : nonneg (py_min (if flt y x then y else x) l)).
    { destruct Hin as [<- | Hin]; [exact Hx' |].
      exact (proj1 (List.Forall_forall _ _) Hl' _ Hin). }
    split.
    + destruct Hin as [Hin | Hin]; [| now right; right].
      rewrite <- Hin. destruct (flt y x); [right; now left | now left].
    + intros z Hz.
      assert (Hfirst : fle (py_min (if flt y x then y else x) l) (if flt y x then y else x) = true)
        by (apply Hle; now left).
      destruct Hz as [<- | [<- | Hz]].
      * destruct (flt y x) eqn:Hyx; [| exact Hfirst].
        apply (fle_trans _ y); try assumption. now apply fle_of_flt.
      * destruct (flt y x) eqn:Hyx; [exact Hfirst |].
        apply (fle_trans _ x); try assumption. now apply fle_of_not_flt.
      * apply Hle. now right.
Qed.

(** ** The marker pattern *)

Lemma span_digits_app ds rest :
  all_digits ds -> not_digit_head rest -> span_digits (ds ++ rest) = (ds, rest).
Proof.
  intros Hds Hrest. induction Hds as [| c ds Hc Hds IH]; cbn [app span_digits].
  - destruct rest as [| c r]; [reflexivity |]. cbn [span_digits]. cbn in Hrest.
    now rewrite Hrest.
  - now rewrite Hc, IH.
Qed.

Lemma span_digits_spec l ds rest :
  span_digits l = (ds, rest) -> l = ds ++ rest /\ all_digits ds /\ not_digit_head rest.
Proof.
  revert ds rest. induction l as [| c l IH]; intros ds rest H; cbn [span_digits] in H.
  - injection H as <- <-. repeat split. constructor.
  - destruct (is_digit c) eqn:Hc.
    + destruct (span_digits l) as [ds' rest']. injection H as <- <-.
      destruct (IH ds' rest' eq_refl) as (-> & Hds & Hrest).
      repeat split; [now constructor | exact Hrest].
    + injection H as <- <-. repeat split; [constructor | exact Hc].
Qed.

Lemma match_marker_complete g rest :
  decimal_text g ->
  match_marker ("{" :: "{" :: g ++ "}" :: "}" :: rest)%char = Some (g, rest).
Proof.
  intros (i & f & -> & Hi & Hf & Di & Df). unfold match_marker. cbn [Ascii.eqb andb].
  change (Ascii.eqb "{" "{") with true. cbn [andb].
  rewrite <- app_assoc. cbn [app].
  rewrite (span_digits_app i) by (assumption || reflexivity).
  destruct i as [| c i]; [contradiction |].
  change (Ascii.eqb "." ".") with true. cbn iota.
  rewrite (span_digits_app f) by (assumption || reflexivity).
  destruct f as [| c' f]; [contradiction |].
  change (Ascii.eqb "}" "}") with true. reflexivity.
Qed.

Lemma match_marker_sound l g rest :
  match_marker l = Some (g, rest) ->
  decimal_text g /\ l = ("{" :: "{" :: g ++ "}" :: "}" :: rest)%char.
Proof.
  unfold match_marker. intros H.
  destruct l as [| c1 [| c2 r]]; try discriminate.
  destruct (Ascii.eqb c1 "{") eqn:H1; [| discriminate].
  destruct (Ascii.eqb c2 "{") eqn:H2; [| discriminate].
  apply Ascii.eqb_eq in H1, H2. subst c1 c2. cbn [andb] in H.
  destruct (span_digits r) as [d1 r1] eqn:S1.
  apply span_digits_spec in S1 as (-> & D1 & _).
  destruct d1 as [| a d1]; [discriminate |].
  destruct r1 as [| c3 r2]; [discriminate |].
  destruct (Ascii.eqb c3 ".") eqn:H3; [| discriminate].
  apply Ascii.eqb_eq in H3. subst c3.
  destruct (span_digits r2) as [d2 r3] eqn:S2.
  apply span_digits_spec in S2 as (-> & D2 & _).
  destruct d2 as [| b d2]; [discriminate |].
  destruct r3 as [| c4 [| c5 rest']]; try discriminate.
  destruct (Ascii.eqb c4 "}") eqn:H4; [| discriminate].
  destruct (Ascii.eqb c5 "}") eqn:H5; [| discriminate].
  apply Ascii.eqb_eq in H4, H5. subst c4 c5. cbn [andb] in H.
  injection H as <- <-. split.
  - exists (a :: d1), (b :: d2). repeat split; (discriminate || assumption).
  - cbn [app]. now rewrite <- app_assoc.
Qed.

Lemma match_marker_head c l : c <> "{"%char -> match_marker (c :: l) = None.
Proof.
  intros Hc. unfold match_marker. destruct l as [| c2 r]; [reflexivity |].
  destruct (Ascii.eqb c "{") eqn:H; [| reflexivity].
  apply Ascii.eqb_eq in H. contradiction.
Qed.

Lemma digit_not_brace c : is_digit c = true -> c <> "{"%char.
Proof. intros H ->. discriminate. Qed.

Lemma decimal_text_no_brace g : decimal_text g -> Forall (fun c => c <> "{"%char) g.
Proof.
  intros (i & f & -> & _ & _ & Di & Df).
  apply Forall_app. split.
  - eapply Forall_impl; [exact Di |]. intros c. apply digit_not_brace.
  - constructor; [discriminate |].
    eapply Forall_impl; [exact Df |]. intros c. apply digit_not_brace.
Qed.

Lemma decimal_text_head g : decimal_text g -> exists c g', g = c :: g' /\ is_digit c = true.
Proof.
  intros (i & f & -> & Hi & _ & Di & _).
  destruct i as [| c i]; [contradiction |].
  inversion Di; subst. now exists c, (i ++ "."%char :: f).
Qed.

(** No match starts inside a match, after its first character. *)
Lemma no_match_inside g rest :
  decimal_text g ->
  no_match_before (List.length g + 3) ("{" :: g ++ "}" :: "}" :: rest)%char.
Proof.
  intros Hg k Hk.
  destruct k as [| k].
  - cbn [drop]. destruct (decimal_text_head g Hg) as (c & g' & -> & Hc).
    unfold match_marker. cbn [app].
    destruct (Ascii.eqb c "{") eqn:H; [| now rewrite andb_false_r].
    apply Ascii.eqb_eq in H. subst c. discriminate.
  - cbn [drop].
    assert (Hbody : Forall (fun c => c <> "{"%char) (g ++ ["}"; "}"]%char)).
    { apply Forall_app. split; [now apply decimal_text_no_brace |].
      repeat constructor; discriminate. }
    replace (g ++ "}" :: "}" :: rest)%char with ((g ++ ["}"; "}"]%char) ++ rest)
      by now rewrite <- app_assoc.
    assert (Hlen : (k < List.length (g ++ ["}"; "}"]%char))%nat)
      by (rewrite length_app; cbn; lia).
    revert Hbody Hlen. generalize (g ++ ["}"; "}"]%char) as body. clear.
    intros body. revert k. induction body as [| c body IH]; intros k Hbody Hlen.
    + cbn in Hlen. lia.
    + inversion Hbody; subst. destruct k as [| k].
      * cbn. now apply match_marker_head.
      * cbn [drop app]. apply IH; [assumption | cbn in Hlen; lia].
Qed.

Lemma findall_from_sound l :
  forall skip g, In g (findall_from skip l) ->
    decimal_text g /\ exists pre post, l = pre ++ ("{" :: "{" :: g ++ "}" :: "}" :: post)%char.
Proof.
  induction l as [| c r IH]; intros skip g Hin; [contradiction |].
  cbn [findall_from] in Hin.
  assert (Hrec : forall n, In g (findall_from n r) ->
    decimal_text g /\ exists pre post,
      c :: r = pre ++ ("{" :: "{" :: g ++ "}" :: "}" :: post)%char).
  { intros n Hn. destruct (IH n g Hn) as (Hg & pre & post & ->).
    split; [exact Hg |]. now exists (c :: pre), post. }
  destruct skip as [| k]; [| now apply (Hrec k)].
  destruct (match_marker (c :: r)) as [[g0 rest] |] eqn:Hm; [| now apply (Hrec 0%nat)].
  destruct Hin as [<- | Hin]; [| now apply (Hrec _ Hin)].
  apply match_marker_sound in Hm as (Hg & Hl).
  split; [exact Hg |]. now exists [], rest.
Qed.

Lemma findall_from_complete l :
  forall skip k g rest,
    no_match_before skip l ->
    match_marker (drop k l) = Some (g, rest) ->
    In g (findall_from skip l).
Proof.
  induction l as [| c r IH]; intros skip k g rest Hclear Hm.
  - now rewrite drop_nil in Hm.
  - cbn [findall_from]. destruct skip as [| s].
    + destruct (match_marker (c :: r)) as [[g0 rest0] |] eqn:Hm0.
      * destruct k as [| k].
        -- cbn [drop] in Hm. rewrite Hm0 in Hm. injection Hm as <- <-. now left.
        -- right. apply (IH _ k g rest); [| exact Hm].
           apply match_marker_sound in Hm0 as (Hg0 & Hl). injection Hl as -> ->.
           now apply no_match_inside.
      * destruct k as [| k]; [cbn [drop] in Hm; congruence |].
        apply (IH _ k g rest); [| exact Hm]. intros j Hj. lia.
    + destruct k as [| k].
      * rewrite (Hclear 0%nat) in Hm by lia. discriminate.
      * apply (IH _ k g rest); [| exact Hm].
        intros j Hj. apply (Hclear (S j)). lia.
Qed.

Lemma findall_from_markers l g :
  In g (findall_from 0 l)
  <-> decimal_text g
      /\ exists pre post, l = pre ++ ("{" :: "{" :: g ++ "}" :: "}" :: post)%char.
Proof.
  split; [apply findall_from_sound |].
  intros (Hg & pre & post & ->).
  apply (findall_from_complete _ 0 (List.length pre) g post).
  - intros k Hk. lia.
  - rewrite drop_app_length. now apply match_marker_complete.
Qed.

(** ** [float] on the text of a decimal *)

Lemma decimal_value_nonneg n e : nonneg (decimal_value false n e).
Proof.
  unfold decimal_value. destruct n as [| p | p]; try exact I.
  unfold round_decimal. destruct (0 <=? e) eqn:He; [apply binary_round_nonneg |].
  apply Z.leb_gt in He. unfold SFdiv_core_binary.
  set (m' := match _ - _ with Z0 => Zpos p | Zpos _ => Z.shiftl (Zpos p) _ | Zneg _ => 0 end).
  assert (Hm' : 0 <= m').
  { unfold m'. destruct (_ - _); [lia | | lia]. apply Z.shiftl_nonneg. lia. }
  assert (Hd : 0 < 10 ^ (- e)) by (apply Z.pow_pos_nonneg; lia).
  pose proof (Z.div_pos m' (10 ^ (- e)) Hm' Hd) as Hq.
  unfold Z.div in Hq. destruct (Z.div_eucl m' (10 ^ (- e))) as [q r].
  now apply binary_round_aux_nonneg.
Qed.

Lemma digit_cases c :
  is_digit c = true ->
  In c ["0"; "1"; "2"; "3"; "4"; "5"; "6"; "7"; "8"; "9"]%char.
Proof.
  destruct c as [[] [] [] [] [] [] [] []]; intros H; try discriminate H; cbn; tauto.
Qed.

Lemma digit_plain c : is_digit c = true -> plain c.
Proof.
  intros H. apply digit_cases in H. cbn in H.
  repeat (destruct H as [<- | H]; [now repeat split |]). contradiction.
Qed.

Lemma drop_underscores_none l :
  Forall (fun c => Ascii.eqb c "_" = false) l ->
  forall prev, Ascii.eqb prev "_" = false -> drop_underscores prev l = Some l.
Proof.
  induction 1 as [| c l Hc Hl IH]; intros prev Hp; cbn [drop_underscores].
  - now rewrite Hp.
  - rewrite Hc, Hp. cbn [andb]. now rewrite (IH c Hc).
Qed.

Lemma decimal_text_chars g :
  decimal_text g -> Forall (fun c => Ascii.eqb c "_" = false) g.
Proof.
  intros (i & f & -> & _ & _ & Di & Df). apply Forall_app. split.
  - eapply Forall_impl; [exact Di |]. intros c Hc. apply (digit_plain c Hc).
  - constructor; [reflexivity |].
    eapply Forall_impl; [exact Df |]. intros c Hc. apply (digit_plain c Hc).
Qed.

Lemma decimal_text_last g :
  decimal_text g -> exists c g', rev g = c :: g' /\ is_digit c = true.
Proof.
  intros (i & f & -> & _ & Hf & _ & Df).
  rewrite rev_app_distr. cbn [rev]. rewrite <- app_assoc.
  destruct (rev f) as [| c f'] eqn:Hr.
  - apply (f_equal (@rev ascii)) in Hr. rewrite rev_involutive in Hr. now subst f.
  - exists c, (f' ++ ["."%char] ++ rev i). split; [reflexivity |].
    assert (Hin : In c (rev f)) by (rewrite Hr; now left).
    apply in_rev in Hin. exact (proj1 (List.Forall_forall _ _) Df c Hin).
Qed.

Lemma strip_decimal_text g : decimal_text g -> strip g = g.
Proof.
  intros Hg. unfold strip.
  destruct (decimal_text_head g Hg) as (c & g' & Hc & Dc).
  assert (H1 : drop_spaces g = g).
  { rewrite Hc. cbn [drop_spaces]. now rewrite (proj1 (digit_plain c Dc)). }
  rewrite H1.
  destruct (decimal_text_last g Hg) as (c' & r & Hr & Dr).
  rewrite Hr. cbn [drop_spaces]. rewrite (proj1 (digit_plain c' Dr)).
  rewrite <- Hr. apply rev_involutive.
Qed.

Lemma float_of_str_decimal g :
  decimal_text g -> float_of_str (str g) = Some (decimal_float g).
Proof.
  intros Hg. unfold float_of_str, chars, str.
  rewrite list_ascii_of_string_of_list_ascii, (strip_decimal_text g Hg).
  rewrite (drop_underscores_none g (decimal_text_chars g Hg)) by reflexivity.
  destruct (decimal_text_head g Hg) as (c & g' & Hc & Dc).
  destruct (digit_plain c Dc) as (_ & _ & Hm & Hp & Hi & Hn & _).
  assert (Hsign : parse_sign g = (false, g)).
  { rewrite Hc. unfold parse_sign. now rewrite Hm, Hp. }
  rewrite Hsign.
  assert (Hinf : parse_inf_or_nan false g = None).
  { rewrite Hc. unfold parse_inf_or_nan, chars. cbn [list_ascii_of_string strip_prefix_nocase].
    now rewrite Hi, Hn. }
  rewrite Hinf. unfold parse_decimal, decimal_float.
  destruct Hg as (i & f & -> & Hi' & Hf' & Di & Df).
  rewrite (span_digits_app i) by (assumption || reflexivity).
  change (Ascii.eqb "." ".") with true. cbn iota. cbn [tail].
  rewrite <- (app_nil_r f) at 1.
  rewrite (span_digits_app f []) by (assumption || exact I).
  destruct (i ++ f) as [| a l] eqn:Hif.
  - destruct i; [contradiction | discriminate].
  - reflexivity.
Qed.

Lemma decimal_float_nonneg g : nonneg (decimal_float g).
Proof.
  unfold decimal_float. destruct (span_digits g). apply decimal_value_nonneg.
Qed.

Lemma floats_of_decimals gs :
  Forall decimal_text gs ->
  floats_of (map str gs) = Ok (map decimal_float gs).
Proof.
  induction 1 as [| g gs Hg Hgs IH]; [reflexivity |].
  cbn [map floats_of py_float]. rewrite (float_of_str_decimal g Hg). cbn [rbind].
  now rewrite IH.
Qed.

(** ** The product-embedded rate *)

Lemma findall_from_decimal l : Forall decimal_text (findall_from 0 l).
Proof.
  apply List.Forall_forall. intros g Hg. now apply (findall_from_sound l 0 g).
Qed.

Lemma extract_multiplier_str s :
  extract_multiplier (PyStr s)
  = Ok match map decimal_float (findall_from 0 (chars s)) with
       | [] => fzero
       | x :: r => py_min x r
       end.
Proof.
  unfold extract_multiplier, findall.
  pose proof (findall_from_decimal (chars s)) as Hall.
  destruct (findall_from 0 (chars s)) as [| g gs]; [reflexivity |].
  inversion Hall as [| ? ? Hg Hgs]; subst.
  cbn [map py_float]. rewrite (float_of_str_decimal g Hg). cbn [rbind].
  now rewrite (floats_of_decimals gs Hgs).
Qed.

Lemma marker_in_findall s g :
  marker_in s g <-> In (chars g) (findall_from 0 (chars s)).
Proof.
  rewrite findall_from_markers. unfold marker_in. reflexivity.
Qed.

Lemma float_of_str_marker s g :
  marker_in s g -> float_of_str g = Some (decimal_float (chars g)).
Proof.
  intros [Hg _]. rewrite <- (float_of_str_decimal (chars g) Hg).
  unfold str, chars. now rewrite string_of_list_ascii_of_string.
Qed.

(** C2: on every notes string the product-embedded rate is returned (nothing
    is raised); it is 0.0 when the string holds no marker [{{<decimal>}}];
    otherwise it is the value of one of the markers of the string and is
    [<=] the value of every marker of the string.  On the string of the
    specification it is 0.05. *)
Theorem product_rate_is_least_marker (s : string) :
  (exists r,
     extract_multiplier (PyStr s) = Ok r
     /\ ((forall g, ~ marker_in s g) -> r = fzero)
     /\ ((exists g, marker_in s g) ->
         (exists g, marker_in s g /\ float_of_str g = Some r)
         /\ forall g, marker_in s g ->
              exists v, float_of_str g = Some v /\ fle r v = true))
  /\ extract_multiplier (PyStr "desc {{0.10}} extra {{0.05}}") = Ok (Prim2SF 0.05%float).
Proof.
  split; [| vm_compute; reflexivity].
  rewrite extract_multiplier_str. eexists. split; [reflexivity |].
  pose proof (findall_from_decimal (chars s)) as Hall.
  assert (Hstr : forall g, In g (findall_from 0 (chars s)) -> marker_in s (str g)).
  { intros g Hg. apply marker_in_findall. unfold chars, str.
    now rewrite list_ascii_of_string_of_list_ascii. }
  destruct (findall_from 0 (chars s)) as [| g0 gs] eqn:Hfind; cbn [map].
  - split; [reflexivity |]. intros [g Hg]. apply marker_in_findall in Hg.
    rewrite Hfind in Hg. contradiction.
  - split.
    { intros Hnone. exfalso. apply (Hnone (str g0)). apply Hstr. now left. }
    intros _.
    assert (Hnn : Forall nonneg (map decimal_float (g0 :: gs))).
    { apply List.Forall_forall. intros v Hv.
      apply in_map_iff in Hv as (g & <- & _). apply decimal_float_nonneg. }
    cbn [map] in Hnn. inversion Hnn as [| ? ? Hx Hl]; subst.
    destruct (py_min_least (map decimal_float gs) (decimal_float g0) Hx Hl) as [Hin Hle].
    split.
    + change (decimal_float g0 :: map decimal_float gs)
        with (map decimal_float (g0 :: gs)) in Hin.
      apply in_map_iff in Hin as (g & Hval & Hg).
      exists (str g). split; [now apply Hstr |].
      rewrite (float_of_str_marker s (str g) (Hstr g Hg)).
      unfold chars, str. rewrite list_ascii_of_string_of_list_ascii. now rewrite Hval.
    + intros g Hg. exists (decimal_float (chars g)).
      split; [now apply (float_of_str_marker s) |].
      apply Hle. apply marker_in_findall in Hg. rewrite Hfind in Hg.
      change (decimal_float g0 :: map decimal_float gs)
        with (map decimal_float (g0 :: gs)).
      now apply in_map.
Qed.

(** ** Items with product metadata *)

Lemma process_pedido_item_of_matched E pd item ts dia uuid nv iv cn cc w vt pp orow w' :
  matched_item pd item ->
  process_pedido_item E item pd ts dia uuid nv iv cn cc w = (Ok (vt, pp, orow), w') ->
  exists row, orow = Some row /\ row_computed E ts row
              /\ vt = SalesItemsRow.produto_valor_total row
              /\ pp = SalesItemsRow.produto_pontos row.
Proof.
  intros (d & pid & p & -> & Hid & Hget & Hp) Hrun.
  apply process_pedido_item_inv in Hrun as (pid' & p' & Hid' & Hget' & Hcase).
  cbn in Hid'. rewrite Hid in Hid'. injection Hid' as <-.
  rewrite Hget in Hget'. injection Hget' as <-. rewrite Hp in Hcase.
  destruct Hcase as (row & -> & Hrow & -> & -> & _). now exists row.
Qed.

(** * The properties at work on the scenario *)

(** The order row of the scenario: one item row is kept, and the order's
    value and points are the sums over it. *)
Lemma order_totals_in_the_scenario :
  exists sales_row w2,
    scenario_sales_row scenario_world1 = (Ok sales_row, w2)
    /\ List.length scenario_rows = 1%nat
    /\ SalesRow.pedido_valor sales_row
       = py_sum (map SalesItemsRow.produto_valor_total scenario_rows)
    /\ SalesRow.pedido_pontos sales_row
       = py_sum (map SalesItemsRow.produto_pontos scenario_rows).
Proof.
  assert (H1 : scenario_items scenario_world
               = (Ok (scenario_valor, scenario_pontos, scenario_rows), scenario_world1))
    by (vm_compute; reflexivity).
  exists (match (scenario_sales_row scenario_world1).1 with
          | Ok r => r
          | Raise _ => example_order_row
          end), (scenario_sales_row scenario_world1).2.
  assert (H2 : scenario_sales_row scenario_world1
               = (Ok (match (scenario_sales_row scenario_world1).1 with
                      | Ok r => r
                      | Raise _ => example_order_row
                      end), (scenario_sales_row scenario_world1).2))
    by (vm_compute; reflexivity).
  split; [exact H2 |]. split; [vm_compute; reflexivity |].
  destruct (order_totals_are_sums_of_item_rows _ _ _ _ _ _ _ _ _ _ _ _ _ _ _ _ _ H1 H2)
    as (Hv & Hp & _).
  exact (conj Hv Hp).
Defined.

(** The scenario with an order header that lacks [formaPagamento]. *)
Lemma missing_payment_method_suppresses_the_message :
  extract_pdv_data (pdv (downloads_of env_time_class "abc123" world_without_payment))
  = Ok nine_None
  /\ process_message env_time_class scenario_message world_without_payment
     = (Ok tt, acknowledged scenario_message world_without_payment).
Proof.
  assert (Hdl : download_json_files env_time_class "abc123" world_without_payment
                = (Ok (downloads_of env_time_class "abc123" world_without_payment),
                   world_without_payment))
    by (vm_compute; reflexivity).
  pose proof (header_extraction_outcomes env_time_class scenario_message "abc123"
                world_without_payment _ eq_refl Hdl) as H.
  assert (Hx : extract_pdv_data
                 (pdv (downloads_of env_time_class "abc123" world_without_payment))
               = Ok nine_None) by (vm_compute; reflexivity).
  rewrite Hx in H. destruct H as [_ H].
  split; [exact Hx | exact (H eq_refl)].
Defined.

(** A header whose [retorno] is [null], or whose total is [null], makes
    [extract_pdv_data] raise [TypeError]; an integer total too large for a
    float makes it raise [OverflowError]. *)
Lemma extract_pdv_data_raises :
  extract_pdv_data (obj [("retorno", PyNone)]) = Raise TypeError
  /\ extract_pdv_data
       (obj [("retorno",
              obj [("pedido",
                    obj [("id", PyStr "900"); ("numero", PyStr "42");
                         ("data", PyStr "01/03/2024"); ("totalProdutos", PyNone)])])])
     = Raise TypeError
  /\ extract_pdv_data
       (obj [("retorno",
              obj [("pedido",
                    obj [("id", PyStr "900"); ("numero", PyStr "42");
                         ("data", PyStr "01/03/2024");
                         ("totalProdutos", PyInt (2 ^ 1024))])])])
     = Raise OverflowError.
Proof. repeat split; vm_compute; reflexivity. Qed.

(** * The module as it stands *)

(** X1: in the module as it stands, [datetime.time(5, 0, 0)] is a call of the
    method [datetime.datetime.time] on the [int] 5: the situational rate is
    never computed, [get_special_multiplier] raises [TypeError] on every
    timestamp. *)
Theorem situational_rate_raises_as_written (E : Env) (ts : datetime) :
  as_written E -> get_special_multiplier E ts = Raise TypeError.
Proof.
  intros HE. unfold get_special_multiplier, in_window.
  rewrite HE. reflexivity.
Qed.

(** On the timestamp of the scenario. *)
Lemma situational_rate_raises_in_the_scenario :
  get_special_multiplier env_as_written scenario_timestamp = Raise TypeError.
Proof. exact (situational_rate_raises_as_written env_as_written scenario_timestamp eq_refl). Defined.

(** X2: in the module as it stands, no line item that has product metadata
    yields a row: processing it raises. *)
Theorem matched_item_raises_as_written
    (E : Env) (produto_data : gmap string pyobj) (item : pyobj)
    (processing_timestamp : datetime) (pedido_dia : pyobj) (uuid : string)
    (nome_vendedor id_vendedor cliente_nome cliente_cpf : pyobj) (w : World) :
  as_written E ->
  matched_item produto_data item ->
  exists e,
    (process_pedido_item E item produto_data processing_timestamp pedido_dia uuid
       nome_vendedor id_vendedor cliente_nome cliente_cpf w).1 = Raise e.
Proof.
  intros HE Hm.
  destruct (process_pedido_item E item produto_data processing_timestamp pedido_dia uuid
              nome_vendedor id_vendedor cliente_nome cliente_cpf w)
    as [[[[vt pp] orow] | e] w'] eqn:Hrun; [| now exists e].
  apply (process_pedido_item_of_matched E produto_data item) in Hrun
    as (row & _ & (Hsp & _) & _); [| exact Hm].
  rewrite (get_special_multiplier_as_written E processing_timestamp HE) in Hsp.
  discriminate Hsp.
Qed.

(** On the first line item of the scenario. *)
Lemma coffee_raises_in_the_scenario :
  exists e,
    (process_pedido_item env_as_written item_coffee scenario_products scenario_timestamp
       (PyStr "2024-03-01") "abc123" (PyStr "Bia") (PyStr "7") (PyStr "Ana") (PyStr "123")
       scenario_world).1 = Raise e.
Proof.
  apply (matched_item_raises_as_written env_as_written scenario_products item_coffee).
  - reflexivity.
  - eexists _, (PyStr "111"), product_document.
    split; [reflexivity |]. repeat split; vm_compute; reflexivity.
Defined.

(** X3: the callback calls [process_message] with two arguments, which raises
    [TypeError] before the function is entered: whatever the message, the
    callback acknowledges it and leaves the warehouse as it was. *)
Theorem callback_never_processes (E : Env) (message : Message) (w : World) :
  pubsub_callback E message w = (Ok tt, acknowledged message w)
  /\ bigquery (pubsub_callback E message w).2 = bigquery w.
Proof. rewrite pubsub_callback_run. now split. Qed.

(** * Further properties of the code *)

(** ** Exceptions and the warehouse *)

Lemma keeps_raises_before_writing {A} (m : M A) :
  keeps bigquery m -> raises_before_writing m.
Proof. intros H w e _. apply H. Qed.

Lemma raises_before_writing_bind {A B} (m : M A) (k : A -> M B) :
  keeps bigquery m -> (forall a, raises_before_writing (k a)) ->
  raises_before_writing (bind m k).
Proof.
  intros Hm Hk w e. unfold bind. specialize (Hm w).
  destruct (m w) as [[a | e'] w1]; cbn in *.
  - intros H. now rewrite (Hk a w1 e H).
  - intros _. exact Hm.
Qed.

Lemma load_data_to_bigquery_returns E row rows uuid w :
  (load_data_to_bigquery E row rows uuid w).1 = Ok tt.
Proof.
  unfold load_data_to_bigquery, in_warehouse.
  now destruct (load_body E row rows (bigquery w)).
Qed.

Lemma process_body_raises_before_writing E uuid : raises_before_writing (process_body E uuid).
Proof.
  unfold process_body.
  pose proof (keeps_download_json_files bigquery E) as H1.
  pose proof (keeps_process_pedido_items bigquery E) as H2.
  pose proof (keeps_prepare_sales_row bigquery E) as H3.
  assert (H4 : forall row rows, raises_before_writing (load_data_to_bigquery E row rows uuid)).
  { intros row rows w e H. now rewrite load_data_to_bigquery_returns in H. }
  repeat first
    [ progress intros
    | progress cbv beta zeta
    | apply H4
    | solve [apply keeps_raises_before_writing; auto with keeps]
    | apply raises_before_writing_bind; [solve [auto with keeps] |]
    | match goal with
      | |- raises_before_writing (match ?x with _ => _ end) => destruct x
      | |- raises_before_writing (if ?b then _ else _) => destruct b
      end ].
Qed.

(** X4: every write to the warehouse happens in the last stage, which never
    raises; so when the processing of a message raises, whatever the stage
    that raised, the warehouse is as it was: the message is acknowledged
    and no row of it is written. *)
Theorem raised_processing_writes_nothing
    (E : Env) (message : Message) (uuid : string) (w : World) (e : exn) :
  data_utf8 message = Some uuid ->
  (process_body E uuid w).1 = Raise e ->
  (process_message E message w).1 = Ok tt
  /\ bigquery (process_message E message w).2 = bigquery w
  /\ acked (process_message E message w).2 = acked w ++ [message_id message].
Proof.
  intros Hd Hraise.
  destruct (process_message_acks E message uuid w Hd) as (w' & Hrun & Hack).
  rewrite Hrun. cbn. repeat split; [| exact Hack].
  rewrite (process_message_decoded E message uuid w Hd) in Hrun.
  injection Hrun as <-. cbn. unfold try_except.
  pose proof (process_body_raises_before_writing E uuid w e Hraise) as Hb.
  destruct (process_body E uuid w) as [[[] | e'] w1]; [discriminate Hraise | exact Hb].
Qed.

(** On the message of the scenario, in the module as it stands: the first
    line item raises. *)
Lemma scenario_as_written_writes_nothing :
  (process_message env_as_written scenario_message scenario_world).1 = Ok tt
  /\ bigquery (process_message env_as_written scenario_message scenario_world).2
     = bigquery scenario_world
  /\ acked (process_message env_as_written scenario_message scenario_world).2
     = acked scenario_world ++ [message_id scenario_message].
Proof.
  apply (raised_processing_writes_nothing env_as_written scenario_message "abc123"
           scenario_world TypeError).
  - reflexivity.
  - vm_compute. reflexivity.
Defined.

(** ** The seller of the survey document *)

(** X5: [extract_pesquisa_data] returns the seller's name and id of the
    first order of the survey document, or the pair of [None]s (a key is
    missing, or the list of orders is empty), or raises [TypeError] (a value
    on the way is not of the type the code indexes); it raises nothing
    else. *)
Theorem seller_extraction_outcomes (pesquisa_data : pyobj) :
  match extract_pesquisa_data pesquisa_data with
  | Ok (nome, id) => (nome = PyNone /\ id = PyNone) \/ seller_of pesquisa_data nome id
  | Raise e => e = TypeError
  end.
Proof.
  unfold extract_pesquisa_data, seller_of.
  destruct (getitem pesquisa_data "retorno") as [retorno | e1] eqn:H1; cbn.
  2: { apply getitem_raises in H1 as [-> | ->]; auto. }
  destruct (getitem retorno "pedidos") as [pedidos | e2] eqn:H2; cbn.
  2: { apply getitem_raises in H2 as [-> | ->]; auto. }
  destruct (getitem0 pedidos) as [first | e3] eqn:H3; cbn.
  2: { destruct pedidos as [| b | z | f | s | l | d]; cbn in H3;
       try (injection H3 as <-; auto; fail).
       - destruct s; [injection H3 as <- | discriminate H3]; auto.
       - destruct l; [injection H3 as <- | discriminate H3]; auto. }
  destruct (getitem first "pedido") as [pedido | e4] eqn:H4; cbn.
  2: { apply getitem_raises in H4 as [-> | ->]; auto. }
  destruct (getitem pedido "nome_vendedor") as [nome | e5] eqn:H5; cbn.
  2: { apply getitem_raises in H5 as [-> | ->]; auto. }
  destruct (getitem pedido "id_vendedor") as [id | e6] eqn:H6; cbn.
  2: { apply getitem_raises in H6 as [-> | ->]; auto. }
  right. exists retorno, pedidos, first, pedido. tauto.
Qed.

(** X6: with the three documents there, a message is processed only when
    the seller's name and id, the order's id and number and the order's day
    are all truthy: if one of the five is [None], an empty text, the number
    0 or another falsy value (or the seller cannot be extracted), nothing is
    written and the message is acknowledged. *)
Theorem falsy_required_field_writes_nothing
    (E : Env) (message : Message) (uuid : string) (w : World) (data : downloads) :
  data_utf8 message = Some uuid ->
  download_json_files E uuid w = (Ok data, w) ->
  match extract_pesquisa_data (pesquisa data), extract_pdv_data (pdv data) with
  | Ok (nome, id), Ok f => required_fields nome id f = false
  | Ok _, Raise _ => True
  | Raise _, _ => True
  end ->
  process_message E message w = (Ok tt, acknowledged message w).
Proof.
  intros Hd Hdl Hf. rewrite (process_message_decoded E message uuid w Hd).
  f_equal. f_equal. unfold try_except.
  enough (Hw : (process_body E uuid w).2 = w).
  { destruct (process_body E uuid w) as [[[] | e] w1]; exact Hw. }
  unfold process_body, bind. rewrite Hdl.
  destruct (processing_timestamp data); [| reflexivity].
  destruct (truthy (pesquisa data) && truthy (pdv data)); [| reflexivity].
  unfold lift.
  destruct (extract_pesquisa_data (pesquisa data)) as [[nome id] |]; [| reflexivity].
  destruct (extract_pdv_data (pdv data)) as [f |]; [| reflexivity].
  unfold required_fields in Hf. now rewrite Hf.
Qed.

(** On the scenario with a survey whose seller id is the number 0. *)
Lemma seller_id_zero_writes_nothing :
  process_message env_time_class scenario_message world_seller_zero
  = (Ok tt, acknowledged scenario_message world_seller_zero).
Proof.
  apply (falsy_required_field_writes_nothing env_time_class scenario_message "abc123"
           world_seller_zero (downloads_of env_time_class "abc123" world_seller_zero)).
  - reflexivity.
  - vm_compute. reflexivity.
  - vm_compute. reflexivity.
Defined.

(** ** The item rows of an order *)

(** The columns of an item row that do not come from the item. *)
Lemma process_pedido_item_header E item pd ts dia uuid nv iv cn cc w vt pp row w' :
  process_pedido_item E item pd ts dia uuid nv iv cn cc w = (Ok (vt, pp, Some row), w') ->
  getitem item "pedido_id" = Ok (SalesItemsRow.pedido_id row)
  /\ getitem item "pedido_numero" = Ok (SalesItemsRow.pedido_numero row)
  /\ SalesItemsRow.uuid row = uuid
  /\ SalesItemsRow.pedido_dia row = dia
  /\ SalesItemsRow.timestamp row = convert_to_sao_paulo_time E ts
  /\ SalesItemsRow.cliente_nome row = cn
  /\ SalesItemsRow.cliente_cpf row = cc
  /\ SalesItemsRow.vendedor_nome row = nv
  /\ SalesItemsRow.vendedor_id row = iv
  /\ SalesItemsRow.processed_timestamp row = clock w (ticks w).
Proof.
  unfold process_pedido_item. intros H.
  peel H. peel H.
  destruct (truthy x0).
  - do 19 peel H.
    unfold bind, now_isoformat, ret in H. injection H as <- <- <- <-.
    cbn. repeat split; assumption.
  - unfold ret in H. discriminate H.
Qed.

Lemma stored_keys item id numero item1 item2 :
  setitem item "pedido_id" id = Ok item1 ->
  setitem item1 "pedido_numero" numero = Ok item2 ->
  getitem item2 "pedido_id" = Ok id /\ getitem item2 "pedido_numero" = Ok numero
  /\ getitem item2 "idProduto" = getitem item "idProduto".
Proof.
  intros H1 H2. destruct item; try discriminate. cbn in H1. injection H1 as <-.
  cbn in H2. injection H2 as <-. cbn.
  rewrite lookup_insert_ne by discriminate.
  rewrite !lookup_insert_eq. rewrite !lookup_insert_ne by discriminate. auto.
Qed.

Lemma process_items_loop_header E itens pedido_pdv pd ts dia uuid nv iv cn cc :
  forall acc w rows w',
    process_items_loop E itens pedido_pdv pd ts dia uuid nv iv cn cc acc w = (Ok rows, w') ->
    exists new,
      rows = acc ++ new
      /\ Forall (fun row =>
           getitem pedido_pdv "id" = Ok (SalesItemsRow.pedido_id row)
           /\ getitem pedido_pdv "numero" = Ok (SalesItemsRow.pedido_numero row)
           /\ SalesItemsRow.uuid row = uuid
           /\ SalesItemsRow.pedido_dia row = dia
           /\ SalesItemsRow.timestamp row = convert_to_sao_paulo_time E ts
           /\ SalesItemsRow.cliente_nome row = cn
           /\ SalesItemsRow.cliente_cpf row = cc
           /\ SalesItemsRow.vendedor_nome row = nv
           /\ SalesItemsRow.vendedor_id row = iv) new
      /\ map SalesItemsRow.produto_idProduto new = omap (retained pd) itens
      /\ map SalesItemsRow.processed_timestamp new
         = map (fun i => clock w (ticks w + i)%nat) (seq 0 (List.length new))
      /\ w' = ticked (List.length new) w.
Proof.
  induction itens as [| item rest IH]; intros acc w rows w' H.
  - cbn in H. unfold ret in H. injection H as <- <-.
    exists []. split; [now rewrite app_nil_r |]. repeat split; constructor.
  - cbn [process_items_loop] in H. do 4 peel H.
    apply bind_ok in H as ([[vt pp] orow] & w1 & Hitem & H).
    destruct (stored_keys _ _ _ _ _ Hx0 Hx2) as (Hid & Hnum & Hpid).
    pose proof Hitem as Hinv.
    apply process_pedido_item_inv in Hinv as (pid & p & Hgp & Hpg & Hcase).
    apply IH in H as (new & -> & Hnew & Hids & Hstamps & ->).
    assert (Hret : retained pd item = if truthy p then Some pid else None).
    { unfold retained. now rewrite <- Hpid, Hgp, Hpg. }
    change (omap (retained pd) (item :: rest))
      with (match retained pd item with
            | Some y => y :: omap (retained pd) rest
            | None => omap (retained pd) rest
            end).
    rewrite Hret.
    destruct (truthy p).
    + destruct Hcase as (row & -> & _ & _ & _ & Hrid & ->).
      apply process_pedido_item_header in Hitem
        as (Hrid' & Hrnum & Hu & Hd & Ht & Hcn & Hcc & Hnv & Hiv & Hclock).
      exists (row :: new). split; [now rewrite <- app_assoc |].
      split; [constructor; [| exact Hnew] |].
      { rewrite Hid in Hrid'. rewrite Hnum in Hrnum.
        injection Hrid' as <-. injection Hrnum as <-. repeat split; assumption. }
      split; [cbn; now rewrite Hrid, Hids |].
      split.
      * cbn [map List.length seq]. rewrite Hclock, Nat.add_0_r. f_equal.
        rewrite Hstamps. rewrite <- seq_shift, map_map.
        apply map_ext. intros i. cbn. f_equal. lia.
      * unfold ticked. cbn [List.length]. now rewrite Nat.iter_succ_r.
    + destruct Hcase as (-> & _ & _ & ->). exists new. repeat split; assumption.
Qed.

Lemma prepare_sales_row_header E uuid ts dia pedido_pdv nv iv cn cc v p w o w' :
  prepare_sales_row E uuid ts dia pedido_pdv nv iv cn cc v p w = (Ok o, w') ->
  getitem pedido_pdv "id" = Ok (SalesRow.pedido_id o)
  /\ getitem pedido_pdv "numero" = Ok (SalesRow.pedido_numero o)
  /\ SalesRow.uuid o = uuid
  /\ SalesRow.pedido_dia o = dia
  /\ SalesRow.timestamp o = convert_to_sao_paulo_time E ts
  /\ SalesRow.cliente_nome o = cn
  /\ SalesRow.cliente_cpf o = cc
  /\ SalesRow.vendedor_nome o = nv
  /\ SalesRow.vendedor_id o = iv
  /\ SalesRow.fidelidade_multiplier o = FIDELIDADE_MULTIPLIER E
  /\ SalesRow.project_id o = PROJECT_ID E
  /\ SalesRow.source_identifier o = SOURCE_IDENTIFIER E
  /\ SalesRow.version_control o = VERSION_CONTROL E
  /\ SalesRow.processed_timestamp o = clock w (ticks w).
Proof.
  unfold prepare_sales_row. intros H. do 2 peel H.
  unfold bind, now_isoformat, ret in H. injection H as <- <-. cbn.
  repeat split; assumption.
Qed.

Lemma process_pedido_item_constants E item pd ts dia uuid nv iv cn cc w vt pp row w' :
  process_pedido_item E item pd ts dia uuid nv iv cn cc w = (Ok (vt, pp, Some row), w') ->
  SalesItemsRow.fidelidade_multiplier row = FIDELIDADE_MULTIPLIER E
  /\ SalesItemsRow.project_id row = PROJECT_ID E
  /\ SalesItemsRow.source_identifier row = SOURCE_IDENTIFIER E
  /\ SalesItemsRow.version_control row = VERSION_CONTROL E.
Proof.
  unfold process_pedido_item. intros H.
  peel H. peel H.
  destruct (truthy x0).
  - do 19 peel H.
    unfold bind, now_isoformat, ret in H. injection H as <- <- <- <-.
    cbn. repeat split.
  - unfold ret in H. discriminate H.
Qed.

Lemma process_items_loop_constants E itens pedido_pdv pd ts dia uuid nv iv cn cc :
  forall acc w rows w',
    process_items_loop E itens pedido_pdv pd ts dia uuid nv iv cn cc acc w = (Ok rows, w') ->
    exists new,
      rows = acc ++ new
      /\ Forall (fun row =>
           SalesItemsRow.fidelidade_multiplier row = FIDELIDADE_MULTIPLIER E
           /\ SalesItemsRow.project_id row = PROJECT_ID E
           /\ SalesItemsRow.source_identifier row = SOURCE_IDENTIFIER E
           /\ SalesItemsRow.version_control row = VERSION_CONTROL E) new.
Proof.
  induction itens as [| item rest IH]; intros acc w rows w' H.
  - cbn in H. unfold ret in H. injection H as <- <-.
    exists []. split; [now rewrite app_nil_r | constructor].
  - cbn [process_items_loop] in H. do 4 peel H.
    apply bind_ok in H as ([[vt pp] orow] & w1 & Hitem & H).
    apply IH in H as (new & -> & Hnew).
    destruct orow as [row |].
    + apply process_pedido_item_constants in Hitem.
      exists (row :: new). split; [now rewrite <- app_assoc | now constructor].
    + now exists new.
Qed.

(** X7: every item row of an order carries the order row's key and header:
    the correlation key, the order's id and number, its day and timestamp,
    the customer, the seller, and the loyalty rate and provenance columns
    are the same in the order row and in each of its item rows. *)
Theorem item_rows_carry_the_order_header
    (E : Env) (pedido_pdv : pyobj) (produto_data : gmap string pyobj)
    (processing_timestamp : datetime) (pedido_dia : pyobj) (uuid : string)
    (nome_vendedor id_vendedor cliente_nome cliente_cpf : pyobj)
    (w w1 w1' w2 : World) (pedido_valor pedido_pontos valor pontos : number)
    (sales_items_rows : list SalesItemsRow.t) (sales_row : SalesRow.t) :
  process_pedido_items E pedido_pdv produto_data processing_timestamp pedido_dia uuid
    nome_vendedor id_vendedor cliente_nome cliente_cpf w
  = (Ok (pedido_valor, pedido_pontos, sales_items_rows), w1) ->
  prepare_sales_row E uuid processing_timestamp pedido_dia pedido_pdv
    nome_vendedor id_vendedor cliente_nome cliente_cpf valor pontos w1'
  = (Ok sales_row, w2) ->
  Forall (row_of_order sales_row) sales_items_rows.
Proof.
  intros Hitems Hrow.
  apply process_pedido_items_inv in Hitems as (_ & _ & _ & itens & l & _ & _ & Hloop).
  apply prepare_sales_row_header in Hrow
    as (Hid & Hnum & Hu & Hd & Ht & Hcn & Hcc & Hnv & Hiv & Hf & Hp & Hs & Hv & _).
  destruct (process_items_loop_header _ _ _ _ _ _ _ _ _ _ _ _ _ _ _ Hloop)
    as (new & Hrows & Hhead & _).
  destruct (process_items_loop_constants _ _ _ _ _ _ _ _ _ _ _ _ _ _ _ Hloop)
    as (new' & Hrows' & Hconst).
  cbn in Hrows, Hrows'. subst new new'.
  apply List.Forall_forall. intros row Hin.
  pose proof (proj1 (List.Forall_forall _ _) Hhead row Hin)
    as (Hid' & Hnum' & Hu' & Hd' & Ht' & Hcn' & Hcc' & Hnv' & Hiv').
  pose proof (proj1 (List.Forall_forall _ _) Hconst row Hin) as (Hf' & Hp' & Hs' & Hv').
  rewrite Hid in Hid'. rewrite Hnum in Hnum'.
  injection Hid' as Hid'. injection Hnum' as Hnum'.
  unfold row_of_order. repeat split; congruence.
Qed.

(** On the scenario: the row of the coffee belongs to the order row. *)
Lemma scenario_rows_carry_the_order_header :
  scenario_rows <> [] /\ Forall (row_of_order scenario_order_row) scenario_rows.
Proof.
  split; [vm_compute; discriminate |].
  apply (item_rows_carry_the_order_header env_time_class
           (PyDict (order_of [item_coffee; item_bread])) scenario_products scenario_timestamp
           (PyStr "2024-03-01") "abc123" (PyStr "Bia") (PyStr "7") (PyStr "Ana") (PyStr "123")
           scenario_world scenario_world1 scenario_world1 (scenario_sales_row scenario_world1).2
           scenario_valor scenario_pontos scenario_valor scenario_pontos).
  - vm_compute. reflexivity.
  - vm_compute. reflexivity.
Defined.

(** X8: the item rows of an order are its line items that have product
    metadata, one row for each, in the order of the items: the rows' product
    ids are the ids of those items.  Lines of the same product are not
    merged, and an item without metadata leaves no trace. *)
Theorem item_rows_are_the_retained_items
    (E : Env) (pedido_pdv itens : pyobj) (l : list pyobj) (produto_data : gmap string pyobj)
    (processing_timestamp : datetime) (pedido_dia : pyobj) (uuid : string)
    (nome_vendedor id_vendedor cliente_nome cliente_cpf : pyobj)
    (w w1 : World) (pedido_valor pedido_pontos : number)
    (sales_items_rows : list SalesItemsRow.t) :
  getitem pedido_pdv "itens" = Ok itens ->
  iterate itens = Ok l ->
  process_pedido_items E pedido_pdv produto_data processing_timestamp pedido_dia uuid
    nome_vendedor id_vendedor cliente_nome cliente_cpf w
  = (Ok (pedido_valor, pedido_pontos, sales_items_rows), w1) ->
  map SalesItemsRow.produto_idProduto sales_items_rows = omap (retained produto_data) l
  /\ (List.length sales_items_rows <= List.length l)%nat.
Proof.
  intros Hit Hl Hitems.
  apply process_pedido_items_inv in Hitems as (_ & _ & _ & itens' & l' & Hit' & Hl' & Hloop).
  rewrite Hit in Hit'. injection Hit' as <-. rewrite Hl in Hl'. injection Hl' as <-.
  destruct (process_items_loop_header _ _ _ _ _ _ _ _ _ _ _ _ _ _ _ Hloop)
    as (new & Hrows & _ & Hids & _).
  cbn in Hrows. subst new. split; [exact Hids |].
  rewrite <- (length_map SalesItemsRow.produto_idProduto), Hids.
  clear. induction l as [| x l IH]; [constructor |].
  change (omap (retained produto_data) (x :: l))
    with (match retained produto_data x with
          | Some y => y :: omap (retained produto_data) l
          | None => omap (retained produto_data) l
          end).
  destruct (retained produto_data x); cbn [List.length]; lia.
Qed.

(** On an order with the coffee, the bread and the coffee again: two rows,
    both of the product 111. *)
Lemma twice_coffee_gives_two_rows :
  map SalesItemsRow.produto_idProduto twice_coffee_rows = [PyStr "111"; PyStr "111"]
  /\ (List.length twice_coffee_rows <= 3)%nat.
Proof.
  exact (item_rows_are_the_retained_items env_time_class
           (PyDict (order_of [item_coffee; item_bread; item_coffee]))
           (PyList [item_coffee; item_bread; item_coffee])
           [item_coffee; item_bread; item_coffee] scenario_products scenario_timestamp
           (PyStr "2024-03-01") "abc123" (PyStr "Bia") (PyStr "7") (PyStr "Ana") (PyStr "123")
           scenario_world (twice_coffee scenario_world).2
           (py_sum (map SalesItemsRow.produto_valor_total twice_coffee_rows))
           (py_sum (map SalesItemsRow.produto_pontos twice_coffee_rows))
           twice_coffee_rows eq_refl eq_refl eq_refl).
Defined.

(** X9: where the columns of an item row come from.  When a line item
    yields a row, the item is a dictionary and its product document holds a
    dictionary under [produto]; the description is the item's (the empty
    text by default), quantity and unit price are the item's read as floats
    (0 by default), the product rate is read from the product's notes and
    the two category columns are the first two pieces of the product's
    category, cut at [" >> "] (empty when there is no such piece).  The
    item's discount and the product's cost price reach no column, but both
    have to read as floats for the row to be built. *)
Theorem item_row_columns
    (E : Env) (item : pyobj) (produto_data : gmap string pyobj)
    (processing_timestamp : datetime) (pedido_dia : pyobj) (uuid : string)
    (nome_vendedor id_vendedor cliente_nome cliente_cpf : pyobj)
    (w w' : World) (produto_valor_total produto_pontos : float) (row : SalesItemsRow.t) :
  process_pedido_item E item produto_data processing_timestamp pedido_dia uuid
    nome_vendedor id_vendedor cliente_nome cliente_cpf w
  = (Ok (produto_valor_total, produto_pontos, Some row), w') ->
  exists d produto inner,
    item = PyDict d
    /\ produto_get produto_data (SalesItemsRow.produto_idProduto row) = Ok produto
    /\ truthy produto = true
    /\ getitem produto "produto" = Ok (PyDict inner)
    /\ item_row_read_from d inner row.
Proof.
  unfold process_pedido_item. intros H.
  peel H. peel H.
  destruct (truthy x0) eqn:Htruthy; [| unfold ret in H; discriminate H].
  do 19 peel H.
  unfold bind, now_isoformat, ret in H. injection H as <- <- <- <-.
  destruct item as [| ? | ? | ? | ? | ? | d]; try discriminate.
  destruct x8 as [| ? | ? | ? | ? | ? | inner]; try discriminate.
  exists d, x0, inner. cbn in *.
  repeat match goal with
         | H : Ok _ = Ok _ |- _ => injection H as <-
         end.
  split; [reflexivity |]. split; [assumption |]. split; [assumption |].
  split; [assumption |].
  unfold item_row_read_from. cbn.
  destruct (d !! "idProduto") as [pid |] eqn:Hpid; [| discriminate].
  match goal with H : Ok pid = Ok x |- _ => injection H as <- end.
  split; [reflexivity |]. split; [reflexivity |].
  split; [assumption |]. split; [assumption |].
  split; [eauto |]. split; [eauto |]. split; [assumption |].
  destruct (default (PyStr "") (inner !! "categoria")) as [| ? | ? | ? | cat | ? | ?];
    try discriminate.
  exists cat. split; [reflexivity |].
  match goal with H : split_categoria _ = Ok _ |- _ => cbn in H; injection H as <- end.
  split; reflexivity.
Qed.

(** On the first line item of the scenario. *)
Lemma coffee_row_columns :
  exists d produto inner,
    coffee_stored = PyDict d
    /\ produto_get scenario_products (PyStr "111") = Ok produto
    /\ truthy produto = true
    /\ getitem produto "produto" = Ok (PyDict inner)
    /\ item_row_read_from d inner coffee_row.
Proof.
  apply (item_row_columns env_time_class coffee_stored scenario_products scenario_timestamp
           (PyStr "2024-03-01") "abc123" (PyStr "Bia") (PyStr "7") (PyStr "Ana") (PyStr "123")
           scenario_world (tick scenario_world)
           (SalesItemsRow.produto_valor_total coffee_row)
           (SalesItemsRow.produto_pontos coffee_row) coffee_row).
  vm_compute. reflexivity.
Defined.

Lemma process_items_loop_app E l1 l2 pedido_pdv pd ts dia uuid nv iv cn cc :
  forall acc w,
    process_items_loop E (l1 ++ l2) pedido_pdv pd ts dia uuid nv iv cn cc acc w
    = bind (process_items_loop E l1 pedido_pdv pd ts dia uuid nv iv cn cc acc)
        (fun rows => process_items_loop E l2 pedido_pdv pd ts dia uuid nv iv cn cc rows) w.
Proof.
  induction l1 as [| item rest IH]; intros acc w; [reflexivity |].
  cbn [app process_items_loop]. unfold bind, lift in *.
  destruct (getitem pedido_pdv "id"); [| reflexivity].
  destruct (setitem item _ _); [| reflexivity].
  destruct (getitem pedido_pdv "numero"); [| reflexivity].
  destruct (setitem _ _ _); [| reflexivity].
  destruct (process_pedido_item _ _ _ _ _ _ _ _ _ _ _) as [[[[vt pp] orow] | e] w1];
    [| reflexivity].
  apply IH.
Qed.

(** X10: an order is assembled whole or not at all.  When the turn of the
    loop for one line item raises (the item is no dictionary, or processing
    it raises), [process_pedido_items] raises the same exception: the rows
    built for the items before it are given up and the items after it are
    not visited. *)
Theorem one_failing_item_fails_the_order
    (E : Env) (pedido_pdv itens item : pyobj) (before after : list pyobj)
    (produto_data : gmap string pyobj)
    (processing_timestamp : datetime) (pedido_dia : pyobj) (uuid : string)
    (nome_vendedor id_vendedor cliente_nome cliente_cpf : pyobj)
    (w w1 w2 : World) (rows : list SalesItemsRow.t) (e : exn) :
  getitem pedido_pdv "itens" = Ok itens ->
  iterate itens = Ok (before ++ item :: after) ->
  process_items_loop E before pedido_pdv produto_data processing_timestamp pedido_dia uuid
    nome_vendedor id_vendedor cliente_nome cliente_cpf [] w = (Ok rows, w1) ->
  process_items_loop E [item] pedido_pdv produto_data processing_timestamp pedido_dia uuid
    nome_vendedor id_vendedor cliente_nome cliente_cpf rows w1 = (Raise e, w2) ->
  process_pedido_items E pedido_pdv produto_data processing_timestamp pedido_dia uuid
    nome_vendedor id_vendedor cliente_nome cliente_cpf w = (Raise e, w2).
Proof.
  intros Hit Hl Hbefore Hitem. unfold process_pedido_items.
  rewrite bind_lift, Hit, bind_lift, Hl.
  unfold bind at 1.
  rewrite process_items_loop_app. unfold bind at 1. rewrite Hbefore.
  change (item :: after) with ([item] ++ after).
  rewrite process_items_loop_app. unfold bind at 1. now rewrite Hitem.
Qed.

(** On the coffee followed by an item whose discount reads [10%]: the
    coffee's row is given up. *)
Lemma text_discount_fails_the_order :
  process_pedido_items env_time_class
    (PyDict (order_of [item_coffee; item_discount_text; item_coffee]))
    scenario_products scenario_timestamp (PyStr "2024-03-01") "abc123"
    (PyStr "Bia") (PyStr "7") (PyStr "Ana") (PyStr "123") scenario_world
  = (Raise ValueError, tick scenario_world).
Proof.
  apply (one_failing_item_fails_the_order env_time_class
           (PyDict (order_of [item_coffee; item_discount_text; item_coffee]))
           (PyList [item_coffee; item_discount_text; item_coffee]) item_discount_text
           [item_coffee] [item_coffee] scenario_products scenario_timestamp
           (PyStr "2024-03-01") "abc123" (PyStr "Bia") (PyStr "7") (PyStr "Ana") (PyStr "123")
           scenario_world (tick scenario_world) (tick scenario_world) [coffee_row]).
  - reflexivity.
  - reflexivity.
  - vm_compute. reflexivity.
  - vm_compute. reflexivity.
Defined.

(** ** The correlation of the documents *)

Lemma download_step_untagged E uuid data blob :
  tagged uuid blob = false -> download_step E uuid data blob = Ok data.
Proof.
  unfold tagged, download_step. destruct (blob_metadata blob); [| reflexivity].
  now intros ->.
Qed.

Lemma download_loop_filter E uuid blobs :
  forall data,
    download_loop E uuid data blobs
    = download_loop E uuid data (List.filter (tagged uuid) blobs).
Proof.
  induction blobs as [| b rest IH]; intros data; [reflexivity |].
  cbn [List.filter download_loop].
  destruct (tagged uuid b) eqn:Ht.
  - cbn [download_loop]. destruct (download_step E uuid data b); cbn; [apply IH | reflexivity].
  - rewrite (download_step_untagged E uuid data b Ht). cbn. apply IH.
Qed.

(** X11: the correlation reads only the blobs tagged with the message's
    key: the blobs of other orders and the blobs without metadata, however
    many and whatever they hold, change nothing to what
    [download_json_files] returns. *)
Theorem correlation_reads_only_tagged_blobs
    (E : Env) (uuid : string) (w : World) (blobs : list Blob) :
  bucket w = Ok blobs ->
  (download_json_files E uuid w).1
  = (download_json_files E uuid (with_bucket w (List.filter (tagged uuid) blobs))).1.
Proof.
  intros Hb. unfold download_json_files. rewrite Hb. cbn.
  apply download_loop_filter.
Qed.

(** On the scenario with two blobs more: one of another order, whose
    timestamp does not parse, and one without metadata. *)
Lemma scenario_ignores_foreign_blobs :
  (download_json_files env_time_class "abc123"
     (world_of [foreign_blob; survey_blob; bare_blob;
                order_blob [item_coffee; item_bread]; product_blob])).1
  = (download_json_files env_time_class "abc123" scenario_world).1.
Proof.
  exact (correlation_reads_only_tagged_blobs env_time_class "abc123"
           (world_of [foreign_blob; survey_blob; bare_blob;
                      order_blob [item_coffee; item_bread]; product_blob])
           [foreign_blob; survey_blob; bare_blob;
            order_blob [item_coffee; item_bread]; product_blob] eq_refl).
Defined.

Lemma process_message_incomplete E message uuid w :
  data_utf8 message = Some uuid ->
  match (download_json_files E uuid w).1 with
  | Ok data =>
      truthy (pesquisa data) = false \/ truthy (pdv data) = false
      \/ processing_timestamp data = None
  | Raise _ => True
  end ->
  process_message E message w = (Ok tt, acknowledged message w).
Proof.
  intros Hd Hmiss. rewrite (process_message_decoded E message uuid w Hd).
  f_equal. f_equal. unfold try_except.
  destruct (download_json_files E uuid w) as [[data | e] w1] eqn:Hdl.
  - pose proof (download_json_files_world E uuid w) as Hw. rewrite Hdl in Hw. cbn in Hw, Hmiss.
    subst w1. now rewrite (process_body_incomplete E uuid w data Hdl Hmiss).
  - pose proof (download_json_files_world E uuid w) as Hw. rewrite Hdl in Hw. cbn in Hw.
    subst w1. unfold process_body, bind. now rewrite Hdl.
Qed.

Lemma download_step_mistagged E uuid data blob :
  mistagged uuid blob = true -> download_step E uuid data blob = Raise KeyError.
Proof.
  unfold mistagged, download_step. destruct (blob_metadata blob) as [m |]; [| discriminate].
  intros H. apply andb_true_iff in H as [Hu Ht].
  rewrite Hu, andb_true_r.
  assert (Hne : bool_decide (m = ∅) = false).
  { apply bool_decide_eq_false. intros ->. apply bool_decide_eq_true in Hu.
    rewrite lookup_empty in Hu. discriminate. }
  rewrite Hne. cbn.
  destruct (m !! "Data-Type") as [t |]; [| reflexivity].
  apply andb_true_iff in Ht as [Ht Hp]. apply String.eqb_eq in Ht. subst t. cbn.
  apply bool_decide_eq_true in Hp. now rewrite Hp.
Qed.

Lemma download_loop_mistagged E uuid blobs :
  Exists (fun b => mistagged uuid b = true) blobs ->
  forall data, exists e, download_loop E uuid data blobs = Raise e.
Proof.
  induction 1 as [b rest Hb | b rest _ IH]; intros data; cbn [download_loop].
  - rewrite (download_step_mistagged E uuid data b Hb). now exists KeyError.
  - destruct (download_step E uuid data b) as [d | e]; cbn; [apply IH | now exists e].
Qed.

(** X12: a blob that carries the message's key but no data type, or the
    data type [produto] but no product id, stops the correlation with an
    exception, wherever it is listed and whatever else the bucket holds:
    nothing is written and the message is acknowledged. *)
Theorem mistagged_blob_stops_the_message
    (E : Env) (message : Message) (uuid : string) (w : World) (blobs : list Blob) :
  data_utf8 message = Some uuid ->
  bucket w = Ok blobs ->
  Exists (fun b => mistagged uuid b = true) blobs ->
  (exists e, (download_json_files E uuid w).1 = Raise e)
  /\ process_message E message w = (Ok tt, acknowledged message w).
Proof.
  intros Hd Hb Hex.
  assert (Hraise : exists e, (download_json_files E uuid w).1 = Raise e).
  { unfold download_json_files. rewrite Hb. cbn. now apply download_loop_mistagged. }
  split; [exact Hraise |].
  apply (process_message_incomplete E message uuid w Hd).
  destruct Hraise as [e ->]. exact I.
Qed.

(** On the scenario with one blob more, tagged with the key alone. *)
Lemma untyped_blob_stops_the_scenario :
  (exists e,
     (download_json_files env_time_class "abc123"
        (world_of [survey_blob; order_blob [item_coffee; item_bread]; product_blob;
                   untyped_blob])).1 = Raise e)
  /\ process_message env_time_class scenario_message
       (world_of [survey_blob; order_blob [item_coffee; item_bread]; product_blob;
                  untyped_blob])
     = (Ok tt,
        acknowledged scenario_message
          (world_of [survey_blob; order_blob [item_coffee; item_bread]; product_blob;
                     untyped_blob])).
Proof.
  apply (mistagged_blob_stops_the_message env_time_class scenario_message "abc123"
           (world_of [survey_blob; order_blob [item_coffee; item_bread]; product_blob;
                      untyped_blob])
           [survey_blob; order_blob [item_coffee; item_bread]; product_blob; untyped_blob]).
  - reflexivity.
  - reflexivity.
  - do 3 apply Exists_cons_tl. apply Exists_cons_hd. vm_compute. reflexivity.
Defined.

Lemma download_step_unreadable E uuid data blob :
  unreadable uuid blob = true -> download_step E uuid data blob = Raise AttributeError.
Proof.
  unfold unreadable, download_step, download_json_file.
  destruct (blob_metadata blob) as [m |]; [| discriminate].
  destruct (blob_json blob) as [j | e]; [discriminate |].
  intros H. apply andb_true_iff in H as [Hu Ht].
  rewrite Hu, andb_true_r.
  assert (Hne : bool_decide (m = ∅) = false).
  { apply bool_decide_eq_false. intros ->. apply bool_decide_eq_true in Hu.
    rewrite lookup_empty in Hu. discriminate. }
  rewrite Hne. cbn.
  destruct (m !! "Data-Type") as [t |]; [| discriminate].
  destruct (String.eqb t "pedidos.pesquisa"); [reflexivity |].
  destruct (String.eqb t "pdv.pedido"); [reflexivity |].
  destruct (String.eqb t "produto"); [| discriminate].
  cbn in Ht. apply bool_decide_eq_true in Ht as [id Hid]. now rewrite Hid.
Qed.

Lemma download_loop_unreadable E uuid blobs :
  Exists (fun b => unreadable uuid b = true) blobs ->
  forall data, exists e, download_loop E uuid data blobs = Raise e.
Proof.
  induction 1 as [b rest Hb | b rest _ IH]; intros data; cbn [download_loop].
  - rewrite (download_step_unreadable E uuid data b Hb). now exists AttributeError.
  - destruct (download_step E uuid data b) as [d | e]; cbn; [apply IH | now exists e].
Qed.

(** X13: a document that does not download or does not parse is not taken
    as missing.  The handler of [download_json_file] names
    [storage.exceptions.NotFound], which does not exist, so for a blob with
    the message's key and the data type of the survey, of the order or of a
    product (with its id), a failed download or parse raises
    [AttributeError] out of [download_json_files]: the correlation stops,
    though readable copies may be listed, nothing is written and the message
    is acknowledged. *)
Theorem unreadable_document_stops_the_message
    (E : Env) (message : Message) (uuid : string) (w : World) (blobs : list Blob) :
  data_utf8 message = Some uuid ->
  bucket w = Ok blobs ->
  Exists (fun b => unreadable uuid b = true) blobs ->
  (exists e, (download_json_files E uuid w).1 = Raise e)
  /\ process_message E message w = (Ok tt, acknowledged message w).
Proof.
  intros Hd Hb Hex.
  assert (Hraise : exists e, (download_json_files E uuid w).1 = Raise e).
  { unfold download_json_files. rewrite Hb. cbn. now apply download_loop_unreadable. }
  split; [exact Hraise |].
  apply (process_message_incomplete E message uuid w Hd).
  destruct Hraise as [e ->]. exact I.
Qed.

(** On the scenario with a second copy of the survey that does not parse. *)
Lemma broken_second_survey_stops_the_scenario :
  (exists e,
     (download_json_files env_as_written "abc123"
        (world_of [survey_blob; order_blob [item_coffee; item_bread]; broken_survey_blob;
                   product_blob])).1 = Raise e)
  /\ process_message env_as_written scenario_message
       (world_of [survey_blob; order_blob [item_coffee; item_bread]; broken_survey_blob;
                  product_blob])
     = (Ok tt,
        acknowledged scenario_message
          (world_of [survey_blob; order_blob [item_coffee; item_bread]; broken_survey_blob;
                     product_blob])).
Proof.
  apply (unreadable_document_stops_the_message env_as_written scenario_message "abc123"
           (world_of [survey_blob; order_blob [item_coffee; item_bread]; broken_survey_blob;
                      product_blob])
           [survey_blob; order_blob [item_coffee; item_bread]; broken_survey_blob;
            product_blob]).
  - reflexivity.
  - reflexivity.
  - do 2 apply Exists_cons_tl. apply Exists_cons_hd. vm_compute. reflexivity.
Defined.

(** ** The day of the order *)

Lemma digit_char k :
  0 <= k <= 9 -> code (ascii_of_N (Z.to_N (48 + k))) = 48 + k.
Proof.
  intros H.
  assert (Hk : k = 0 \/ k = 1 \/ k = 2 \/ k = 3 \/ k = 4 \/ k = 5 \/ k = 6 \/ k = 7
               \/ k = 8 \/ k = 9) by lia.
  repeat (destruct Hk as [-> | Hk]; [reflexivity |]). subst k. reflexivity.
Qed.

Lemma chars_str l : chars (str l) = l.
Proof. apply list_ascii_of_string_of_list_ascii. Qed.

Lemma directive_Y_zero_padded y rest :
  0 <= y <= 9999 -> directive_Y (zero_padded 4 y ++ rest) = [(y, rest)].
Proof.
  intros Hy. cbn [zero_padded app]. unfold directive_Y, is_digit, digits_value.
  cbn [fold_left]. unfold digit_value.
  assert (Hd : forall k, 0 <= k mod 10 <= 9)
    by (intros k; pose proof (Z.mod_pos_bound k 10); lia).
  rewrite !digit_char by apply Hd.
  pose proof (Hd y). pose proof (Hd (y / 10)). pose proof (Hd (y / 10 / 10)).
  pose proof (Hd (y / 10 / 10 / 10)).
  replace ((48 <=? 48 + (y / 10 / 10 / 10) mod 10) && (48 + (y / 10 / 10 / 10) mod 10 <=? 57))
    with true by (symmetry; apply andb_true_iff; split; apply Z.leb_le; lia).
  replace ((48 <=? 48 + (y / 10 / 10) mod 10) && (48 + (y / 10 / 10) mod 10 <=? 57))
    with true by (symmetry; apply andb_true_iff; split; apply Z.leb_le; lia).
  replace ((48 <=? 48 + (y / 10) mod 10) && (48 + (y / 10) mod 10 <=? 57))
    with true by (symmetry; apply andb_true_iff; split; apply Z.leb_le; lia).
  replace ((48 <=? 48 + y mod 10) && (48 + y mod 10 <=? 57))
    with true by (symmetry; apply andb_true_iff; split; apply Z.leb_le; lia).
  cbn [andb]. do 2 f_equal.
  clear -Hy. Z.div_mod_to_equations. lia.
Qed.

Lemma directive_d_zero_padded {A} d rest (k : Z -> list ascii -> list A) :
  1 <= d <= 31 ->
  ('(x, r1) ← directive_d (zero_padded 2 d ++ "/"%char :: rest); r2 ← slash r1; k x r2)
  = k d rest.
Proof.
  intros H.
  assert (Hd : In d (map Z.of_nat (seq 1 31))).
  { apply in_map_iff. exists (Z.to_nat d). split; [lia |]. apply in_seq. lia. }
  cbn in Hd.
  repeat (destruct Hd as [<- | Hd];
          [vm_compute; repeat (etransitivity; [apply app_nil_r |]); reflexivity |]).
  contradiction.
Qed.

Lemma directive_m_zero_padded {A} m rest (k : Z -> list ascii -> list A) :
  1 <= m <= 12 ->
  ('(x, r1) ← directive_m (zero_padded 2 m ++ "/"%char :: rest); r2 ← slash r1; k x r2)
  = k m rest.
Proof.
  intros H.
  assert (Hm : In m (map Z.of_nat (seq 1 12))).
  { apply in_map_iff. exists (Z.to_nat m). split; [lia |]. apply in_seq. lia. }
  cbn in Hm.
  repeat (destruct Hm as [<- | Hm];
          [vm_compute; repeat (etransitivity; [apply app_nil_r |]); reflexivity |]).
  contradiction.
Qed.

Lemma match_dmY_text d m y :
  1 <= d <= 31 -> 1 <= m <= 12 -> 0 <= y <= 9999 ->
  match_dmY (chars (dmY_text d m y)) = [(d, m, y, [])].
Proof.
  intros Hd Hm Hy. unfold dmY_text. rewrite chars_str. unfold match_dmY.
  rewrite (directive_d_zero_padded d _ _ Hd).
  rewrite (directive_m_zero_padded m _ _ Hm).
  rewrite <- (app_nil_r (zero_padded 4 y)).
  rewrite (directive_Y_zero_padded y [] Hy). reflexivity.
Qed.

(** X14: the day of an order written [dd/mm/yyyy], with a year from 1000
    to 9999 (how [strftime] writes an earlier year depends on the C
    library), is rewritten [yyyy-mm-dd], the same day, month and year, when
    it is a date of the calendar; a day the month does not have (31/04,
    29/02 of a common year) is refused with [ValueError], and so is the
    year 0000. *)
Theorem day_is_rewritten_year_first (d m y : Z) :
  1 <= d <= 31 -> 1 <= m <= 12 -> y = 0 \/ 1000 <= y <= 9999 ->
  reformat_date (PyStr (dmY_text d m y))
  = if (1 <=? y) && (d <=? days_in_month y m)
    then Ok (strftime_Ymd (y, m, d))
    else Raise ValueError.
Proof.
  intros Hd Hm Hy. unfold reformat_date, strptime_dmY.
  rewrite (match_dmY_text d m y Hd Hm) by lia.
  now destruct ((1 <=? y) && (d <=? days_in_month y m)).
Qed.

(** On the day of the scenario, on the 29th of February 2023 and on the
    year 0000. *)
Lemma scenario_day_is_rewritten :
  reformat_date (PyStr "01/03/2024") = Ok "2024-03-01"
  /\ reformat_date (PyStr "29/02/2023") = Raise ValueError
  /\ reformat_date (PyStr "01/03/0000") = Raise ValueError.
Proof.
  split; [| split].
  - apply (day_is_rewritten_year_first 1 3 2024); lia.
  - apply (day_is_rewritten_year_first 29 2 2023); lia.
  - apply (day_is_rewritten_year_first 1 3 0); lia.
Defined.

Lemma digit_in_bounds lo hi c :
  digit_in lo hi c = true -> lo <= digit_value c <= hi.
Proof.
  unfold digit_in, digit_value. intros H. apply andb_true_iff in H as [H1 H2].
  apply Z.leb_le in H1, H2. lia.
Qed.

Lemma two_digits_bounds lo1 hi1 lo2 hi2 l v r :
  In (v, r) (two_digits lo1 hi1 lo2 hi2 l) ->
  10 * lo1 + lo2 <= v <= 10 * hi1 + hi2.
Proof.
  unfold two_digits. destruct l as [| c1 [| c2 l]]; try contradiction.
  destruct (digit_in lo1 hi1 c1) eqn:H1; [| contradiction].
  destruct (digit_in lo2 hi2 c2) eqn:H2; [| contradiction].
  cbn. intros [[= <- <-] | []].
  apply digit_in_bounds in H1, H2. lia.
Qed.

Lemma one_digit_bounds lo hi l v r :
  In (v, r) (one_digit lo hi l) -> lo <= v <= hi.
Proof.
  unfold one_digit. destruct l as [| c l]; [contradiction |].
  destruct (digit_in lo hi c) eqn:H; [| contradiction].
  intros [[= <- <-] | []]. now apply digit_in_bounds.
Qed.

Lemma directive_d_bounds l v r : In (v, r) (directive_d l) -> 1 <= v <= 31.
Proof.
  unfold directive_d. rewrite !in_app_iff.
  intros [H | [H | [H | [H | H]]]].
  - apply two_digits_bounds in H. lia.
  - apply two_digits_bounds in H. lia.
  - apply two_digits_bounds in H. lia.
  - apply one_digit_bounds in H. lia.
  - apply list_elem_of_In, list_elem_of_bind in H as (r' & H & _).
    apply list_elem_of_In, one_digit_bounds in H. lia.
Qed.

Lemma directive_m_bounds l v r : In (v, r) (directive_m l) -> 1 <= v <= 12.
Proof.
  unfold directive_m. rewrite !in_app_iff.
  intros [H | [H | H]].
  - apply two_digits_bounds in H. lia.
  - apply two_digits_bounds in H. lia.
  - apply one_digit_bounds in H. lia.
Qed.

Lemma directive_Y_bounds l v r : In (v, r) (directive_Y l) -> 0 <= v <= 9999.
Proof.
  unfold directive_Y. destruct l as [| c1 [| c2 [| c3 [| c4 l]]]]; try contradiction.
  destruct (is_digit c1) eqn:H1; [| contradiction].
  destruct (is_digit c2) eqn:H2; [| contradiction].
  destruct (is_digit c3) eqn:H3; [| contradiction].
  destruct (is_digit c4) eqn:H4; [| contradiction].
  cbn [andb]. intros [[= <- <-] | []].
  change is_digit with (digit_in 0 9) in H1, H2, H3, H4.
  apply digit_in_bounds in H1, H2, H3, H4.
  unfold digits_value. cbn [fold_left]. lia.
Qed.

Lemma match_dmY_bounds l d m y r :
  In (d, m, y, r) (match_dmY l) -> 1 <= d <= 31 /\ 1 <= m <= 12 /\ 0 <= y <= 9999.
Proof.
  unfold match_dmY. intros H.
  apply list_elem_of_In, list_elem_of_bind in H as ([d' r1] & H & Hd).
  apply list_elem_of_bind in H as (r2 & H & _).
  apply list_elem_of_bind in H as ([m' r3] & H & Hm).
  apply list_elem_of_bind in H as (r4 & H & _).
  apply list_elem_of_bind in H as ([y' r5] & H & Hy).
  apply list_elem_of_singleton in H. injection H as -> -> -> ->.
  apply list_elem_of_In in Hd, Hm, Hy.
  apply directive_d_bounds in Hd. apply directive_m_bounds in Hm.
  apply directive_Y_bounds in Hy. auto.
Qed.

Lemma length_zero_padded n z : List.length (zero_padded n z) = n.
Proof.
  revert z. induction n as [| n IH]; intros z; [reflexivity |].
  cbn [zero_padded]. rewrite length_app, IH. cbn. lia.
Qed.

Lemma length_str l : String.length (str l) = List.length l.
Proof. induction l as [| c l IH]; [reflexivity |]. cbn. now rewrite <- IH. Qed.

(** X15: the day column is a date of the calendar, or the header is not
    read.  Whatever the order document gives as its date, when
    [reformat_date] accepts it, it is a text that reads as a date with
    [1 <= yyyy <= 9999], [1 <= mm <= 12] and a day that month has, and from
    the year 1000 on the result is the ten characters [yyyy-mm-dd] of that
    date.  A text that is refused raises [ValueError], anything that is no
    text raises [TypeError]. *)
Theorem accepted_day_is_a_calendar_date (o : pyobj) :
  match reformat_date o with
  | Ok t =>
      exists s y m d,
        o = PyStr s /\ strptime_dmY s = Some (y, m, d) /\ valid_date y m d
        /\ (1000 <= y -> t = strftime_Ymd (y, m, d) /\ String.length t = 10%nat)
  | Raise e => if o is PyStr _ then e = ValueError else e = TypeError
  end.
Proof.
  destruct o as [| b | z | f | s | l | dd]; try reflexivity.
  unfold reformat_date.
  destruct (strptime_dmY s) as [[[y m] d] |] eqn:Hp; [| reflexivity].
  exists s, y, m, d. split; [reflexivity |]. split; [exact Hp |].
  unfold strptime_dmY in Hp.
  destruct (match_dmY (chars s)) as [| [[[d' m'] y'] r] tl] eqn:Hm; [discriminate |].
  destruct r; [| discriminate].
  destruct ((1 <=? y') && (d' <=? days_in_month y' m')) eqn:Hv; [| discriminate].
  injection Hp as -> -> ->.
  assert (Hin : In (d, m, y, []) (match_dmY (chars s))) by (rewrite Hm; now left).
  apply match_dmY_bounds in Hin as (Hd & Hmo & Hy).
  apply andb_true_iff in Hv as [Hy1 Hdim]. apply Z.leb_le in Hy1, Hdim.
  split; [unfold valid_date; lia |]. intros Hk. split; [reflexivity |].
  unfold strftime_Ymd, year_text.
  rewrite !(proj2 (Z.ltb_ge _ _)) by lia.
  rewrite length_str, !length_app, !length_zero_padded. reflexivity.
Qed.

(** ** What the writer leaves in the warehouse *)

Lemma chars_append s t : chars (s +:+ t) = chars s ++ chars t.
Proof.
  unfold chars. induction s as [| c s IH]; [reflexivity |].
  change (list_ascii_of_string (String c s +:+ t))
    with (c :: list_ascii_of_string (s +:+ t)).
  now rewrite IH.
Qed.

Lemma starts_with_app p q : starts_with p (p ++ q) = true.
Proof.
  induction p as [| c p IH]; [reflexivity |]. cbn. now rewrite Ascii.eqb_refl.
Qed.

Lemma endswith_append2 s t u : endswith (s +:+ t +:+ u) u = true.
Proof.
  unfold endswith. rewrite !chars_append, !rev_app_distr, <- app_assoc.
  apply starts_with_app.
Qed.

Lemma get_table_there table_id wh t :
  fault_free wh -> tables wh !! table_id = Some t ->
  get_table table_id wh = (Ok t, with_calls wh (S (calls wh))).
Proof.
  intros H Ht. unfold get_table. rewrite call_fault_free by exact H.
  cbn [tables with_calls]. now rewrite Ht.
Qed.

Lemma create_dataset_if_not_exists_exact dataset_id wh :
  fault_free wh ->
  exists ds n,
    create_dataset_if_not_exists dataset_id wh = (Ok tt, with_calls (with_datasets wh ds) n)
    /\ dataset_id ∈ ds.
Proof.
  intros H. unfold create_dataset_if_not_exists, except_NotFound, get_dataset.
  rewrite call_fault_free by exact H. cbn [datasets with_calls].
  destruct (bool_decide (dataset_id ∈ datasets wh)) eqn:Hin.
  - exists (datasets wh), (S (calls wh)). split; [reflexivity |].
    now apply bool_decide_eq_true in Hin.
  - unfold wbind, construct. rewrite call_fault_free by exact H.
    unfold create_dataset. rewrite call_fault_free by exact H.
    cbn [datasets with_calls]. rewrite Hin.
    exists ({[dataset_id]} ∪ datasets wh), (S (S (S (calls wh)))).
    split; [reflexivity |]. set_solver.
Qed.

(** *** The rows of the tables *)

Lemma keeps_rows_wret {A} (a : A) : keeps_rows (wret a).
Proof. intros wh id. reflexivity. Qed.

Lemma keeps_rows_wraise {A} (e : exn) : keeps_rows (@wraise A e).
Proof. intros wh id. reflexivity. Qed.

Lemma keeps_rows_wbind {A B} (m : W A) (k : A -> W B) :
  keeps_rows m -> (forall a, keeps_rows (k a)) -> keeps_rows (wbind m k).
Proof.
  intros Hm Hk wh id. unfold wbind. specialize (Hm wh id).
  destruct (m wh) as [[a | e] wh1]; cbn in *; [| exact Hm].
  now rewrite (Hk a wh1 id).
Qed.

Lemma keeps_rows_except_NotFound {A} (m handler : W A) :
  keeps_rows m -> keeps_rows handler -> keeps_rows (except_NotFound m handler).
Proof.
  intros Hm Hh wh id. unfold except_NotFound. specialize (Hm wh id).
  destruct (m wh) as [[a | e] wh1]; cbn in *; [exact Hm |].
  destruct e; try exact Hm. now rewrite (Hh wh1 id).
Qed.

Lemma keeps_rows_call {A} (f : bool -> W A) :
  (forall b, keeps_rows (f b)) -> keeps_rows (call f).
Proof.
  intros Hf wh id. unfold call.
  destruct (script wh (calls wh)); [| reflexivity |]; now rewrite (Hf _ _ id).
Qed.

Lemma keeps_rows_get_table table_id : keeps_rows (get_table table_id).
Proof.
  apply keeps_rows_call. intros _ wh id. now destruct (tables wh !! table_id).
Qed.

Lemma keeps_rows_create_table table_id t :
  table_rows t = [] -> keeps_rows (create_table table_id t).
Proof.
  intros Ht. apply keeps_rows_call. intros _ wh id.
  destruct (tables wh !! table_id) eqn:Hl; [reflexivity |].
  unfold rows_of. cbn. destruct (decide (table_id = id)) as [<- | Hne].
  - now rewrite lookup_insert_eq, Hl.
  - now rewrite lookup_insert_ne.
Qed.

Lemma keeps_rows_update_table table_id fields : keeps_rows (update_table table_id fields).
Proof.
  unfold update_table. destruct (existsb _ fields); [intros wh id; reflexivity |].
  apply keeps_rows_call. intros _ wh id. now destruct (tables wh !! table_id).
Qed.

Lemma keeps_rows_insert_rows_json table_id rows : keeps_rows (insert_rows_json table_id rows).
Proof.
  unfold insert_rows_json. destruct rows; [| intros wh id; reflexivity].
  apply keeps_rows_call. intros b wh id. now destruct (tables wh !! table_id).
Qed.

Lemma keeps_rows_create_dataset_if_not_exists dataset_id :
  keeps_rows (create_dataset_if_not_exists dataset_id).
Proof.
  unfold create_dataset_if_not_exists. apply keeps_rows_except_NotFound.
  - apply keeps_rows_call. intros _ wh id. now destruct (bool_decide _).
  - apply keeps_rows_wbind; [apply keeps_rows_call; intros _ wh id; reflexivity |].
    intros _. apply keeps_rows_call. intros _ wh id. now destruct (bool_decide _).
Qed.

Lemma keeps_rows_endswith_global table_id name : keeps_rows (endswith_global table_id name).
Proof. destruct name; intros wh id; reflexivity. Qed.

Lemma keeps_rows_create_table_if_not_exists E table_id :
  keeps_rows (create_table_if_not_exists E table_id).
Proof.
  unfold create_table_if_not_exists. apply keeps_rows_except_NotFound.
  - apply keeps_rows_wbind; [apply keeps_rows_get_table | intros _; apply keeps_rows_wret].
  - apply keeps_rows_wbind; [apply keeps_rows_call; intros _ wh id; reflexivity |]. intros _.
    apply keeps_rows_wbind; [apply keeps_rows_call; intros _ wh id; reflexivity |]. intros _.
    apply keeps_rows_wbind; [apply keeps_rows_endswith_global |]. intros is_sales.
    apply keeps_rows_wbind.
    + destruct is_sales; [apply keeps_rows_wret |].
      apply keeps_rows_wbind; [apply keeps_rows_endswith_global |].
      intros []; [apply keeps_rows_wraise | apply keeps_rows_wret].
    + intros clustering. now apply keeps_rows_create_table.
Qed.

Lemma keeps_rows_load_body E sales_row sales_items_rows :
  keeps_rows (load_body E sales_row sales_items_rows).
Proof.
  unfold load_body. cbv zeta.
  repeat first
    [ apply keeps_rows_wret
    | apply keeps_rows_create_dataset_if_not_exists
    | apply keeps_rows_create_table_if_not_exists
    | apply keeps_rows_get_table
    | apply keeps_rows_update_table
    | apply keeps_rows_insert_rows_json
    | apply keeps_rows_wbind
    | intros _ ].
Qed.

Lemma load_data_to_bigquery_rows E sales_row sales_items_rows uuid w id :
  rows_of (bigquery (load_data_to_bigquery E sales_row sales_items_rows uuid w).2) id
  = rows_of (bigquery w) id.
Proof.
  unfold load_data_to_bigquery, in_warehouse.
  pose proof (keeps_rows_load_body E sales_row sales_items_rows (bigquery w) id) as H.
  now destruct (load_body E sales_row sales_items_rows (bigquery w)).
Qed.

(** The body of the writer's [try] never comes to its end. *)
Lemma load_body_raises E sales_row sales_items_rows wh :
  exists e, (load_body E sales_row sales_items_rows wh).1 = Raise e.
Proof.
  unfold load_body. cbv zeta. unfold wbind.
  destruct (create_dataset_if_not_exists _ wh) as [[[] | e] wh1]; [| now exists e].
  destruct (create_table_if_not_exists E _ wh1) as [[[] | e] wh2]; [| now exists e].
  destruct (create_table_if_not_exists E _ wh2) as [[[] | e] wh3]; [| now exists e].
  destruct (get_table _ wh3) as [[t | e] wh4]; [| now exists e].
  now exists ValueError.
Qed.

(** *** The tables *)

Lemma tables_call {A} (f : bool -> W A) wh :
  (forall b wh0, tables wh0 = tables wh -> tables (f b wh0).2 = tables wh) ->
  tables (call f wh).2 = tables wh.
Proof.
  intros Hf. unfold call.
  destruct (script wh (calls wh)); [| reflexivity |]; now apply Hf.
Qed.

Lemma tables_get_table table_id wh : tables (get_table table_id wh).2 = tables wh.
Proof.
  apply tables_call. intros _ wh0 H0. now destruct (tables wh0 !! table_id).
Qed.

Lemma tables_create_dataset_if_not_exists dataset_id wh :
  tables (create_dataset_if_not_exists dataset_id wh).2 = tables wh.
Proof.
  unfold create_dataset_if_not_exists, except_NotFound, get_dataset, wbind, construct,
    create_dataset, call.
  destruct (script wh (calls wh)) as [| e |]; cbn;
    try (destruct (bool_decide (dataset_id ∈ datasets wh)); cbn; try reflexivity;
         destruct (script wh (S (calls wh))) as [| e1 |]; cbn; try reflexivity;
         destruct (script wh (S (S (calls wh)))) as [| e2 |]; cbn; try reflexivity;
         destruct (bool_decide (dataset_id ∈ datasets wh)); reflexivity).
  destruct e; try reflexivity.
  destruct (script wh (S (calls wh))) as [| e1 |]; cbn; try reflexivity;
    destruct (script wh (S (S (calls wh)))) as [| e2 |]; cbn; try reflexivity;
    destruct (bool_decide (dataset_id ∈ datasets wh)); reflexivity.
Qed.

(** Where the table is, [create_table_if_not_exists] creates nothing,
    however its calls end. *)
Lemma tables_create_table_if_not_exists_there E table_id wh :
  is_Some (tables wh !! table_id) ->
  tables (create_table_if_not_exists E table_id wh).2 = tables wh.
Proof.
  intros [t Ht].
  assert (Hcreate : forall t' wh0, tables wh0 = tables wh ->
                                   tables (create_table table_id t' wh0).2 = tables wh).
  { intros t' wh0 H0. unfold create_table. rewrite <- H0. apply tables_call.
    intros _ wh1 H1. rewrite H1, H0, Ht. cbn. now rewrite H1. }
  assert (Hconstruct : forall wh0, tables (construct wh0).2 = tables wh0).
  { intros wh0. unfold construct. apply tables_call. intros _ wh1 H1. exact H1. }
  unfold create_table_if_not_exists, except_NotFound.
  assert (H1 : tables (wbind (get_table table_id) (fun _ => wret tt) wh).2 = tables wh).
  { unfold wbind. pose proof (tables_get_table table_id wh) as H.
    destruct (get_table table_id wh) as [[t0 | e0] wh0]; exact H. }
  destruct (wbind (get_table table_id) (fun _ => wret tt) wh) as [[[] | e] wh1];
    cbn in H1 |- *; [exact H1 |].
    destruct e; cbn; try exact H1.
    unfold wbind.
    pose proof (Hconstruct wh1) as H2.
    destruct (construct wh1) as [[[] | e2] wh2]; cbn in *; [| congruence].
    pose proof (Hconstruct wh2) as H3.
    destruct (construct wh2) as [[[] | e3] wh3]; cbn in *; [| congruence].
    destruct (TABLE_ID_SALES E) as [a |]; cbn; [| congruence].
    destruct (endswith table_id a); cbn.
    + apply Hcreate. congruence.
    + destruct (TABLE_ID_SALES_ITEMS E) as [b |]; cbn; [| congruence].
      destruct (endswith table_id b); cbn; [congruence |].
      apply Hcreate. congruence.
Qed.

Lemma load_body_tables_there E sales_row sales_items_rows wh :
  is_Some (tables wh !! sales_table_id E) ->
  is_Some (tables wh !! sales_items_table_id E) ->
  tables (load_body E sales_row sales_items_rows wh).2 = tables wh.
Proof.
  intros Hs Hi. unfold load_body. cbv zeta.
  fold (dataset_id_of E).
  change (dataset_id_of E +:+ "." +:+ fmt (TABLE_ID_SALES E)) with (sales_table_id E).
  change (dataset_id_of E +:+ "." +:+ fmt (TABLE_ID_SALES_ITEMS E))
    with (sales_items_table_id E).
  unfold wbind.
  pose proof (tables_create_dataset_if_not_exists (dataset_id_of E) wh) as H1.
  destruct (create_dataset_if_not_exists _ wh) as [[[] | e] wh1]; cbn in H1 |- *;
    [| exact H1].
  pose proof (tables_create_table_if_not_exists_there E (sales_table_id E) wh1) as H2.
  rewrite H1 in H2. specialize (H2 Hs).
  destruct (create_table_if_not_exists E _ wh1) as [[[] | e] wh2]; cbn in H2 |- *;
    [| exact H2].
  pose proof (tables_create_table_if_not_exists_there E (sales_items_table_id E) wh2) as H3.
  rewrite H2 in H3. specialize (H3 Hi).
  destruct (create_table_if_not_exists E _ wh2) as [[[] | e] wh3]; cbn in H3 |- *;
    [| exact H3].
  pose proof (tables_get_table (sales_table_id E) wh3) as H4. rewrite H3 in H4.
  destruct (get_table _ wh3) as [[t | e] wh4]; cbn in H4 |- *; exact H4.
Qed.

(** *** A run in which every request succeeds *)

Lemma create_table_if_not_exists_exact E table_id wh a b :
  TABLE_ID_SALES E = Some a -> TABLE_ID_SALES_ITEMS E = Some b ->
  fault_free wh ->
  exists n,
    create_table_if_not_exists E table_id wh
    = match tables wh !! table_id with
      | Some _ => (Ok tt, with_calls wh n)
      | None =>
          if endswith table_id a
          then (Ok tt, with_calls (with_tables wh (<[table_id := new_table]> (tables wh))) n)
          else if endswith table_id b then (Raise AttributeError, with_calls wh n)
          else
            (Ok tt,
             with_calls
               (with_tables wh
                  (<[table_id := {| partition_field := "pedido_dia";
                                    clustering_fields := [];
                                    primary_key := []; table_rows := [] |}]> (tables wh)))
               n)
      end.
Proof.
  intros Ha Hb H. unfold create_table_if_not_exists, except_NotFound, wbind at 1, get_table.
  rewrite call_fault_free by exact H. cbn [tables with_calls].
  destruct (tables wh !! table_id) as [t |] eqn:Ht.
  - exists (S (calls wh)). reflexivity.
  - unfold wbind, construct, create_table.
    repeat first [rewrite call_fault_free by exact H | progress unfold wret | progress cbv beta iota].
    rewrite Ha. cbn [endswith_global wret]. cbv beta iota.
    destruct (endswith table_id a).
    + repeat first [rewrite call_fault_free by exact H | progress unfold wret | progress cbv beta iota].
      cbn [tables with_calls]. rewrite Ht. eexists. reflexivity.
    + rewrite Hb. cbn [endswith_global wret]. cbv beta iota.
      destruct (endswith table_id b).
      * eexists. reflexivity.
      * repeat first [rewrite call_fault_free by exact H | progress unfold wret | progress cbv beta iota].
        cbn [tables with_calls]. rewrite Ht. eexists. reflexivity.
Qed.

Lemma load_body_exact E sales_row sales_items_rows wh a b :
  TABLE_ID_SALES E = Some a -> TABLE_ID_SALES_ITEMS E = Some b ->
  sales_table_id E <> sales_items_table_id E ->
  fault_free wh ->
  exists wh',
    load_body E sales_row sales_items_rows wh
    = (Raise match tables wh !! sales_items_table_id E with
             | Some _ => ValueError
             | None => if endswith (sales_items_table_id E) a then ValueError
                       else AttributeError
             end, wh')
    /\ dataset_id_of E ∈ datasets wh'
    /\ tables wh' !! sales_table_id E
       = Some (default new_table (tables wh !! sales_table_id E))
    /\ tables wh' !! sales_items_table_id E
       = match tables wh !! sales_items_table_id E with
         | Some t => Some t
         | None => if endswith (sales_items_table_id E) a then Some new_table else None
         end
    /\ forall id, id <> sales_table_id E -> id <> sales_items_table_id E ->
         tables wh' !! id = tables wh !! id.
Proof.
  intros Ha Hb Hne H0. unfold load_body. cbv zeta.
  fold (dataset_id_of E).
  change (dataset_id_of E +:+ "." +:+ fmt (TABLE_ID_SALES E)) with (sales_table_id E).
  change (dataset_id_of E +:+ "." +:+ fmt (TABLE_ID_SALES_ITEMS E))
    with (sales_items_table_id E).
  assert (Hends : endswith (sales_table_id E) a = true).
  { unfold sales_table_id. rewrite Ha. apply endswith_append2. }
  assert (Hendi : endswith (sales_items_table_id E) b = true).
  { unfold sales_items_table_id. rewrite Hb. apply endswith_append2. }
  set (sid := sales_table_id E) in *. set (iid := sales_items_table_id E) in *.
  destruct (create_dataset_if_not_exists_exact (dataset_id_of E) wh H0)
    as (ds & n1 & E1 & Hds).
  rewrite (wbind_ok _ _ _ _ _ E1). clear E1.
  destruct (create_table_if_not_exists_exact E sid _ a b Ha Hb
              (H0 : fault_free (with_calls (with_datasets wh ds) n1))) as (n2 & E2).
  cbn [tables with_calls with_datasets] in E2. rewrite Hends in E2.
  destruct (tables wh !! sid) as [ts |] eqn:Hs.
  - rewrite (wbind_ok _ _ _ _ _ E2). clear E2.
    destruct (create_table_if_not_exists_exact E iid _ a b Ha Hb
                (H0 : fault_free (with_calls (with_calls (with_datasets wh ds) n1) n2)))
      as (n3 & E3).
    cbn [tables with_calls with_datasets] in E3. rewrite Hendi in E3.
    destruct (tables wh !! iid) as [ti |] eqn:Hi; [| destruct (endswith iid a)].
    + rewrite (wbind_ok _ _ _ _ _ E3).
      erewrite wbind_ok by (apply get_table_there; [exact H0 | exact Hs]).
      eexists. split; [reflexivity |]. cbn. rewrite Hs, Hi. auto.
    + rewrite (wbind_ok _ _ _ _ _ E3).
      erewrite wbind_ok
        by (apply get_table_there;
            [exact H0 | cbn; rewrite lookup_insert_ne by congruence; exact Hs]).
      eexists. split; [reflexivity |]. cbn.
      rewrite lookup_insert_eq, lookup_insert_ne, Hs by congruence.
      repeat split; auto. intros id H1 H2. now rewrite lookup_insert_ne by congruence.
    + unfold wbind at 1. rewrite E3.
      eexists. split; [reflexivity |]. cbn. rewrite Hs, Hi. auto.
  - rewrite (wbind_ok _ _ _ _ _ E2). clear E2.
    destruct (create_table_if_not_exists_exact E iid
                (with_calls
                   (with_tables (with_calls (with_datasets wh ds) n1)
                      (<[sid := new_table]> (tables wh))) n2) a b Ha Hb H0)
      as (n3 & E3).
    cbn [tables with_calls with_tables with_datasets] in E3.
    rewrite lookup_insert_ne in E3 by exact Hne. rewrite Hendi in E3.
    destruct (tables wh !! iid) as [ti |] eqn:Hi; [| destruct (endswith iid a)].
    + rewrite (wbind_ok _ _ _ _ _ E3).
      erewrite wbind_ok by (apply get_table_there; [exact H0 | cbn; apply lookup_insert_eq]).
      eexists. split; [reflexivity |]. cbn.
      rewrite lookup_insert_eq, lookup_insert_ne, Hi by congruence.
      repeat split; auto. intros id H1 H2. now rewrite lookup_insert_ne by congruence.
    + rewrite (wbind_ok _ _ _ _ _ E3).
      erewrite wbind_ok
        by (apply get_table_there;
            [exact H0
            | cbn; rewrite lookup_insert_ne by congruence; apply lookup_insert_eq]).
      eexists. split; [reflexivity |]. cbn.
      rewrite lookup_insert_eq, lookup_insert_ne, lookup_insert_eq by congruence.
      repeat split; auto. intros id H1 H2. now rewrite !lookup_insert_ne by congruence.
    + unfold wbind at 1. rewrite E3.
      eexists. split; [reflexivity |]. cbn.
      rewrite lookup_insert_eq, lookup_insert_ne, Hi by congruence.
      repeat split; auto. intros id H1 H2. now rewrite lookup_insert_ne by congruence.
Qed.

(** X16: what a run of the writer leaves in the warehouse when every request
    of the client succeeds (both table names set, the two identifiers
    different).  The dataset is there afterwards.  The order table is there:
    as it was, or created partitioned by [pedido_dia] and clustered by
    [cliente_cpf], [vendedor_id].  An item table that is there stays as it
    was; a missing one is created only when its identifier ends with the
    name of the order table (and then as an order table); otherwise line 468
    raises [AttributeError] and there is no item table.  No other table
    changes, no table gets a row, and the body never comes to its end: where
    it passes the creation of the tables, [update_table] raises
    [ValueError]. *)
Theorem fault_free_run_provisions_and_raises
    (E : Env) (sales_row : SalesRow.t) (sales_items_rows : list SalesItemsRow.t)
    (uuid : string) (w : World) (a b : string) :
  TABLE_ID_SALES E = Some a -> TABLE_ID_SALES_ITEMS E = Some b ->
  sales_table_id E <> sales_items_table_id E ->
  fault_free (bigquery w) ->
  let wh := bigquery w in
  let wh' := bigquery (load_data_to_bigquery E sales_row sales_items_rows uuid w).2 in
  (load_body E sales_row sales_items_rows wh).1
  = Raise match tables wh !! sales_items_table_id E with
          | Some _ => ValueError
          | None => if endswith (sales_items_table_id E) a then ValueError
                    else AttributeError
          end
  /\ dataset_id_of E ∈ datasets wh'
  /\ tables wh' !! sales_table_id E
     = Some (default new_table (tables wh !! sales_table_id E))
  /\ tables wh' !! sales_items_table_id E
     = match tables wh !! sales_items_table_id E with
       | Some t => Some t
       | None => if endswith (sales_items_table_id E) a then Some new_table else None
       end
  /\ (forall id, id <> sales_table_id E -> id <> sales_items_table_id E ->
        tables wh' !! id = tables wh !! id)
  /\ (forall id, rows_of wh' id = rows_of wh id).
Proof.
  intros Ha Hb Hne H0. cbv zeta.
  destruct (load_body_exact E sales_row sales_items_rows (bigquery w) a b Ha Hb Hne H0)
    as (wh' & Erun & Hd & Hs & Hi & Hother).
  split; [now rewrite Erun |].
  assert (Hw : bigquery (load_data_to_bigquery E sales_row sales_items_rows uuid w).2 = wh').
  { unfold load_data_to_bigquery, in_warehouse. now rewrite Erun. }
  split; [now rewrite Hw |]. split; [now rewrite Hw |]. split; [now rewrite Hw |].
  split; [now rewrite Hw |].
  intros id. apply load_data_to_bigquery_rows.
Qed.

(** On an empty warehouse: with the tables named [sales] and [sales_items]
    the run stops at line 468 with the order table created; with the item
    table named [items_sales] both tables are created alike and the run
    stops at the first [update_table]. *)
Lemma scenario_tables_are_provisioned :
  (let wh' :=
     bigquery (load_data_to_bigquery env_as_written empty_order_row [] "abc123"
                 scenario_world).2 in
   (load_body env_as_written empty_order_row [] (bigquery scenario_world)).1
   = Raise AttributeError
   /\ tables wh' !! "proj.loyalty.sales" = Some new_table
   /\ tables wh' !! "proj.loyalty.sales_items" = None)
  /\ (let wh' :=
        bigquery (load_data_to_bigquery env_items_sales empty_order_row [] "abc123"
                    scenario_world).2 in
      (load_body env_items_sales empty_order_row [] (bigquery scenario_world)).1
      = Raise ValueError
      /\ tables wh' !! "proj.loyalty.sales" = Some new_table
      /\ tables wh' !! "proj.loyalty.items_sales" = Some new_table).
Proof.
  split.
  - destruct (fault_free_run_provisions_and_raises env_as_written empty_order_row []
                "abc123" scenario_world "sales" "sales_items" eq_refl eq_refl)
      as (H1 & _ & H3 & H4 & _).
    + vm_compute. discriminate.
    + intros n. reflexivity.
    + cbv zeta. split; [exact H1 |]. split; [exact H3 | exact H4].
  - destruct (fault_free_run_provisions_and_raises env_items_sales empty_order_row []
                "abc123" scenario_world "sales" "items_sales" eq_refl eq_refl)
      as (H1 & _ & H3 & H4 & _).
    + vm_compute. discriminate.
    + intros n. reflexivity.
    + cbv zeta. split; [exact H1 |]. split; [exact H3 | exact H4].
Defined.

Lemma create_table_if_not_exists_there_exact E table_id wh t :
  fault_free wh -> tables wh !! table_id = Some t ->
  create_table_if_not_exists E table_id wh = (Ok tt, with_calls wh (S (calls wh))).
Proof.
  intros H Ht. unfold create_table_if_not_exists, except_NotFound, wbind at 1, get_table.
  rewrite call_fault_free by exact H. cbn [tables with_calls]. now rewrite Ht.
Qed.

Lemma load_body_there_raises E sales_row sales_items_rows wh :
  is_Some (tables wh !! sales_table_id E) ->
  is_Some (tables wh !! sales_items_table_id E) ->
  fault_free wh ->
  (load_body E sales_row sales_items_rows wh).1 = Raise ValueError.
Proof.
  intros [ts Hs] [ti Hi] H0. unfold load_body. cbv zeta.
  fold (dataset_id_of E).
  change (dataset_id_of E +:+ "." +:+ fmt (TABLE_ID_SALES E)) with (sales_table_id E).
  change (dataset_id_of E +:+ "." +:+ fmt (TABLE_ID_SALES_ITEMS E))
    with (sales_items_table_id E).
  destruct (create_dataset_if_not_exists_exact (dataset_id_of E) wh H0)
    as (ds & n1 & E1 & _).
  rewrite (wbind_ok _ _ _ _ _ E1). clear E1.
  erewrite wbind_ok
    by (apply (create_table_if_not_exists_there_exact E _ _ ts); [exact H0 | exact Hs]).
  erewrite wbind_ok
    by (apply (create_table_if_not_exists_there_exact E _ _ ti); [exact H0 | exact Hi]).
  erewrite wbind_ok by (apply (get_table_there _ _ ts); [exact H0 | exact Hs]).
  reflexivity.
Qed.

(** X17: where both tables are there, a run of the writer leaves every table
    of the warehouse as it found it, whatever the requests of the client do:
    nothing is created, no row is added, and the primary keys of lines 75-76
    are never stored.  When every request succeeds, the run ends at the first
    [update_table], which raises [ValueError] for the field [primary_key]
    before it sends anything. *)
Theorem existing_tables_are_left_as_found
    (E : Env) (sales_row : SalesRow.t) (sales_items_rows : list SalesItemsRow.t)
    (uuid : string) (w : World) :
  is_Some (tables (bigquery w) !! sales_table_id E) ->
  is_Some (tables (bigquery w) !! sales_items_table_id E) ->
  (load_data_to_bigquery E sales_row sales_items_rows uuid w).1 = Ok tt
  /\ tables (bigquery (load_data_to_bigquery E sales_row sales_items_rows uuid w).2)
     = tables (bigquery w)
  /\ (fault_free (bigquery w) ->
      (load_body E sales_row sales_items_rows (bigquery w)).1 = Raise ValueError).
Proof.
  intros Hs Hi. split; [apply load_data_to_bigquery_returns |]. split.
  - pose proof (load_body_tables_there E sales_row sales_items_rows (bigquery w) Hs Hi)
      as H.
    unfold load_data_to_bigquery, in_warehouse.
    destruct (load_body E sales_row sales_items_rows (bigquery w)) as [r wh']. exact H.
  - intros H0. now apply load_body_there_raises.
Qed.

(** On a warehouse that holds both tables of the scenario and whose fourth
    request fails. *)
Lemma provisioned_tables_are_left_as_found :
  (load_data_to_bigquery env_as_written empty_order_row [] "abc123" provisioned_world).1
  = Ok tt
  /\ tables (bigquery (load_data_to_bigquery env_as_written empty_order_row [] "abc123"
                         provisioned_world).2)
     = tables (bigquery provisioned_world).
Proof.
  destruct (existing_tables_are_left_as_found env_as_written empty_order_row [] "abc123"
              provisioned_world) as (H1 & H2 & _).
  - eexists. vm_compute. reflexivity.
  - eexists. vm_compute. reflexivity.
  - split; [exact H1 | exact H2].
Defined.

(** ** What a message leaves in the tables *)

Lemma keeps_rows_of_load E sales_row sales_items_rows uuid id :
  keeps (fun w => rows_of (bigquery w) id)
    (load_data_to_bigquery E sales_row sales_items_rows uuid).
Proof. intros w. apply load_data_to_bigquery_rows. Qed.

Lemma keeps_rows_of_process_body E uuid id :
  keeps (fun w => rows_of (bigquery w) id) (process_body E uuid).
Proof.
  unfold process_body.
  assert (Hnow : keeps (fun w => rows_of (bigquery w) id) now_isoformat) by now intros w.
  pose proof (keeps_download_json_files (fun w => rows_of (bigquery w) id) E) as H1.
  pose proof (keeps_process_pedido_items (fun w => rows_of (bigquery w) id) E) as H2.
  pose proof (keeps_prepare_sales_row (fun w => rows_of (bigquery w) id) E) as H3.
  pose proof (fun r rs => keeps_rows_of_load E r rs uuid id) as H4.
  keeps_steps.
Qed.

(** No message adds a row to a table. *)
Lemma process_message_rows E message w id :
  rows_of (bigquery (process_message E message w).2) id = rows_of (bigquery w) id.
Proof.
  destruct (data_utf8 message) as [uuid |] eqn:Hd.
  - rewrite (process_message_decoded E message uuid w Hd). cbn.
    apply (keeps_try_except (fun w => rows_of (bigquery w) id)).
    + apply keeps_rows_of_process_body.
    + intros e. apply keeps_ret.
  - unfold process_message. now rewrite Hd.
Qed.

Lemma prepare_sales_row_ext E uuid ts dia p p' nv iv cn cc v pp w :
  getitem p "id" = getitem p' "id" ->
  getitem p "numero" = getitem p' "numero" ->
  prepare_sales_row E uuid ts dia p nv iv cn cc v pp w
  = prepare_sales_row E uuid ts dia p' nv iv cn cc v pp w.
Proof. intros Hi Hn. unfold prepare_sales_row. now rewrite Hi, Hn. Qed.

(** With the documents there and the five required values truthy, the rows
    assembled are handed to the writer. *)
Lemma process_body_complete E uuid w data ts nv iv f retorno pedido_pdv v p rows w1 row w2 :
  (download_json_files E uuid w).1 = Ok data ->
  processing_timestamp data = Some ts ->
  truthy (pesquisa data) = true -> truthy (pdv data) = true ->
  extract_pesquisa_data (pesquisa data) = Ok (nv, iv) ->
  extract_pdv_data (pdv data) = Ok f ->
  required_fields nv iv f = true ->
  getitem (pdv data) "retorno" = Ok retorno ->
  getitem retorno "pedido" = Ok pedido_pdv ->
  process_pedido_items E pedido_pdv (produto data) ts (f_pedido_dia f) uuid nv iv
    (f_cliente_nome f) (f_cliente_cpf f) w = (Ok (v, p, rows), w1) ->
  prepare_sales_row E uuid ts (f_pedido_dia f) pedido_pdv nv iv
    (f_cliente_nome f) (f_cliente_cpf f) v p w1 = (Ok row, w2) ->
  process_body E uuid w = load_data_to_bigquery E row rows uuid w2.
Proof.
  intros Hdl Hts Hp Hv Hs Hf Hreq Hr Hped Hitems Hrow.
  unfold process_body, bind at 1.
  assert (Hdl' : download_json_files E uuid w = (Ok data, w)).
  { pose proof (download_json_files_world E uuid w) as Hw.
    destruct (download_json_files E uuid w) as [r w0]. cbn in Hdl, Hw. now subst. }
  rewrite Hdl', Hts, Hp, Hv. cbn [andb].
  rewrite Hs. rewrite bind_lift. rewrite Hf. rewrite bind_lift.
  unfold required_fields in Hreq. rewrite Hreq.
  unfold bind, lift. rewrite Hr, Hped, Hitems, Hrow. reflexivity.
Qed.

(** C6: when, after correlation, the survey document, the order document,
    every product document or the processing timestamp is missing (or the
    correlation itself raises), [process_message] returns, the message is
    acknowledged once and no table of the warehouse gets a row.  When it is
    the survey, the order or the timestamp that is missing, the warehouse is
    not called at all. *)
Theorem incomplete_input_writes_no_row
    (E : Env) (message : Message) (uuid : string) (w : World) :
  data_utf8 message = Some uuid ->
  match (download_json_files E uuid w).1 with
  | Ok data =>
      truthy (pesquisa data) = false \/ truthy (pdv data) = false
      \/ produto data = ∅ \/ processing_timestamp data = None
  | Raise _ => True
  end ->
  (process_message E message w).1 = Ok tt
  /\ acked (process_message E message w).2 = acked w ++ [message_id message]
  /\ (forall id,
        rows_of (bigquery (process_message E message w).2) id = rows_of (bigquery w) id)
  /\ (match (download_json_files E uuid w).1 with
      | Ok data =>
          truthy (pesquisa data) = false \/ truthy (pdv data) = false
          \/ processing_timestamp data = None
      | Raise _ => True
      end ->
      process_message E message w = (Ok tt, acknowledged message w)).
Proof.
  intros Hd _.
  destruct (process_message_acks E message uuid w Hd) as (w' & Hrun & Hack).
  split; [now rewrite Hrun |]. split; [now rewrite Hrun |].
  split; [intros id; apply process_message_rows |].
  intros Hmiss. now apply (process_message_incomplete E message uuid).
Qed.

(** The scenario without its survey document, and without any product
    document. *)
Lemma nothing_written_without_a_document :
  process_message env_as_written scenario_message world_without_survey
  = (Ok tt, acknowledged scenario_message world_without_survey)
  /\ (process_message env_as_written scenario_message world_without_products).1 = Ok tt
  /\ acked delivered = ["m1"]
  /\ (forall id, rows_of (bigquery delivered) id = []).
Proof.
  split.
  - destruct (incomplete_input_writes_no_row env_as_written scenario_message "abc123"
                world_without_survey eq_refl) as (_ & _ & _ & H).
    + vm_compute. left. reflexivity.
    + apply H. vm_compute. left. reflexivity.
  - destruct (incomplete_input_writes_no_row env_as_written scenario_message "abc123"
                world_without_products eq_refl) as (H1 & H2 & H3 & _).
    + vm_compute. right. right. left. reflexivity.
    + split; [exact H1 |]. split; [exact H2 |]. intros id. exact (H3 id).
Defined.

(** C5: a line item whose product id finds no product metadata yields no item
    row and 0.0 for value and points, and raises nothing (whereas an item
    that finds metadata yields a row whenever it returns); the order is
    processed exactly as if the item were not in it; the order row assembled
    from the other items is handed to the writer, and the message is
    acknowledged.  The writer, though, raises before its insertions: no
    table gets a row. *)
Theorem item_without_metadata_is_dropped
    (E : Env) (produto_data : gmap string pyobj) (item : pyobj)
    (d : gmap string pyobj) (before after : list pyobj) (pedido_id pedido_numero : pyobj)
    (processing_timestamp : datetime) (pedido_dia : pyobj) (uuid : string)
    (nome_vendedor id_vendedor cliente_nome cliente_cpf : pyobj)
    (message : Message) (w : World) :
  dropped_item produto_data item ->
  d !! "id" = Some pedido_id ->
  d !! "numero" = Some pedido_numero ->
  data_utf8 message = Some uuid ->
  let with_item := PyDict (<["itens" := PyList (before ++ item :: after)]> d) in
  let without_item := PyDict (<["itens" := PyList (before ++ after)]> d) in
  process_pedido_item E item produto_data processing_timestamp pedido_dia uuid
    nome_vendedor id_vendedor cliente_nome cliente_cpf w
  = (Ok (fzero, fzero, None), w)
  /\ (forall item' vt pp orow w',
        matched_item produto_data item' ->
        process_pedido_item E item' produto_data processing_timestamp pedido_dia uuid
          nome_vendedor id_vendedor cliente_nome cliente_cpf w = (Ok (vt, pp, orow), w') ->
        orow <> None)
  /\ process_pedido_items E with_item produto_data processing_timestamp pedido_dia uuid
       nome_vendedor id_vendedor cliente_nome cliente_cpf w
     = process_pedido_items E without_item produto_data processing_timestamp pedido_dia
         uuid nome_vendedor id_vendedor cliente_nome cliente_cpf w
  /\ (forall pesquisa_data pdv_data f retorno pedido_valor pedido_pontos sales_items_rows
             w1 sales_row w2,
        (download_json_files E uuid w).1
        = Ok {| pesquisa := pesquisa_data; pdv := pdv_data; produto := produto_data;
                processing_timestamp := Some processing_timestamp |} ->
        truthy pesquisa_data = true -> truthy pdv_data = true ->
        extract_pesquisa_data pesquisa_data = Ok (nome_vendedor, id_vendedor) ->
        extract_pdv_data pdv_data = Ok f ->
        f_pedido_dia f = pedido_dia -> f_cliente_nome f = cliente_nome ->
        f_cliente_cpf f = cliente_cpf ->
        required_fields nome_vendedor id_vendedor f = true ->
        getitem pdv_data "retorno" = Ok retorno ->
        getitem retorno "pedido" = Ok with_item ->
        process_pedido_items E without_item produto_data processing_timestamp pedido_dia
          uuid nome_vendedor id_vendedor cliente_nome cliente_cpf w
        = (Ok (pedido_valor, pedido_pontos, sales_items_rows), w1) ->
        prepare_sales_row E uuid processing_timestamp pedido_dia without_item
          nome_vendedor id_vendedor cliente_nome cliente_cpf pedido_valor pedido_pontos w1
        = (Ok sales_row, w2) ->
        process_message E message w
        = (Ok tt,
           acknowledged message
             (load_data_to_bigquery E sales_row sales_items_rows uuid w2).2)
        /\ (exists e,
              (load_body E sales_row sales_items_rows (bigquery w2)).1 = Raise e))
  /\ (process_message E message w).1 = Ok tt
  /\ acked (process_message E message w).2 = acked w ++ [message_id message]
  /\ (forall id,
        rows_of (bigquery (process_message E message w).2) id = rows_of (bigquery w) id).
Proof.
  intros Hdrop Hid Hnum Hdata. cbv zeta.
  assert (Hsame :
    process_pedido_items E (PyDict (<["itens" := PyList (before ++ item :: after)]> d))
      produto_data processing_timestamp pedido_dia uuid
      nome_vendedor id_vendedor cliente_nome cliente_cpf w
    = process_pedido_items E (PyDict (<["itens" := PyList (before ++ after)]> d))
        produto_data processing_timestamp pedido_dia uuid
        nome_vendedor id_vendedor cliente_nome cliente_cpf w).
  { unfold process_pedido_items. cbn [getitem]. rewrite !lookup_insert_eq.
    unfold bind, lift. cbn [iterate].
    rewrite (process_items_loop_dropped E produto_data item _ _ _ _ _ _ _ _
               pedido_id pedido_numero Hdrop).
    - rewrite (process_items_loop_ext E (before ++ after)
                 (PyDict (<["itens" := PyList (before ++ item :: after)]> d))
                 (PyDict (<["itens" := PyList (before ++ after)]> d))); [reflexivity | |];
        cbn; now rewrite !lookup_insert_ne.
    - cbn. rewrite lookup_insert_ne by discriminate. now rewrite Hid.
    - cbn. rewrite lookup_insert_ne by discriminate. now rewrite Hnum. }
  split; [now apply process_pedido_item_of_dropped |].
  split.
  { intros item' vt pp orow w' Hm Hrun.
    apply (process_pedido_item_of_matched E produto_data item') in Hrun
      as (row & -> & _); [discriminate | exact Hm]. }
  split; [exact Hsame |].
  destruct (process_message_acks E message uuid w Hdata) as (w' & Hrun & Hack).
  split.
  { intros pesquisa_data pdv_data f retorno v p rows w1 row w2
           Hdl Hp Hv Hs Hf Hdia Hcn Hcc Hreq Hr Hped Hitems Hrow.
    split; [| apply load_body_raises].
    rewrite (process_message_decoded E message uuid w Hdata).
    f_equal. f_equal. unfold try_except.
    subst pedido_dia cliente_nome cliente_cpf.
    rewrite <- Hsame in Hitems.
    rewrite (prepare_sales_row_ext E uuid processing_timestamp (f_pedido_dia f)
               (PyDict (<["itens" := PyList (before ++ after)]> d))
               (PyDict (<["itens" := PyList (before ++ item :: after)]> d))) in Hrow
      by (cbn; now rewrite !lookup_insert_ne).
    rewrite (process_body_complete E uuid w _ processing_timestamp nome_vendedor
               id_vendedor f retorno _ v p rows w1 row w2 Hdl eq_refl Hp Hv Hs Hf Hreq Hr
               Hped Hitems Hrow).
    pose proof (load_data_to_bigquery_returns E row rows uuid w2) as Hok.
    destruct (load_data_to_bigquery E row rows uuid w2) as [[[] | e] w3];
      [reflexivity | discriminate Hok]. }
  split; [now rewrite Hrun |]. split; [now rewrite Hrun |].
  intros id. apply process_message_rows.
Qed.

(** The scenario without product documents: both items are dropped, the
    order row, of value 0, goes to the writer, which creates the dataset and
    the order table and raises at line 468; no row is written. *)
Lemma order_without_products_is_assembled_and_not_written :
  process_message env_as_written scenario_message world_without_products
  = (Ok tt,
     acknowledged scenario_message
       (load_data_to_bigquery env_as_written empty_order_row [] "abc123"
          (tick world_without_products)).2)
  /\ (load_body env_as_written empty_order_row [] (bigquery world_without_products)).1
     = Raise AttributeError
  /\ tables (bigquery delivered) !! "proj.loyalty.sales" = Some new_table
  /\ (forall id, rows_of (bigquery delivered) id = []).
Proof.
  destruct (item_without_metadata_is_dropped env_as_written ∅ item_bread
              (list_to_map order_header) [item_coffee] [] (PyStr "900") (PyStr "42")
              scenario_timestamp (PyStr "2024-03-01") "abc123"
              (PyStr "Bia") (PyStr "7") (PyStr "Ana") (PyStr "123")
              scenario_message world_without_products)
    as (_ & _ & _ & Hrun & _ & _ & Hrows).
  - eexists _, (PyStr "222"), PyNone.
    split; [reflexivity |]. repeat split; vm_compute; reflexivity.
  - vm_compute; reflexivity.
  - vm_compute; reflexivity.
  - reflexivity.
  - split.
    + refine (proj1 (Hrun survey_document (order_document [item_coffee; item_bread])
               {| f_pedido_id := PyStr "900"; f_pedido_numero := PyStr "42";
                  f_pedido_dia := PyStr "2024-03-01";
                  f_total_produtos := PyFloat (dec "26.00");
                  f_total_venda := PyFloat (dec "26.00");
                  f_observacoes := PyStr ""; f_forma_pagamento := PyStr "pix";
                  f_cliente_nome := PyStr "Ana"; f_cliente_cpf := PyStr "123" |}
               (obj [("pedido", PyDict (order_of [item_coffee; item_bread]))])
               (NInt 0) (NInt 0) [] world_without_products empty_order_row
               (tick world_without_products) _ _ _ _ _ _ _ _ _ _ _ _ _));
        vm_compute; reflexivity.
    + split; [vm_compute; reflexivity |]. split; [vm_compute; reflexivity |].
      intros id. exact (Hrows id).
Defined.

(** ** Redelivery *)

(** C9: the writer never comes to its insertions.  Whatever the rows, the
    configuration and the warehouse, the body of its [try] raises, and after
    one run and after two runs every table holds the rows it held before: a
    second run of the persistence path leaves no second order row and no
    second set of item rows.  So it is for a message delivered twice. *)
Theorem persistence_path_inserts_no_row
    (E : Env) (sales_row : SalesRow.t) (sales_items_rows : list SalesItemsRow.t)
    (uuid : string) (message : Message) (w : World) :
  let w1 := (load_data_to_bigquery E sales_row sales_items_rows uuid w).2 in
  let w2 := (load_data_to_bigquery E sales_row sales_items_rows uuid w1).2 in
  let m1 := (process_message E message w).2 in
  let m2 := (process_message E message m1).2 in
  (exists e, (load_body E sales_row sales_items_rows (bigquery w)).1 = Raise e)
  /\ (exists e, (load_body E sales_row sales_items_rows (bigquery w1)).1 = Raise e)
  /\ (forall id, rows_of (bigquery w1) id = rows_of (bigquery w) id)
  /\ (forall id, rows_of (bigquery w2) id = rows_of (bigquery w) id)
  /\ (forall id, rows_of (bigquery m1) id = rows_of (bigquery w) id)
  /\ (forall id, rows_of (bigquery m2) id = rows_of (bigquery w) id).
Proof.
  cbv zeta. split; [apply load_body_raises |]. split; [apply load_body_raises |].
  split; [intros id; apply load_data_to_bigquery_rows |].
  split; [intros id; now rewrite !load_data_to_bigquery_rows |].
  split; [intros id; apply process_message_rows |].
  intros id. now rewrite !process_message_rows.
Qed.

(** The order row of the scenario without product documents, written twice
    to an empty warehouse, and the message of that scenario, delivered
    twice: the order table is created and holds no row. *)
Lemma scenario_written_twice_holds_no_row :
  tables (bigquery written_twice) !! "proj.loyalty.sales" = Some new_table
  /\ rows_of (bigquery written_twice) "proj.loyalty.sales" = []
  /\ rows_of (bigquery written_twice) "proj.loyalty.sales_items" = []
  /\ tables (bigquery redelivered) !! "proj.loyalty.sales" = Some new_table
  /\ rows_of (bigquery redelivered) "proj.loyalty.sales" = []
  /\ rows_of (bigquery redelivered) "proj.loyalty.sales_items" = []
  /\ acked redelivered = ["m1"; "m1"].
Proof.
  destruct (persistence_path_inserts_no_row env_as_written empty_order_row [] "abc123"
              scenario_message scenario_world) as (_ & _ & _ & H & _).
  destruct (persistence_path_inserts_no_row env_as_written empty_order_row [] "abc123"
              scenario_message world_without_products) as (_ & _ & _ & _ & _ & H').
  split; [vm_compute; reflexivity |].
  split; [exact (H "proj.loyalty.sales") |].
  split; [exact (H "proj.loyalty.sales_items") |].
  split; [vm_compute; reflexivity |].
  split; [exact (H' "proj.loyalty.sales") |].
  split; [exact (H' "proj.loyalty.sales_items") |].
  vm_compute. reflexivity.
Defined.

(** ** Signs of the rows the module assembles *)



(** ** The windows of the situational rate, in the module as it stands *)

(** C3: at 2024-03-01T09:00:00Z, a Friday at 06:00 in Sao Paulo, with a
    morning rate of 0.03 and a happy-hour rate of 0.10: the local time is in
    the window from 05:00 to 10:00 and not in the Friday window from 18:00
    to 22:00, and [get_special_multiplier] returns no rate: it raises
    [TypeError] at the first bound it builds (line 140). *)
Theorem friday_six_raises_as_written :
  weekday (convert_to_sao_paulo_time env_happy_as_written friday_six) = 4
  /\ datetime_time_of (convert_to_sao_paulo_time env_happy_as_written friday_six)
     = time_of_day 6 0 0
  /\ in_morning env_happy_as_written friday_six = true
  /\ in_happy_hour env_happy_as_written friday_six = false
  /\ MORNING_MULTIPLIER env_happy_as_written = dec "0.03"
  /\ HAPPYHOUR_MULTIPLIER env_happy_as_written = dec "0.10"
  /\ datetime_time env_happy_as_written 5 0 0 = Raise TypeError
  /\ get_special_multiplier env_happy_as_written friday_six = Raise TypeError.
Proof. repeat split; vm_compute; reflexivity. Qed.

(** C4: the scenario of the specification, in the module as it stands.  The
    local time of 2024-03-01T07:30:00Z is 04:30, a Friday, before the window
    from 05:00 to 10:00.  The item without product metadata is dropped; the
    item with product metadata raises [TypeError] in
    [get_special_multiplier], so no item row and no order row is assembled,
    the message is acknowledged and the warehouse is not called. *)
Theorem scenario_raises_as_written :
  weekday (convert_to_sao_paulo_time env_as_written scenario_timestamp) = 4
  /\ datetime_time_of (convert_to_sao_paulo_time env_as_written scenario_timestamp)
     = time_of_day 4 30 0
  /\ in_morning env_as_written scenario_timestamp = false
  /\ (download_json_files env_as_written "abc123" scenario_world).1
     = Ok {| pesquisa := survey_document;
             pdv := order_document [item_coffee; item_bread];
             produto := scenario_products;
             processing_timestamp := Some scenario_timestamp |}
  /\ process_pedido_item env_as_written item_bread scenario_products scenario_timestamp
       (PyStr "2024-03-01") "abc123" (PyStr "Bia") (PyStr "7") (PyStr "Ana") (PyStr "123")
       scenario_world
     = (Ok (fzero, fzero, None), scenario_world)
  /\ get_special_multiplier env_as_written scenario_timestamp = Raise TypeError
  /\ process_pedido_item env_as_written coffee_stored scenario_products scenario_timestamp
       (PyStr "2024-03-01") "abc123" (PyStr "Bia") (PyStr "7") (PyStr "Ana") (PyStr "123")
       scenario_world
     = (Raise TypeError, scenario_world)
  /\ process_pedido_items env_as_written (PyDict (order_of [item_coffee; item_bread]))
       scenario_products scenario_timestamp
       (PyStr "2024-03-01") "abc123" (PyStr "Bia") (PyStr "7") (PyStr "Ana") (PyStr "123")
       scenario_world
     = (Raise TypeError, scenario_world)
  /\ process_body env_as_written "abc123" scenario_world = (Raise TypeError, scenario_world)
  /\ process_message env_as_written scenario_message scenario_world
     = (Ok tt, acknowledged scenario_message scenario_world).
Proof. repeat split; vm_compute; reflexivity. Qed.
(** ** The category columns *)

Lemma split_from_skip sep skip cur l :
  split_from sep skip cur l = split_from sep 0 cur (drop skip l).
Proof.
  revert skip. induction l as [| c r IH]; intros [| k]; try reflexivity.
  - cbn [split_from drop]. apply IH.
Qed.

Lemma starts_with_spec p l : starts_with p l = true -> l = p ++ drop (List.length p) l.
Proof.
  revert l. induction p as [| a p IH]; intros l H; [reflexivity |].
  destruct l as [| c l]; [discriminate |]. cbn in H.
  apply andb_true_iff in H as [Hac H]. apply Ascii.eqb_eq in Hac. subst c.
  cbn. f_equal. now apply IH.
Qed.

Lemma split_from_cons sep cur l :
  exists p ps, split_from sep 0 cur l = p :: ps.
Proof.
  revert cur. induction l as [| c r IH]; intros cur; [now eexists _, _ |].
  cbn [split_from]. destruct (starts_with sep (c :: r)); [now eexists _, _ | apply IH].
Qed.

Lemma join_split_from sep :
  sep <> [] ->
  forall n l cur, (List.length l <= n)%nat -> join sep (split_from sep 0 cur l) = rev cur ++ l.
Proof.
  intros Hsep. induction n as [| n IH]; intros l cur Hlen.
  - destruct l; [| cbn in Hlen; lia]. cbn. now rewrite app_nil_r.
  - destruct l as [| c r]; [cbn; now rewrite app_nil_r |].
    cbn [split_from]. destruct (starts_with sep (c :: r)) eqn:Hst.
    + apply starts_with_spec in Hst.
      destruct sep as [| a sep']; [contradiction |].
      cbn [List.length drop app] in Hst. injection Hst as <- Hr.
      rewrite split_from_skip.
      replace (List.length (c :: sep') - 1)%nat with (List.length sep') by (cbn; lia).
      destruct (split_from_cons (c :: sep') [] (drop (List.length sep') r)) as (p & ps & Hp).
      pose proof (IH (drop (List.length sep') r) []) as Hrec.
      rewrite Hp in Hrec |- *.
      change (join (c :: sep') (rev cur :: p :: ps))
        with (rev cur ++ (c :: sep') ++ join (c :: sep') (p :: ps)).
      rewrite Hrec by (rewrite length_drop; cbn in Hlen; lia).
      cbn [rev app]. rewrite Hr at 2. reflexivity.
    + rewrite IH by (cbn in Hlen; lia). cbn [rev]. now rewrite <- app_assoc.
Qed.

Lemma str_app l1 l2 : str (l1 ++ l2) = (str l1 +:+ str l2)%string.
Proof.
  unfold str. induction l1 as [| c l1 IH]; [reflexivity |].
  change (String c (string_of_list_ascii (l1 ++ l2))
          = String c (string_of_list_ascii l1 +:+ string_of_list_ascii l2)).
  now rewrite IH.
Qed.

Lemma str_chars s : str (chars s) = s.
Proof. apply string_of_list_ascii_of_string. Qed.

Lemma concat_map_str sep pieces :
  String.concat sep (map str pieces) = str (join (chars sep) pieces).
Proof.
  induction pieces as [| p ps IH]; [reflexivity |].
  destruct ps as [| q ps]; [reflexivity |].
  change (String.concat sep (map str (p :: q :: ps)))
    with (str p +:+ sep +:+ String.concat sep (map str (q :: ps)))%string.
  rewrite IH. change (join (chars sep) (p :: q :: ps))
    with (p ++ chars sep ++ join (chars sep) (q :: ps)).
  now rewrite !str_app, str_chars.
Qed.

Lemma split_from_free a rest cur :
  forallb (fun x => negb (Ascii.eqb x ">")) a = true ->
  (forall c r, rest = c :: r -> Ascii.eqb c ">" = false) ->
  split_from (chars " >> ") 0 cur (a ++ rest)
  = split_from (chars " >> ") 0 (rev a ++ cur) rest.
Proof.
  revert cur. induction a as [| c a IH]; intros cur Ha Hrest; [reflexivity |].
  cbn [app split_from].
  assert (Hst : starts_with (chars " >> ") (c :: a ++ rest) = false).
  { destruct (starts_with (chars " >> ") (c :: a ++ rest)) eqn:Hst; [| reflexivity].
    apply starts_with_spec in Hst. cbn [chars list_ascii_of_string app List.length drop] in Hst.
    destruct a as [| c2 a].
    - destruct rest as [| c2 rest]; [discriminate Hst |].
      cbn [app drop] in Hst. injection Hst as _ -> _.
      discriminate (Hrest _ _ eq_refl).
    - cbn [app drop] in Hst. injection Hst as _ -> _.
      cbn [forallb] in Ha. apply andb_true_iff in Ha as [_ Ha].
      apply andb_true_iff in Ha as [Ha _]. discriminate Ha. }
  rewrite Hst. cbn in Ha. apply andb_true_iff in Ha as [_ Ha].
  rewrite IH by assumption. cbn [rev]. now rewrite <- app_assoc.
Qed.

(** X18: the two category columns are the first two pieces of the product's
    category, cut at [" >> "].  Cutting loses nothing: the pieces joined by
    [" >> "] give the category back.  For a category [a >> b], where [>]
    occurs neither in [a] nor in [b], the columns are [a] and [b]; for a
    category without [>] they are the category and the empty text. *)
Theorem category_is_cut_at_the_separator :
  (forall s, String.concat " >> " (split s " >> ") = s)
  /\ (forall a b,
        free_of ">" a = true -> free_of ">" b = true ->
        let pieces := split (a +:+ " >> " +:+ b) " >> " in
        nth 0 pieces "" = a /\ nth 1 pieces "" = b)
  /\ (forall a,
        free_of ">" a = true ->
        let pieces := split a " >> " in
        nth 0 pieces "" = a /\ nth 1 pieces "" = "").
Proof.
  split; [| split].
  - intros s. unfold split. rewrite concat_map_str.
    rewrite (join_split_from (chars " >> ") ltac:(discriminate) (List.length (chars s)))
      by reflexivity.
    apply str_chars.
  - intros a b Ha Hb. cbv zeta. unfold split, free_of in *.
    rewrite !chars_append.
    rewrite split_from_free; [| exact Ha | intros c r [= <- _]; reflexivity].
    change (chars " >> " ++ chars b) with (" "%char :: ">"%char :: ">"%char :: " "%char :: chars b).
    cbn [split_from starts_with chars list_ascii_of_string Ascii.eqb Bool.eqb andb
         List.length Nat.sub].
    rewrite <- (app_nil_r (chars b)).
    rewrite split_from_free; [| exact Hb | discriminate].
    cbn [split_from map nth]. rewrite !app_nil_r, !rev_involutive, !str_chars. now split.
  - intros a Ha. cbv zeta. unfold split, free_of in *.
    rewrite <- (app_nil_r (chars a)).
    rewrite split_from_free; [| exact Ha | discriminate].
    cbn [split_from map nth]. rewrite !app_nil_r, !rev_involutive, !str_chars. now split.
Qed.

(** On the category of the scenario's product. *)
Lemma scenario_category_is_cut :
  nth 0 (split "Bebidas >> Cafe" " >> ") "" = "Bebidas"
  /\ nth 1 (split "Bebidas >> Cafe" " >> ") "" = "Cafe".
Proof.
  exact (proj1 (proj2 category_is_cut_at_the_separator) "Bebidas" "Cafe" eq_refl eq_refl).
Defined.

(** ** Product ids that are no text *)

(** X19: the product documents are kept under the text of the blob's
    [Produto-ID]; a line item whose [idProduto] is no text (a number, a
    boolean, [None]) never finds its document and yields no row, whatever
    the bucket holds, and one whose [idProduto] is a list or a dictionary
    raises [TypeError]. *)
Theorem non_text_product_id_gives_no_row
    (E : Env) (item produto_id : pyobj) (produto_data : gmap string pyobj)
    (processing_timestamp : datetime) (pedido_dia : pyobj) (uuid : string)
    (nome_vendedor id_vendedor cliente_nome cliente_cpf : pyobj) (w : World) :
  getitem item "idProduto" = Ok produto_id ->
  (forall s, produto_id <> PyStr s) ->
  process_pedido_item E item produto_data processing_timestamp pedido_dia uuid
    nome_vendedor id_vendedor cliente_nome cliente_cpf w
  = match produto_id with
    | PyList _ | PyDict _ => (Raise TypeError, w)
    | _ => (Ok (fzero, fzero, None), w)
    end.
Proof.
  intros Hid Hns. unfold process_pedido_item. rewrite bind_lift, Hid.
  destruct produto_id as [| b | z | f | s | l | d]; try reflexivity.
  now destruct (Hns s).
Qed.

(** On a line item whose product id is the number 111, with the document
    of the product 111 there. *)
Lemma numeric_product_id_gives_no_row :
  process_pedido_item env_time_class item_numeric_id scenario_products scenario_timestamp
    (PyStr "2024-03-01") "abc123" (PyStr "Bia") (PyStr "7") (PyStr "Ana") (PyStr "123")
    scenario_world
  = (Ok (fzero, fzero, None), scenario_world).
Proof.
  apply (non_text_product_id_gives_no_row env_time_class item_numeric_id (PyInt 111)).
  - reflexivity.
  - discriminate.
Defined.

(** ** A table name that is not set *)

Lemma load_body_unset_name E sales_row sales_items_rows wh :
  TABLE_ID_SALES E = None ->
  tables wh !! sales_table_id E = None ->
  fault_free wh ->
  exists wh',
    load_body E sales_row sales_items_rows wh = (Raise TypeError, wh')
    /\ tables wh' = tables wh
    /\ dataset_id_of E ∈ datasets wh'.
Proof.
  intros Ha Hs H0. unfold load_body. cbv zeta.
  fold (dataset_id_of E).
  change (dataset_id_of E +:+ "." +:+ fmt (TABLE_ID_SALES E)) with (sales_table_id E).
  destruct (create_dataset_if_not_exists_exact (dataset_id_of E) wh H0)
    as (ds & n1 & E1 & Hds).
  rewrite (wbind_ok _ _ _ _ _ E1). clear E1.
  unfold wbind at 1, create_table_if_not_exists, except_NotFound, wbind at 1, get_table.
  rewrite call_fault_free by exact H0. cbn [tables with_calls with_datasets].
  rewrite Hs. unfold wbind, construct.
  repeat first [rewrite call_fault_free by exact H0 | progress cbv beta iota].
  rewrite Ha. cbn. eexists. split; [reflexivity |]. split; [reflexivity | exact Hds].
Qed.

(** X20: when the name of the order table is not set and no table
    [<project>.<dataset>.None] exists, a run of the writer in which no call
    fails creates the dataset and stops at [table_id.endswith(None)]: the
    [TypeError] is caught and logged, no table is created and no row is
    written. *)
Theorem unset_table_name_writes_nothing
    (E : Env) (sales_row : SalesRow.t) (sales_items_rows : list SalesItemsRow.t)
    (uuid : string) (w : World) :
  TABLE_ID_SALES E = None ->
  tables (bigquery w) !! sales_table_id E = None ->
  fault_free (bigquery w) ->
  let w' := (load_data_to_bigquery E sales_row sales_items_rows uuid w).2 in
  (load_body E sales_row sales_items_rows (bigquery w)).1 = Raise TypeError
  /\ (load_data_to_bigquery E sales_row sales_items_rows uuid w).1 = Ok tt
  /\ tables (bigquery w') = tables (bigquery w)
  /\ dataset_id_of E ∈ datasets (bigquery w').
Proof.
  intros Ha Hs H0. cbv zeta.
  destruct (load_body_unset_name E sales_row sales_items_rows (bigquery w) Ha Hs H0)
    as (wh' & Erun & Ht & Hd).
  unfold load_data_to_bigquery, in_warehouse. rewrite Erun. cbn. auto.
Qed.

(** On the scenario's rows and an empty warehouse. *)
Lemma scenario_without_table_name_writes_nothing :
  let w' :=
    (load_data_to_bigquery env_without_sales_table example_order_row scenario_rows
       "abc123" scenario_world).2 in
  (load_body env_without_sales_table example_order_row scenario_rows
     (bigquery scenario_world)).1 = Raise TypeError
  /\ (load_data_to_bigquery env_without_sales_table example_order_row scenario_rows
        "abc123" scenario_world).1 = Ok tt
  /\ tables (bigquery w') = tables (bigquery scenario_world)
  /\ dataset_id_of env_without_sales_table ∈ datasets (bigquery w').
Proof.
  apply (unset_table_name_writes_nothing env_without_sales_table example_order_row
           scenario_rows "abc123" scenario_world).
  - reflexivity.
  - reflexivity.
  - intros n. reflexivity.
Defined.

(** ** The orders the module as it stands can assemble *)

(** X21: in the module as it stands, every line item that has product
    metadata raises; so whenever [process_pedido_items] returns, it returns
    no item row, and the order's value and points are the integer 0 of the
    empty sum: the only orders the module can write are orders none of whose
    items has product metadata, with no item row and zero points. *)
Theorem as_written_orders_have_no_item_row
    (E : Env) (pedido_pdv : pyobj) (produto_data : gmap string pyobj)
    (processing_timestamp : datetime) (pedido_dia : pyobj) (uuid : string)
    (nome_vendedor id_vendedor cliente_nome cliente_cpf : pyobj)
    (w w1 : World) (pedido_valor pedido_pontos : number)
    (sales_items_rows : list SalesItemsRow.t) :
  as_written E ->
  process_pedido_items E pedido_pdv produto_data processing_timestamp pedido_dia uuid
    nome_vendedor id_vendedor cliente_nome cliente_cpf w
  = (Ok (pedido_valor, pedido_pontos, sales_items_rows), w1) ->
  sales_items_rows = [] /\ pedido_valor = NInt 0 /\ pedido_pontos = NInt 0 /\ w1 = w.
Proof.
  intros HE Hrun.
  apply process_pedido_items_inv in Hrun as (-> & -> & Hcomp & itens & l & _ & _ & Hloop).
  destruct (process_items_loop_header _ _ _ _ _ _ _ _ _ _ _ _ _ _ _ Hloop)
    as (new & Hrows & _ & _ & _ & ->).
  cbn in Hrows. subst new.
  destruct sales_items_rows as [| row rows]; [now repeat split |].
  inversion Hcomp as [| ? ? (Hsp & _) _]; subst.
  rewrite (get_special_multiplier_as_written E processing_timestamp HE) in Hsp.
  discriminate Hsp.
Qed.

(** On an order whose only item is the bread, which has no product
    document. *)
Lemma bread_alone_is_an_empty_order :
  exists pedido_valor pedido_pontos sales_items_rows w1,
    process_pedido_items env_as_written (PyDict (order_of [item_bread]))
      scenario_products scenario_timestamp (PyStr "2024-03-01") "abc123"
      (PyStr "Bia") (PyStr "7") (PyStr "Ana") (PyStr "123") scenario_world
    = (Ok (pedido_valor, pedido_pontos, sales_items_rows), w1)
    /\ sales_items_rows = [] /\ pedido_valor = NInt 0 /\ pedido_pontos = NInt 0
    /\ w1 = scenario_world.
Proof.
  assert (H : process_pedido_items env_as_written (PyDict (order_of [item_bread]))
                scenario_products scenario_timestamp (PyStr "2024-03-01") "abc123"
                (PyStr "Bia") (PyStr "7") (PyStr "Ana") (PyStr "123") scenario_world
              = (Ok (NInt 0, NInt 0, []), scenario_world)) by (vm_compute; reflexivity).
  exists (NInt 0), (NInt 0), [], scenario_world. split; [exact H |].
  exact (as_written_orders_have_no_item_row env_as_written _ _ _ _ _ _ _ _ _ _ _ _ _ _
           eq_refl H).
Defined.
